(** * GROBID batch processor: text extraction and batch scheduling

    A shallow embedding of [grobid_batch_processor.py] (the module, with
    [process_pdfs_in_batches]) and of the processing loop of
    [process_pdfs_grobid.py] (the script), followed by the properties of the
    extractor and of the scheduler.

    Python [str] values are sequences of code points; the external service,
    the health endpoint and the directory contents are the environment. *)

From Stdlib Require Import ZArith Lia Ascii String.
From stdpp Require Import base option list gmap.

Open Scope Z_scope.
Open Scope list_scope.

(* ================================================================= *)
(** ** Python strings *)

(** A Python [str]: a list of Unicode code points. *)
Abbreviation ustr := (list N).

Fixpoint u (s : string) : ustr :=
  match s with
  | EmptyString => []
  | String c s' => N_of_ascii c :: u s'
  end.

Module Py.

(** Truth value of an [Optional[str]]: [None] and the empty string are
    false. *)
Definition truthy (t : option ustr) : bool :=
  match t with
  | Some (_ :: _) => true
  | _ => false
  end.

(** The code points for which [str.isspace] holds; these are what
    [str.strip()] removes. *)
Definition whitespace : list N :=
  [9; 10; 11; 12; 13; 28; 29; 30; 31; 32; 133; 160; 5760;
   8192; 8193; 8194; 8195; 8196; 8197; 8198; 8199; 8200; 8201; 8202;
   8232; 8233; 8239; 8287; 12288]%N.

Definition isspace (c : N) : bool := existsb (N.eqb c) whitespace.

Fixpoint lstrip (s : ustr) : ustr :=
  match s with
  | c :: s' => if isspace c then lstrip s' else s
  | [] => []
  end.

Definition rstrip (s : ustr) : ustr := rev (lstrip (rev s)).

(** [s.strip()] *)
Definition strip (s : ustr) : ustr := rstrip (lstrip s).

(** [sep.join(parts)] *)
Fixpoint join (sep : ustr) (parts : list ustr) : ustr :=
  match parts with
  | [] => []
  | [p] => p
  | p :: rest => p ++ sep ++ join sep rest
  end.

Fixpoint startswith (pre s : ustr) : bool :=
  match pre, s with
  | [], _ => true
  | p :: pre', c :: s' => N.eqb p c && startswith pre' s'
  | _ :: _, [] => false
  end.

(** [s.endswith(suf)] *)
Definition endswith (suf s : ustr) : bool := startswith (rev suf) (rev s).

(** [s.replace(old, new)] for a non-empty [old]: every occurrence, left to
    right, without overlap.  [skip] counts the code points of a match that
    are still to be dropped. *)
Fixpoint replace_from (old new : ustr) (skip : nat) (s : ustr) : ustr :=
  match s with
  | [] => []
  | c :: s' =>
      match skip with
      | S k => replace_from old new k s'
      | O =>
          if startswith old s
          then new ++ replace_from old new (Nat.pred (length old)) s'
          else c :: replace_from old new O s'
      end
  end.

Definition replace (old new s : ustr) : ustr := replace_from old new O s.

(** [f.lower().endswith('.pdf')].  The only code points whose lower case
    is one of [p], [d], [f] are the ASCII letters themselves, and no lower
    case expansion ends in one of them, so the test looks at the last four
    code points of [f]. *)
Definition ascii_ci (lo c : N) : bool := N.eqb c lo || N.eqb c (lo - 32)%N.

Definition lower_endswith_pdf (f : ustr) : bool :=
  match rev f with
  | c4 :: c3 :: c2 :: c1 :: _ =>
      N.eqb c1 46 && ascii_ci 112 c2 && ascii_ci 100 c3 && ascii_ci 102 c4
  | _ => false
  end.

(** [os.path.join(a, b)] (POSIX). *)
Definition path_join (a b : ustr) : ustr :=
  if startswith (u "/") b then b
  else match a with
       | [] => b
       | _ => if endswith (u "/") a then a ++ b else a ++ u "/" ++ b
       end.

(** The components of a path: what stands between its slashes, the empty
    ones left out.  [cur] is the component being read. *)
Definition flush (cur : ustr) : list ustr :=
  match cur with [] => [] | _ => [cur] end.

Fixpoint components_from (cur s : ustr) : list ustr :=
  match s with
  | [] => flush cur
  | c :: s' =>
      if N.eqb c 47 then flush cur ++ components_from [] s'
      else components_from (cur ++ [c]) s'
  end.

Definition components (p : ustr) : list ustr := components_from [] p.

End Py.

(* ================================================================= *)
(** ** The regular expression of [extract_clean_text] *)

Module Re.

(** [r"(references|bibliography|acknowledg|agradecimientos)"] *)
Definition markers : list ustr :=
  [u "references"; u "bibliography"; u "acknowledg"; u "agradecimientos"].

(** Matching one lower-case ASCII letter of the pattern under
    [re.IGNORECASE] on [str]: the letter, its capital, and the code points
    Unicode folds onto it (long s; dotted capital and dotless i; the
    Kelvin sign). *)
Definition ci_match (p c : N) : bool :=
  N.eqb c p || N.eqb c (p - 32)%N
  || (N.eqb p 115 && N.eqb c 383)
  || (N.eqb p 105 && (N.eqb c 304 || N.eqb c 305))
  || (N.eqb p 107 && N.eqb c 8490).

Fixpoint match_at (pat s : ustr) : bool :=
  match pat, s with
  | [], _ => true
  | p :: pat', c :: s' => ci_match p c && match_at pat' s'
  | _ :: _, [] => false
  end.

(** Does some alternative of the pattern match at the start of [s]? *)
Definition marker_at (s : ustr) : bool := existsb (fun m => match_at m s) markers.

(** [re.split(pattern, s, flags=re.IGNORECASE)[0]]: what precedes the
    leftmost match, or all of [s] when nothing matches. *)
Fixpoint split_head (s : ustr) : ustr :=
  match s with
  | [] => []
  | c :: s' => if marker_at s then [] else c :: split_head s'
  end.

End Re.

(* ================================================================= *)
(** ** Exceptions *)

Inductive exn : Type :=
  | AttributeError
  | ParseError
  | FileNotFoundError
  | IsADirectoryError
  | NotADirectoryError
  | FileExistsError
  | SameFileError
  | ValueError
  | ZeroDivisionError
  | ServerUnavailable
  | ServiceError (call : nat).

Inductive result (A : Type) : Type :=
  | Ok (a : A)
  | Raise (e : exn).
Arguments Ok {A} a.
Arguments Raise {A} e.

Definition rbind {A B} (r : result A) (k : A -> result B) : result B :=
  match r with
  | Ok a => k a
  | Raise e => Raise e
  end.

(* ================================================================= *)
(** ** Element trees ([xml.etree.ElementTree]) *)

#[local] Unset Elimination Schemes.
Inductive element : Type :=
  | Element (tag : ustr) (text tail : option ustr) (children : list element).
#[local] Set Elimination Schemes.

Definition tag (e : element) : ustr := let 'Element t _ _ _ := e in t.
Definition text (e : element) : option ustr := let 'Element _ x _ _ := e in x.
Definition tail (e : element) : option ustr := let 'Element _ _ x _ := e in x.
Definition children (e : element) : list element := let 'Element _ _ _ cs := e in cs.

Module ET.

(** [e.iter()]: the element, then its descendants, in document order. *)
Fixpoint iter (e : element) : list element :=
  match e with
  | Element _ _ _ cs => e :: flat_map iter cs
  end.

(** What the path step [.//] ranges over: the elements below [e], [e]
    itself excluded. *)
Definition descendants (e : element) : list element := flat_map iter (children e).

Definition opt_text (t : option ustr) : list ustr :=
  if Py.truthy t then [default [] t] else [].

(** [e.itertext()]: the text of [e], then for each child its inner text
    followed by its tail. *)
Fixpoint itertext (e : element) : list ustr :=
  match e with
  | Element _ x _ cs =>
      opt_text x ++ flat_map (fun c => itertext c ++ opt_text (tail c)) cs
  end.

Definition has_tag (t : ustr) (e : element) : bool := bool_decide (tag e = t).

(** [root.findall(".//A/B", NS)] for qualified tags [A] and [B]. *)
Definition findall_path (a b : ustr) (root : element) : list element :=
  flat_map (fun d => List.filter (has_tag b) (children d))
           (List.filter (has_tag a) (descendants root)).

(** [root.find(".//A/B", NS)] *)
Definition find_path (a b : ustr) (root : element) : option element :=
  head (findall_path a b root).

(** [root.find(".//A", NS)] *)
Definition find_desc (a : ustr) (root : element) : option element :=
  head (List.filter (has_tag a) (descendants root)).

End ET.

(* ================================================================= *)
(** ** [extract_clean_text] *)

(** [NS['tei']], in the braces ElementTree puts around it. *)
Definition NS_tei : ustr := u "{http://www.tei-c.org/ns/1.0}".

Definition tei (local : string) : ustr := NS_tei ++ u local.

Definition blank_line : ustr := [10; 10]%N.

(** [t.strip()] for an attribute [t] that may be [None]. *)
Definition text_strip (t : option ustr) : result ustr :=
  match t with
  | Some s => Ok (Py.strip s)
  | None => Raise AttributeError
  end.

Fixpoint rmap {A B} (f : A -> result B) (l : list A) : result (list B) :=
  match l with
  | [] => Ok []
  | a :: l' => rbind (f a) (fun b => rbind (rmap f l') (fun bs => Ok (b :: bs)))
  end.

Definition title_entry (root : element) : result (list ustr) :=
  match ET.find_path (tei "titleStmt") (tei "title") root with
  | Some title =>
      if Py.truthy (text title)
      then rbind (text_strip (text title)) (fun s => Ok [u "TITLE: " ++ s])
      else Ok []
  | None => Ok []
  end.

(** The generator [kw.text.strip() for kw in kws if kw.text]. *)
Definition keyword_items (kws : list element) : result (list ustr) :=
  rmap (fun kw => text_strip (text kw))
       (List.filter (fun kw => Py.truthy (text kw)) kws).

Definition keywords_entry (root : element) : result (list ustr) :=
  match ET.findall_path (tei "keywords") (tei "term") root with
  | [] => Ok []
  | kws => rbind (keyword_items kws)
             (fun items => Ok [u "KEYWORDS: " ++ Py.join (u ", ") items])
  end.

Definition abstract_entry (root : element) : list ustr :=
  match ET.find_desc (tei "abstract") root with
  | Some abstract => [u "ABSTRACT: " ++ Py.strip (Py.join (u " ") (ET.itertext abstract))]
  | None => []
  end.

Definition retained_tags : list ustr :=
  [u "head"; u "p"; u "label"; u "list"; u "figure"].

(** [tag in {"head", "p", "label", "list", "figure"}] after the namespace
    has been removed from the tag. *)
Definition retained (e : element) : bool :=
  bool_decide (Py.replace NS_tei [] (tag e) ∈ retained_tags).

Definition block_text (e : element) : ustr :=
  Py.strip (Py.join (u " ") (ET.itertext e)).

(** [parts]: the non-empty texts of the retained elements of the body, in
    document order. *)
Definition body_parts (body : element) : list ustr :=
  List.filter (fun txt => negb (bool_decide (txt = [])))
              (map block_text (List.filter retained (ET.iter body))).

Definition clean_body (body : element) : ustr :=
  Py.strip (Re.split_head (Py.join blank_line (body_parts body))).

Definition body_entry (root : element) : list ustr :=
  match ET.find_desc (tei "body") root with
  | Some body => [clean_body body]
  | None => []
  end.

(** The list [content] at the [return]. *)
Definition content_entries (root : element) : result (list ustr) :=
  rbind (title_entry root) (fun t =>
  rbind (keywords_entry root) (fun k =>
  Ok (t ++ k ++ abstract_entry root ++ body_entry root))).

(** [extract_clean_text] from the parsed tree on. *)
Definition extract_tree (root : element) : result ustr :=
  rbind (content_entries root) (fun content => Ok (Py.join blank_line content)).

(* ================================================================= *)
(** ** The environment of a run *)

(** The content of a file. *)
Abbreviation data := (list N).

(** An entry of a directory: a regular file or a subdirectory. *)
Inductive node : Type :=
  | File (d : data)
  | Dir.

(** A directory: its entries in the order [os.listdir] reports them. *)
Abbreviation dir := (list (ustr * node)).

(** A file is named by its directory and its name in it,
    [os.path.join(d, name)]. *)
Abbreviation location := (ustr * ustr)%type.

Inductive message : Type :=
  | MsgFound (n : nat)
  | MsgBatch (lote_num : Z) (n : nat)
  | MsgDown
  | MsgRestarting
  | MsgAttemptError (attempt : Z) (e : exn)
  | MsgRetrying
  | MsgSkip
  | MsgExtractError (fname : ustr) (e : exn)
  | MsgSuggest
  | MsgDone (n : nat).

(** What a run does that can be observed from outside, besides the files. *)
Inductive event : Type :=
  | Print (m : message)
  | Sleep (secs : Z)
  | Probe (ok : bool)
  | Connect (ok : bool)
  | Submit (call : nat) (ok : bool)
  | Collect.

Global Instance exn_eq_dec : EqDecision exn.
Proof. solve_decision. Defined.
Global Instance message_eq_dec : EqDecision message.
Proof. solve_decision. Defined.
Global Instance event_eq_dec : EqDecision event.
Proof. solve_decision. Defined.

(** The state of the world: the directories, by path; how many requests
    to the health endpoint and how many service calls have been made; the
    events so far. *)
Record world : Type := World {
  fs : gmap ustr dir;
  probes : nat;
  calls : nat;
  trace : list event
}.

Definition set_fs (f : gmap ustr dir -> gmap ustr dir) (w : world) : world :=
  World (f (fs w)) (probes w) (calls w) (trace w).

Definition log (e : event) (w : world) : world :=
  World (fs w) (probes w) (calls w) (trace w ++ [e]).

(** Computations that read and change the world and may raise. *)
Definition M (A : Type) : Type := world -> world * result A.

Definition ret {A} (a : A) : M A := fun w => (w, Ok a).

Definition bind {A B} (m : M A) (k : A -> M B) : M B :=
  fun w =>
    match m w with
    | (w', Ok a) => k a w'
    | (w', Raise e) => (w', Raise e)
    end.

Definition lift {A} (r : result A) : M A := fun w => (w, r).

(** [try: m except Exception as e: h e] *)
Definition try_except {A} (m : M A) (h : exn -> M A) : M A :=
  fun w =>
    match m w with
    | (w', Ok a) => (w', Ok a)
    | (w', Raise e) => h e w'
    end.

Definition emit (e : event) : M unit := fun w => (log e w, Ok tt).

Notation "x <- m ;; k" := (bind m (fun x => k))
  (at level 100, m at next level, right associativity).
Notation "m >> k" := (bind m (fun _ => k))
  (at level 100, right associativity).

Definition print (m : message) : M unit := emit (Print m).
Definition time_sleep (secs : Z) : M unit := emit (Sleep secs).
Definition gc_collect : M unit := emit Collect.

(** A [for] loop without [break]. *)
Fixpoint for_each {A} (l : list A) (body : A -> M unit) : M unit :=
  match l with
  | [] => ret tt
  | a :: l' => body a >> for_each l' body
  end.

(** A [for] loop whose body answers [true] when it ends in [break]. *)
Fixpoint for_break {A} (l : list A) (body : A -> M bool) : M unit :=
  match l with
  | [] => ret tt
  | a :: l' => b <- body a ;; if b : bool then ret tt else for_break l' body
  end.

(** [range(start, stop)] *)
Definition py_range (start stop : Z) : list Z :=
  map (fun i => start + Z.of_nat i) (seq 0 (Z.to_nat (stop - start))).

(** [range(0, stop, step)] for [stop >= 0]: an error for a zero step, empty
    for a negative one. *)
Definition py_range_step (stop step : Z) : result (list Z) :=
  if bool_decide (step = 0) then Raise ValueError
  else if bool_decide (step < 0) then Ok []
  else Ok (map (fun i => Z.of_nat i * step)
               (seq 0 (Z.to_nat ((stop + step - 1) / step)))).

(** [l[a:b]] for [0 <= a] and [0 <= b]. *)
Definition py_slice {A} (l : list A) (a b : Z) : list A :=
  take (Z.to_nat (b - a)) (drop (Z.to_nat a) l).

(** [enumerate(l)] *)
Definition enumerate {A} (l : list A) : list (nat * A) := zip (seq 0 (length l)) l.

(** [a % b] on integers. *)
Definition py_mod (a b : Z) : result Z :=
  if bool_decide (b = 0) then Raise ZeroDivisionError else Ok (a mod b).

(* ----------------------------------------------------------------- *)
(** *** Files *)

(** The directories of the file system are kept by path, each with its
    listing; a subdirectory has an entry in the listing of the directory
    above it and, when the state shows what it holds, a listing of its own.
    There are no links, and a path names a directory by its components from
    the root on: the properties that depend on which directory a path names
    are stated for paths in normal form ([proper_path]).  An operation
    fails only for what the state shows (a missing directory or file, a
    directory where a file is expected or a file where a directory is, a
    file copied onto itself). *)

Fixpoint entry (d : dir) (name : ustr) : option node :=
  match d with
  | [] => None
  | (n, x) :: d' => if bool_decide (n = name) then Some x else entry d' name
  end.

(** Write an entry: in place when the name is taken, last otherwise. *)
Fixpoint put (d : dir) (name : ustr) (x : node) : dir :=
  match d with
  | [] => [(name, x)]
  | (n, y) :: d' =>
      if bool_decide (n = name) then (n, x) :: d' else (n, y) :: put d' name x
  end.

(** Take the entries named [name] out of a listing. *)
Definition unlist (d : dir) (name : ustr) : dir :=
  List.filter (fun e => negb (bool_decide (e.1 = name))) d.

(** Where a path starts: the root, or the current directory, written as
    the empty path. *)
Definition path_root (p : ustr) : ustr :=
  if Py.startswith (u "/") p then u "/" else [].

(** The steps down to a path: each directory on the way, with the name of
    the next one in it. *)
Fixpoint steps (h : ustr) (cs : list ustr) : list (ustr * ustr) :=
  match cs with
  | [] => []
  | c :: cs' => (h, c) :: steps (Py.path_join h c) cs'
  end.

Definition path_steps (p : ustr) : list (ustr * ustr) :=
  steps (path_root p) (Py.components p).

(** The directories above [p], outermost first. *)
Definition above (p : ustr) : list ustr := map fst (path_steps p).

(** The path that the components of [p] spell. *)
Definition spelled (p : ustr) : ustr :=
  fold_left Py.path_join (Py.components p) (path_root p).

(** [q] lies below the directory [p]. *)
Definition below (p q : ustr) : bool := bool_decide (p ∈ above q).

(** One step of [os.makedirs]: the directory [t] of [h] is made unless it
    is there.  A regular file of that name is in the way: [mkdir] raises
    [FileExistsError] at the end of the path, and [NotADirectoryError]
    when it is asked for a directory inside the file.  A directory that [h]
    lists is there, also when the state does not show what it holds; where
    the state does not show what [h] holds, the new directory is entered on
    its own. *)
Definition make_step (blocked : exn) (h t : ustr) : M unit :=
  fun w =>
    let q := Py.path_join h t in
    match fs w !! q with
    | Some _ => (w, Ok tt)
    | None =>
        match fs w !! h with
        | Some d =>
            match entry d t with
            | Some (File _) => (w, Raise blocked)
            | Some Dir => (w, Ok tt)
            | None =>
                (set_fs (fun m => <[q := []]> (<[h := put d t Dir]> m)) w, Ok tt)
            end
        | None => (set_fs (insert q []) w, Ok tt)
        end
    end.

Fixpoint make_steps (l : list (ustr * ustr)) : M unit :=
  match l with
  | [] => ret tt
  | (h, t) :: l' =>
      make_step (match l' with [] => FileExistsError | _ => NotADirectoryError end) h t
      >> make_steps l'
  end.

(** [os.makedirs(p, exist_ok=True)]: the directories on the way to [p]
    that are missing are made, outermost first, and then [p] itself. *)
Definition os_makedirs (p : ustr) : M unit := make_steps (path_steps p).

(** [os.listdir(p)] *)
Definition os_listdir (p : ustr) : M (list ustr) :=
  fun w =>
    match fs w !! p with
    | Some d => (w, Ok (map fst d))
    | None => (w, Raise FileNotFoundError)
    end.

(** Open a file for reading. *)
Definition read_file (loc : location) : M data :=
  fun w =>
    match fs w !! loc.1 with
    | Some d =>
        match entry d loc.2 with
        | Some (File c) => (w, Ok c)
        | Some Dir => (w, Raise IsADirectoryError)
        | None => (w, Raise FileNotFoundError)
        end
    | None => (w, Raise FileNotFoundError)
    end.

(** Open a file for writing and write [c]. *)
Definition write_file (loc : location) (c : data) : M unit :=
  fun w =>
    match fs w !! loc.1 with
    | Some d =>
        match entry d loc.2 with
        | Some Dir => (w, Raise IsADirectoryError)
        | _ => (set_fs (insert loc.1 (put d loc.2 (File c))) w, Ok tt)
        end
    | None => (w, Raise FileNotFoundError)
    end.

(** [shutil.copyfile(src, dst)]: the same-file test, then the source is
    opened, then the destination. *)
Definition copyfile (src dst : location) : M unit :=
  if bool_decide (src = dst) then
    (fun w =>
       match fs w !! src.1 with
       | Some d =>
           match entry d src.2 with
           | Some _ => (w, Raise SameFileError)
           | None => (w, Raise FileNotFoundError)
           end
       | None => (w, Raise FileNotFoundError)
       end)
  else c <- read_file src ;; write_file dst c.

(** [shutil.copy(src, d)] for a directory [d]: the copy takes the name of
    the source. *)
Definition shutil_copy_into (src : location) (d : ustr) : M unit :=
  copyfile src (d, src.2).

(** [shutil.copy(src, dst)] for a path [dst] in a directory: when [dst] is
    itself a directory the copy goes inside it, where entries are not
    followed. *)
Definition shutil_copy_to (src dst : location) : M unit :=
  fun w =>
    match fs w !! dst.1 ≫= (fun d => entry d dst.2) with
    | Some Dir => (c <- read_file src ;; ret tt) w
    | _ => copyfile src dst w
    end.

(** What is left when the directory [p] goes: the directories that are
    neither [p] nor below it, and the directory above [p] without its entry
    for [p]. *)
Definition remove_tree (p : ustr) (m : gmap ustr dir) : gmap ustr dir :=
  let m' := filter (fun kv => kv.1 <> p /\ below p kv.1 = false) m in
  match last (path_steps p) with
  | Some (h, t) =>
      match m' !! h with
      | Some d => <[h := unlist d t]> m'
      | None => m'
      end
  | None => m'
  end.

(** [shutil.rmtree(p, ignore_errors=True)]: nothing happens when [p] is
    not a directory. *)
Definition shutil_rmtree (p : ustr) : M unit :=
  fun w =>
    match fs w !! p with
    | Some _ => (set_fs (remove_tree p) w, Ok tt)
    | None => (w, Ok tt)
    end.

(* ----------------------------------------------------------------- *)
(** *** The scheduler *)

Record config : Type := Config {
  input_dir : ustr;
  output_dir : ustr;
  batch_size : Z;
  max_retries : Z;
  restart_every : Z
}.

(** The two programs: the module's [process_pdfs_in_batches] and the
    script's processing loop. *)
Inductive flavour : Type := Module_ | Script.

Definition tmp_input : ustr := u "/content/tmp_pdfs".
Definition tmp_output : ustr := u "/content/tmp_tei".

Arguments u : simpl never.
Arguments tmp_input : simpl never.
Arguments tmp_output : simpl never.

Definition tei_folder (fl : flavour) (cfg : config) : ustr :=
  Py.path_join (output_dir cfg)
    (match fl with Module_ => u "articulos_tei" | Script => u "tei" end).

Definition txt_folder (fl : flavour) (cfg : config) : ustr :=
  Py.path_join (output_dir cfg)
    (match fl with Module_ => u "articulos_txt" | Script => u "txt" end).

Section Scheduler.

(** [alive k]: does the [k]-th request to the health endpoint come back
    with status 200? *)
Variable alive : nat -> bool.

(** [reachable k]: does the [k]-th request to the health endpoint get an
    answer at all, whatever its status? *)
Variable reachable : nat -> bool.

(** [service k staged out]: the [k]-th call of [client.process] on the
    staged inputs, with [out] already in the scratch output directory:
    what the output directory holds when the call ends, and whether the
    call returned ([true]) or raised. *)
Variable service : nat -> dir -> dir -> dir * bool.

(** [ET.parse] on the content of a file: the root of the tree, or nothing
    when the content is not well-formed markup. *)
Variable xml_parse : data -> option element.

Definition is_grobid_alive : M bool :=
  fun w =>
    let ok := alive (probes w) in
    (World (fs w) (S (probes w)) (calls w) (trace w ++ [Probe ok]), Ok ok).

(** [GrobidClient(grobid_server=..., timeout=300)]: the constructor of the
    client library, with [check_server] left at its default, requests the
    health endpoint once.  It raises when the request fails, and goes on
    whatever the status of an answer.  What the library writes to the
    console about the answer is part of the event [Connect]; the events
    [Print] are the messages of the program itself. *)
Definition GrobidClient : M unit :=
  fun w =>
    let ok := reachable (probes w) in
    (World (fs w) (S (probes w)) (calls w) (trace w ++ [Connect ok]),
     if ok then Ok tt else Raise ServerUnavailable).

Definition restart_grobid : M unit :=
  print MsgRestarting >> time_sleep 60.

(** [client.process(input_path=tmp_input, output=tmp_output, ...)] *)
Definition client_process : M unit :=
  fun w =>
    let r := service (calls w) (default [] (fs w !! tmp_input))
               (default [] (fs w !! tmp_output)) in
    (World (<[tmp_output := r.1]> (fs w)) (probes w) (S (calls w))
           (trace w ++ [Submit (calls w) r.2]),
     if r.2 then Ok tt else Raise (ServiceError (calls w))).

Definition ET_parse (xml_path : location) : M element :=
  c <- read_file xml_path ;;
  match xml_parse c with
  | Some root => ret root
  | None => lift (Raise ParseError)
  end.

Definition extract_clean_text (xml_path : location) : M ustr :=
  root <- ET_parse xml_path ;; lift (extract_tree root).

(** The liveness check at the head of a batch; [true] when it ends in
    [break]. *)
Definition liveness_gate (fl : flavour) : M bool :=
  match fl with
  | Module_ =>
      a <- is_grobid_alive ;;
      if a : bool then ret false else (print MsgDown >> ret true)
  | Script =>
      a <- is_grobid_alive ;;
      if a : bool then ret false
      else (restart_grobid >>
            a' <- is_grobid_alive ;;
            if a' : bool then ret false else (print MsgDown >> ret true))
  end.

Definition stage (cfg : config) (batch : list ustr) : M unit :=
  for_each batch (fun fname => shutil_copy_into (input_dir cfg, fname) tmp_input).

(** What follows a failed attempt. *)
Definition after_failure (fl : flavour) (cfg : config) (attempt : Z) : M unit :=
  match fl with
  | Module_ =>
      if bool_decide (attempt = max_retries cfg) then print MsgSkip
      else time_sleep 30
  | Script =>
      if bool_decide (attempt < max_retries cfg)
      then (print MsgRetrying >> time_sleep 30)
      else print MsgSkip
  end.

(** One turn of the retry loop; [true] when it ends in [break]. *)
Definition attempt_body (fl : flavour) (cfg : config) (attempt : Z) : M bool :=
  try_except (client_process >> ret true)
    (fun e => print (MsgAttemptError attempt e) >>
              after_failure fl cfg attempt >> ret false).

Definition retry_loop (fl : flavour) (cfg : config) : M unit :=
  for_break (py_range 1 (max_retries cfg + 1)) (attempt_body fl cfg).

Definition harvest_file (fl : flavour) (cfg : config) (fname : ustr) : M unit :=
  if Py.endswith (u ".tei.xml") fname then
    shutil_copy_to (tmp_output, fname) (tei_folder fl cfg, fname) >>
    try_except
      (txt <- extract_clean_text (tmp_output, fname) ;;
       write_file (txt_folder fl cfg, Py.replace (u ".tei.xml") (u ".txt") fname) txt)
      (fun e => print (MsgExtractError fname e))
  else ret tt.

Definition harvest (fl : flavour) (cfg : config) : M unit :=
  names <- os_listdir tmp_output ;; for_each names (harvest_file fl cfg).

Definition cleanup : M unit :=
  shutil_rmtree tmp_input >> shutil_rmtree tmp_output >>
  gc_collect >> time_sleep 60.

Definition restart_hint (fl : flavour) (cfg : config) (lote_num : Z) : M unit :=
  r <- lift (py_mod lote_num (restart_every cfg)) ;;
  if bool_decide (r = 0)
  then match fl with Module_ => print MsgSuggest | Script => restart_grobid end
  else ret tt.

(** A batch from its staging on. *)
Definition process_batch (fl : flavour) (cfg : config) (lote_num : Z)
    (batch : list ustr) : M unit :=
  os_makedirs tmp_input >> os_makedirs tmp_output >>
  stage cfg batch >>
  retry_loop fl cfg >>
  harvest fl cfg >>
  cleanup >>
  restart_hint fl cfg lote_num.

(** The body of the batch loop; [true] when it ends in [break]. *)
Definition batch_body (fl : flavour) (cfg : config) (pdfs : list ustr)
    (it : nat * Z) : M bool :=
  let start_idx := it.2 in
  let batch := py_slice pdfs start_idx (start_idx + batch_size cfg) in
  let lote_num := Z.of_nat it.1 + 1 in
  print (MsgBatch lote_num (length batch)) >>
  halt <- liveness_gate fl ;;
  if halt : bool then ret true
  else (process_batch fl cfg lote_num batch >> ret false).

(** The run from the head of the batch loop on, with [its] the turns still
    to come, down to the closing report. *)
Definition run_from (fl : flavour) (cfg : config) (pdfs : list ustr)
    (its : list (nat * Z)) : M unit :=
  for_break its (batch_body fl cfg pdfs) >>
  print (MsgDone (length pdfs)).

(** The documents of a run. *)
Definition discover (cfg : config) : M (list ustr) :=
  names <- os_listdir (input_dir cfg) ;;
  ret (List.filter Py.lower_endswith_pdf names).

(** The folders of the results: the script makes [output_base] before
    the two folders in it. *)
Definition make_output_folders (fl : flavour) (cfg : config) : M unit :=
  match fl with
  | Module_ => ret tt
  | Script => os_makedirs (output_dir cfg)
  end >>
  os_makedirs (tei_folder fl cfg) >>
  os_makedirs (txt_folder fl cfg).

(** The run: the output folders, the client, the documents, the batch
    loop, the closing report.  The elapsed time of the report is a float
    and is not kept in [MsgDone]. *)
Definition run (fl : flavour) (cfg : config) : M unit :=
  make_output_folders fl cfg >>
  GrobidClient >>
  pdfs <- discover cfg ;;
  print (MsgFound (length pdfs)) >>
  starts <- lift (py_range_step (Z.of_nat (length pdfs)) (batch_size cfg)) ;;
  run_from fl cfg pdfs (enumerate starts).

(** [process_pdfs_in_batches(input_dir, output_dir, batch_size,
    max_retries, restart_every)] *)
Definition process_pdfs_in_batches (cfg : config) : M unit := run Module_ cfg.

(** The script: its output folders (lines 54 to 58), its client (line 75)
    and what follows [# === Procesamiento ===]; the installation of the
    packages, the mounting of the drive and the start of the server are
    left out.  Its paths and its batch size are constants; [max_retries]
    and [restart_every_n_batches] are read from globals the file does not
    bind, and so is the module [requests] of its [is_grobid_alive]: here
    the two limits are parameters and the answer of the health endpoint is
    the environment's, as in the module. *)
Definition script_config (max_retries restart_every_n_batches : Z) : config :=
  Config (u "/content/drive/MyDrive/articles") (u "/content/drive/MyDrive/results")
         5 max_retries restart_every_n_batches.

Definition process_pdfs_grobid (max_retries restart_every_n_batches : Z) : M unit :=
  run Script (script_config max_retries restart_every_n_batches).

End Scheduler.

(** The batches a run goes through, as the loop header and the slice of its
    first line make them. *)
Definition batches (B : Z) (pdfs : list ustr) : result (list (list ustr)) :=
  rbind (py_range_step (Z.of_nat (length pdfs)) B)
        (fun starts => Ok (map (fun s => py_slice pdfs s (s + B)) starts)).

(* ================================================================= *)
(** ** Vocabulary of the properties *)

(** [occurs_at lit s]: [s] starts with the lower-case ASCII literal [lit]
    written in any mix of upper and lower case. *)
Fixpoint occurs_at (lit s : ustr) : bool :=
  match lit, s with
  | [], _ => true
  | p :: lit', c :: s' => Py.ascii_ci p c && occurs_at lit' s'
  | _ :: _, [] => false
  end.

(** The pure reading of the keyword line: the stripped texts of the terms
    whose text is neither absent nor the empty string. *)
Definition keyword_texts (kws : list element) : list ustr :=
  map (fun kw => Py.strip (default [] (text kw)))
      (List.filter (fun kw => Py.truthy (text kw)) kws).

(** The four components of an artifact, each a list of no or one entry. *)
Definition title_part (root : element) : list ustr :=
  match ET.find_path (tei "titleStmt") (tei "title") root with
  | Some title =>
      if Py.truthy (text title)
      then [u "TITLE: " ++ Py.strip (default [] (text title))] else []
  | None => []
  end.

Definition keywords_part (root : element) : list ustr :=
  match ET.findall_path (tei "keywords") (tei "term") root with
  | [] => []
  | kws => [u "KEYWORDS: " ++ Py.join (u ", ") (keyword_texts kws)]
  end.


(** No entry of the join is empty. *)
Definition no_empty_entry (root : element) : Prop :=
  forall content, content_entries root = Ok content -> [] ∉ content.

(** No item of the keyword line is empty. *)
Definition no_empty_item (root : element) : Prop :=
  [] ∉ keyword_texts (ET.findall_path (tei "keywords") (tei "term") root).

(** The extractor as a function of the content of the document: the
    artifact of the tree the content parses to. *)
Definition extraction (xml_parse : data -> option element) (c : data) : result ustr :=
  match xml_parse c with
  | Some root => extract_tree root
  | None => Raise ParseError
  end.

(** [runs n m w]: [m] run [n] times in a row from [w]; the world at the
    end and the outcomes in order. *)
Fixpoint runs {A} (n : nat) (m : M A) (w : world) : world * list (result A) :=
  match n with
  | O => (w, [])
  | S n' => let r := m w in
            let rs := runs n' m r.1 in
            (rs.1, r.2 :: rs.2)
  end.

(** Counting the events of one kind in a trace: the backoff waits of 30
    seconds, the calls of the service, the marks of a skipped batch. *)
Definition tally (p : event -> bool) (tr : list event) : nat :=
  length (List.filter p tr).

Definition is_backoff (e : event) : bool :=
  match e with Sleep secs => bool_decide (secs = 30) | _ => false end.

Definition is_submit (e : event) : bool :=
  match e with Submit _ _ => true | _ => false end.

Definition is_skip (e : event) : bool :=
  match e with Print MsgSkip => true | _ => false end.

Definition backoff_waits : list event -> nat := tally is_backoff.
Definition submissions : list event -> nat := tally is_submit.
Definition skip_marks : list event -> nat := tally is_skip.

(** The calls [c], ..., [c + k - 1] of the service all raise. *)
Definition failing (service : nat -> dir -> dir -> dir * bool) (c k : nat) : Prop :=
  forall j inp out, (j < k)%nat -> (service (c + j)%nat inp out).2 = false.

(** The call [c] of the service returns. *)
Definition succeeding (service : nat -> dir -> dir -> dir * bool) (c : nat) : Prop :=
  forall inp out, (service c inp out).2 = true.

(** The events of [after_failure]. *)
Definition backoff_events (fl : flavour) (cfg : config) (attempt : Z) : list event :=
  match fl with
  | Module_ =>
      if bool_decide (attempt = max_retries cfg) then [Print MsgSkip] else [Sleep 30]
  | Script =>
      if bool_decide (attempt < max_retries cfg)
      then [Print MsgRetrying; Sleep 30] else [Print MsgSkip]
  end.

(** The exceptions that come from the file system or from the
    configuration, as opposed to the service and the extractor. *)
Definition outside_error (e : exn) : Prop :=
  e = FileNotFoundError \/ e = IsADirectoryError \/ e = SameFileError \/
  e = ValueError \/ e = ZeroDivisionError \/
  e = NotADirectoryError \/ e = FileExistsError.

(** The batches a trace announces: number and size, from the line
    [Procesando lote ...]. *)
Definition announced (tr : list event) : list (Z * nat) :=
  flat_map (fun e => match e with
                     | Print (MsgBatch lote_num n) => [(lote_num, n)]
                     | _ => []
                     end) tr.

(** What the turn [it] of the batch loop announces. *)
Definition mark (cfg : config) (pdfs : list ustr) (it : nat * Z) : Z * nat :=
  (Z.of_nat it.1 + 1, length (py_slice pdfs it.2 (it.2 + batch_size cfg))).

(** [quiet m]: [m] adds to the trace, and announces no batch. *)
Definition quiet {A} (m : M A) : Prop :=
  forall w w' r, m w = (w', r) ->
    exists evs, trace w' = trace w ++ evs /\ announced evs = [].

(** The claim that nothing but a failed liveness check ends a run early. *)
Definition only_liveness_stops (alive reachable : nat -> bool)
    (service : nat -> dir -> dir -> dir * bool)
    (xml_parse : data -> option element) (fl : flavour) (cfg : config)
    (w : world) : Prop :=
  (forall k, alive k = true) -> (forall k, reachable k = true) ->
  exists w', run alive reachable service xml_parse fl cfg w = (w', Ok tt).

(** [raises_only P m]: an exception that leaves [m] satisfies [P]. *)
Definition raises_only {A} (P : exn -> Prop) (m : M A) : Prop :=
  forall w w' e, m w = (w', Raise e) -> P e.

(* ----------------------------------------------------------------- *)
(** *** Sample documents *)

Definition elt (name : string) (x : option ustr) (cs : list element) : element :=
  Element (tei name) x None cs.

Definition tei_doc (header body : list element) : element :=
  elt "TEI" None
    [elt "teiHeader" None header; elt "text" None [elt "body" None body]].

Definition header_title (t : string) : element :=
  elt "fileDesc" None [elt "titleStmt" None [elt "title" (Some (u t)) []]].

Definition header_keywords (terms : list string) : element :=
  elt "profileDesc" None
    [elt "textClass" None
       [elt "keywords" None (map (fun t => elt "term" (Some (u t)) []) terms)]].

(** Three paragraphs, the second one mentioning its references. *)
Definition body_mention : element :=
  elt "body" None [elt "div" None [elt "p" (Some (u "Intro")) [];
                                   elt "p" (Some (u "See References here")) [];
                                   elt "p" (Some (u "Later")) []]].

Definition doc_mention : element :=
  elt "TEI" None [elt "teiHeader" None []; elt "text" None [body_mention]].

(** Two keyword terms, one of them a single space. *)
Definition doc_blank_term : element :=
  elt "TEI" None [elt "teiHeader" None [header_keywords ["a"; " "]%string]].

(** A title and a body without text. *)
Definition doc_empty_body : element :=
  tei_doc [header_title "T"] [].

(* ----------------------------------------------------------------- *)
(** *** Sample runs *)

Definition sample_config : config := Config (u "/in") (u "/out") 5 3 5.

Definition always_alive : nat -> bool := fun _ => true.
Definition never_alive : nat -> bool := fun _ => false.

(** A service that raises on every call and writes nothing. *)
Definition refusing_service : nat -> dir -> dir -> dir * bool :=
  fun _ _ out => (out, false).

(** A service that raises on its first two calls and then writes one
    structured document. *)
Definition recovering_service : nat -> dir -> dir -> dir * bool :=
  fun k _ out =>
    if (k <? 2)%nat then (out, false)
    else (out ++ [(u "a.tei.xml", File (u "<TEI/>"))], true).

(** A parser that knows one file. *)
Definition sample_parse : data -> option element :=
  fun c => if bool_decide (c = u "<TEI/>") then Some doc_mention else None.

Definition pdf_file : node := File (u "%PDF").

Definition always_reachable : nat -> bool := fun _ => true.
Definition never_reachable : nat -> bool := fun _ => false.

(** The root with the folders [/content], [/in] and [/out], the last one
    with the two output folders of the module. *)
Definition with_output_folders (input : dir) : gmap ustr dir :=
  <[u "/" := [(u "content", Dir); (u "in", Dir); (u "out", Dir)]]>
    (<[u "/content" := []]>
       (<[u "/in" := input]>
          (<[u "/out" := [(u "articulos_tei", Dir); (u "articulos_txt", Dir)]]>
             (<[u "/out/articulos_tei" := []]>
                (<[u "/out/articulos_txt" := []]> ∅))))).

(** An input folder with one document, and the output folders. *)
Definition sample_world : world :=
  World (with_output_folders [(u "a.pdf", pdf_file)]) 0 0 [].

(** An input folder with seven documents. *)
Definition seven_names : list ustr :=
  map u ["a.pdf"; "b.pdf"; "c.pdf"; "d.pdf"; "e.pdf"; "f.pdf"; "g.pdf"]%string.

Definition seven_world : world :=
  World (with_output_folders (map (fun n => (n, pdf_file)) seven_names)) 0 0 [].

(** An input folder with a document and a subfolder whose name ends in
    [.pdf]. *)
Definition world_with_folder : world :=
  World (<[u "/in/scans.pdf" := []]>
           (with_output_folders [(u "a.pdf", pdf_file); (u "scans.pdf", Dir)]))
        0 0 [].

(** A scratch output directory holding one structured document. *)
Definition harvest_world : world :=
  World (<[tmp_output := [(u "a.tei.xml", File (u "<TEI/>"))]]>
           (<[u "/content" := [(u "tmp_tei", Dir)]]> (with_output_folders [])))
        0 0 [].

(* ----------------------------------------------------------------- *)
(** *** Paths and the parts of a run *)

(** An absolute path in normal form, the root apart: it is what its
    components spell (no slash is doubled, none ends the path), and none of
    the components is [.] or [..]. *)
Definition proper_path (p : ustr) : bool :=
  Py.startswith (u "/") p && bool_decide (spelled p = p) &&
  negb (bool_decide (Py.components p = [])) &&
  forallb (fun c => negb (bool_decide (c = u "." \/ c = u "..")))
          (Py.components p).

(** Neither path is the other, nor lies below it. *)
Definition unrelated (p q : ustr) : Prop :=
  p <> q /\ below p q = false /\ below q p = false.

(** Two directories, named in normal form, neither of which is the other
    or lies below it. *)
Definition apart (p q : ustr) : Prop :=
  proper_path p = true /\ proper_path q = true /\ unrelated p q.

(** Nothing stands in the way of [os.makedirs(p)]: the state shows the
    directory the path starts from, and every directory on the way to [p]
    is either shown, or to be made in a directory that lists nothing under
    its name. *)
Definition step_clear (m : gmap ustr dir) (s : ustr * ustr) : bool :=
  match m !! Py.path_join s.1 s.2 with
  | Some _ => true
  | None =>
      match m !! s.1 with
      | Some d => bool_decide (entry d s.2 = None)
      | None => true
      end
  end.

Definition way_clear (m : gmap ustr dir) (p : ustr) : bool :=
  bool_decide (is_Some (m !! path_root p)) && forallb (step_clear m) (path_steps p).

(** [grown m m']: every directory of [m] is one of [m'], and what a
    listing of [m'] holds is either held by the same listing of [m], or a
    directory that [m'] shows. *)
Definition grown (m m' : gmap ustr dir) : Prop :=
  (forall k, is_Some (m !! k) -> is_Some (m' !! k)) /\
  (forall k d' t x, m' !! k = Some d' -> entry d' t = Some x ->
     (exists d, m !! k = Some d /\ entry d t = Some x) \/
     (x = Dir /\ is_Some (m' !! Py.path_join k t))).

(** The directories a run works in. *)
Definition working_dirs (fl : flavour) (cfg : config) : list ustr :=
  [tmp_input; tmp_output; tei_folder fl cfg; txt_folder fl cfg].

(** [confined D m]: [m] leaves the directories as they are that are not
    in [D], nor above or below a member of [D]. *)
Definition confined {A} (D : list ustr) (m : M A) : Prop :=
  forall w w' r, m w = (w', r) ->
    forall p, Forall (unrelated p) D -> fs w' !! p = fs w !! p.

(** A run once its output folders and its client are there. *)
Definition run_listed (alive : nat -> bool)
    (service : nat -> dir -> dir -> dir * bool)
    (xml_parse : data -> option element) (fl : flavour) (cfg : config) : M unit :=
  pdfs <- discover cfg ;;
  print (MsgFound (length pdfs)) >>
  starts <- lift (py_range_step (Z.of_nat (length pdfs)) (batch_size cfg)) ;;
  run_from alive service xml_parse fl cfg pdfs (enumerate starts).

(** The exceptions of the file operations. *)
Definition file_error (e : exn) : Prop :=
  e = FileNotFoundError \/ e = IsADirectoryError \/ e = SameFileError \/
  e = NotADirectoryError \/ e = FileExistsError.

(* ----------------------------------------------------------------- *)
(** *** More sample runs *)



(** A service that writes one structured document at every call. *)
Definition writing_service : nat -> dir -> dir -> dir * bool :=
  fun _ _ out => (put out (u "a.tei.xml") (File (u "<TEI/>")), true).

(** A text folder in which the name of the text artifact is taken by a
    folder. *)
Definition blocked_text_world : world :=
  World (<[u "/out/articulos_txt/a.txt" := []]>
           (<[u "/out/articulos_txt" := [(u "a.txt", Dir)]]>
              (with_output_folders [(u "a.pdf", pdf_file)])))
        0 0 [].

Definition zero_hint_config : config := Config (u "/in") (u "/out") 5 3 0.

(** A service that does not answer the first liveness check. *)
Definition late_alive : nat -> bool := fun k => negb (k =? 0)%nat.

(** Another world, in which the same structured document is kept under
    another name. *)
Definition archived_world : world :=
  World (<[u "/out/articulos_tei" := [(u "b.tei.xml", File (u "<TEI/>"))]]>
           (with_output_folders []))
        7 3 [Print MsgDown].

(** A parser that rejects every file. *)
Definition no_parse : data -> option element := fun _ => None.

(** A figure with its heading. *)
Definition figure_head : element := elt "head" (Some (u "Figure 1")) [].

Definition figure : element :=
  elt "figure" None [figure_head; elt "figDesc" (Some (u "A plot")) []].

Definition body_figure : element := elt "body" None [elt "div" None [figure]].

(* ================================================================= *)
(** * Properties *)

Example strip_ex : Py.strip (u "  a b ") = u "a b".
Proof. reflexivity. Qed.

Example strip_unicode_ex : Py.strip [133; 120; 160]%N = [120]%N.
Proof. reflexivity. Qed.

Example replace_ex :
  Py.replace (u ".tei.xml") (u ".txt") (u "a.tei.xml.tei.xml") = u "a.txt.txt".
Proof. reflexivity. Qed.

Example replace_ns_ex : Py.replace NS_tei [] (tei "figure") = u "figure".
Proof. reflexivity. Qed.

Example pdf_name_ex :
  map Py.lower_endswith_pdf [u "X.PdF"; u "pdf"; u "a.pdf.txt"] = [true; false; false].
Proof. reflexivity. Qed.

Example path_join_ex :
  map (fun ab => Py.path_join ab.1 ab.2)
      [(u "/a", u "b"); (u "/a/", u "b"); ([], u "b"); (u "/a", u "/b")]
  = [u "/a/b"; u "/a/b"; u "b"; u "/b"].
Proof. reflexivity. Qed.

Example range_ex :
  py_range_step 7 5 = Ok [0; 5] /\ py_range_step 0 5 = Ok [] /\
  py_range_step 7 (-1) = Ok [] /\ py_range_step 7 0 = Raise ValueError /\
  py_range 1 (3 + 1) = [1; 2; 3] /\ py_range 1 (0 + 1) = [].
Proof. repeat split; reflexivity. Qed.

(** The long s is folded onto [s] by the pattern. *)
Example split_fold_ex :
  Re.split_head ([82; 101; 102; 101; 114; 101; 110; 99; 101; 383; 32; 120]%N) = [].
Proof. reflexivity. Qed.

(** [.//a/b]: the [a] below the root in document order, and for each its
    children [b]. *)
Example findall_order_ex :
  let b (n : string) := Element (u "b") (Some (u n)) None [] in
  let a cs := Element (u "a") None None cs in
  map text
    (ET.findall_path (u "a") (u "b")
       (Element (u "r") None None
          [a [b "1"; a [b "2"]; b "3"]; a [b "4"]]%string))
  = map (fun n => Some (u n)) ["1"; "3"; "2"; "4"]%string.
Proof. reflexivity. Qed.

Example itertext_ex :
  ET.itertext
    (Element (u "p") (Some (u "a")) None
       [Element (u "hi") (Some (u "b")) (Some (u "c")) []])
  = [u "a"; u "b"; u "c"].
Proof. reflexivity. Qed.

Example split_ex :
  Re.split_head (u "Intro. See References here") = u "Intro. See ".
Proof. reflexivity. Qed.

(* ----------------------------------------------------------------- *)
(** ** Strings *)

Section Strings.

Implicit Types s a b : ustr.

Lemma lstrip_suffix s : Py.lstrip s `suffix_of` s.
Proof.
  induction s as [|c s IH]; simpl; [done|].
  destruct (Py.isspace c); [|done].
  by apply suffix_cons_r.
Qed.




Lemma match_at_app pat s t :
  Re.match_at pat s = true -> Re.match_at pat (s ++ t) = true.
Proof.
  revert s; induction pat as [|p pat IH]; intros [|c s]; simpl; try done.
  intros [-> H]%andb_true_iff. by rewrite IH.
Qed.

Lemma occurs_at_match lit s :
  occurs_at lit s = true -> Re.match_at lit s = true.
Proof.
  revert s; induction lit as [|p lit IH]; intros [|c s]; simpl; try done.
  intros [Hc H]%andb_true_iff. rewrite (IH _ H), andb_true_r.
  unfold Py.ascii_ci in Hc. unfold Re.ci_match.
  apply orb_true_iff in Hc as [->| ->]; by rewrite ?orb_true_r.
Qed.


Lemma split_head_prefix s : Re.split_head s `prefix_of` s.
Proof.
  induction s as [|c s IH]; [done|].
  cbn [Re.split_head]. destruct (Re.marker_at (c :: s)).
  - apply prefix_nil.
  - by apply prefix_cons.
Qed.

(** Nothing from a match on survives the split. *)
Lemma split_head_before a b :
  Re.marker_at b = true -> Re.split_head (a ++ b) `prefix_of` a.
Proof.
  intros Hb. induction a as [|c a IH].
  - destruct b as [|c b]; [done|]. cbn [app Re.split_head]. by rewrite Hb.
  - cbn [app Re.split_head]. destruct (Re.marker_at (c :: a ++ b)).
    + apply prefix_nil.
    + by apply prefix_cons.
Qed.

(** No match starts inside what the split keeps. *)
Lemma split_head_clear s (i : nat) :
  (i < length (Re.split_head s))%nat -> Re.marker_at (drop i s) = false.
Proof.
  revert i; induction s as [|c s IH]; intros i; [simpl; lia|].
  cbn [Re.split_head]. destruct (Re.marker_at (c :: s)) eqn:E; [simpl; lia|].
  destruct i as [|i]; [done|]. simpl. intros H. apply IH. lia.
Qed.

Lemma marker_at_app s t :
  Re.marker_at s = true -> Re.marker_at (s ++ t) = true.
Proof.
  unfold Re.marker_at. rewrite !existsb_exists.
  intros (m & Hm & H). exists m. split; [done|]. by apply match_at_app.
Qed.

(** What the split keeps holds no match of the pattern. *)
Lemma split_head_free s (i : nat) :
  (i < length (Re.split_head s))%nat ->
  Re.marker_at (drop i (Re.split_head s)) = false.
Proof.
  intros Hi. destruct (Re.marker_at (drop i (Re.split_head s))) eqn:E; [|done].
  destruct (split_head_prefix s) as [t Ht].
  apply (marker_at_app _ t) in E.
  rewrite <- drop_app_le in E by lia. rewrite <- Ht in E.
  by rewrite split_head_clear in E.
Qed.

End Strings.

(* ----------------------------------------------------------------- *)
(** ** The extractor on a tree *)

Lemma rbind_ok {A B} (r : result A) (k : A -> result B) a :
  r = Ok a -> rbind r k = k a.
Proof. by intros ->. Qed.

Lemma keyword_items_ok kws : keyword_items kws = Ok (keyword_texts kws).
Proof.
  unfold keyword_items, keyword_texts.
  induction kws as [|kw kws IH]; [done|].
  cbn [List.filter]. destruct (Py.truthy (text kw)) eqn:E; [|done].
  cbn [rmap map]. rewrite IH.
  destruct (text kw) as [t|]; [done|discriminate].
Qed.

Lemma title_entry_ok root : title_entry root = Ok (title_part root).
Proof.
  unfold title_entry, title_part.
  destruct (ET.find_path _ _ root) as [title|]; [|done].
  destruct (text title) as [[|c t]|]; done.
Qed.

Lemma keywords_entry_ok root : keywords_entry root = Ok (keywords_part root).
Proof.
  unfold keywords_entry, keywords_part.
  destruct (ET.findall_path _ _ root) as [|kw kws]; [done|].
  by rewrite keyword_items_ok.
Qed.

Lemma content_entries_ok root :
  content_entries root =
  Ok (title_part root ++ keywords_part root ++ abstract_entry root ++ body_entry root).
Proof.
  unfold content_entries. by rewrite title_entry_ok, keywords_entry_ok.
Qed.

Lemma extract_tree_ok root :
  extract_tree root =
  Ok (Py.join blank_line
        (title_part root ++ keywords_part root ++ abstract_entry root ++ body_entry root)).
Proof. unfold extract_tree. by rewrite content_entries_ok. Qed.

Example doc_mention_parts :
  body_parts body_mention = [u "Intro"; u "See References here"; u "Later"].
Proof. vm_compute. reflexivity. Qed.


Example doc_empty_body_ex : extract_tree doc_empty_body = Ok (u "TITLE: T" ++ blank_line).
Proof. vm_compute. reflexivity. Qed.






(** C8: the keyword line of [doc_blank_term], whose terms are [a] and a
    single space, ends in an empty item: the test [if kw.text] sees the
    space, [strip()] then empties it. *)
Theorem blank_term_item :
  extract_tree doc_blank_term = Ok (u "KEYWORDS: a, ") /\
  keywords_part doc_blank_term = [u "KEYWORDS: " ++ Py.join (u ", ") [u "a"; []]] /\
  ~ no_empty_item doc_blank_term.
Proof.
  split; [vm_compute; reflexivity|]. split; [vm_compute; reflexivity|].
  intros H. apply H. vm_compute. apply list_elem_of_In. right. by left.
Qed.

(** What the keyword line does hold: a term is left out exactly when its
    text is absent or the empty string. *)
Lemma keyword_line root kw kws :
  ET.findall_path (tei "keywords") (tei "term") root = kw :: kws ->
  keywords_entry root =
    Ok [u "KEYWORDS: " ++ Py.join (u ", ") (keyword_texts (kw :: kws))].
Proof. intros H. rewrite keywords_entry_ok. unfold keywords_part. by rewrite H. Qed.

(** C9, as stated, fails: the body of [doc_empty_body] has no text and
    still adds an entry, the empty string, to the join. *)
Lemma empty_body_entry :
  content_entries doc_empty_body = Ok [u "TITLE: T"; []] /\
  extract_tree doc_empty_body = Ok (u "TITLE: T" ++ blank_line) /\
  ~ no_empty_entry doc_empty_body.
Proof.
  split; [vm_compute; reflexivity|]. split; [vm_compute; reflexivity|].
  intros H. apply (H [u "TITLE: T"; []]); [vm_compute; reflexivity|].
  apply list_elem_of_In. right. by left.
Qed.

Lemma title_part_found root :
  title_part root <> [] <->
  exists title, ET.find_path (tei "titleStmt") (tei "title") root = Some title
                /\ Py.truthy (text title) = true.
Proof.
  unfold title_part. destruct (ET.find_path _ _ root) as [title|].
  - destruct (Py.truthy (text title)) eqn:E; split; try done.
    + intros _. by exists title.
    + intros (t & [= <-] & Ht). congruence.
  - split; [done|]. by intros (t & ? & _).
Qed.

Lemma keywords_part_found root :
  keywords_part root <> [] <->
  ET.findall_path (tei "keywords") (tei "term") root <> [].
Proof.
  unfold keywords_part. by destruct (ET.findall_path _ _ root).
Qed.

Lemma abstract_entry_found root :
  abstract_entry root <> [] <-> is_Some (ET.find_desc (tei "abstract") root).
Proof.
  unfold abstract_entry. destruct (ET.find_desc _ root); split; try done.
Qed.

(** C9, amended: the artifact is the blank-line join of the title line, the
    keyword line, the abstract block and the cleaned body text, in this
    order; the title line is there exactly when a title with a non-empty
    text was found, the keyword line when a term was found, the abstract
    block when an abstract was found, the body text when a body was found.
    The first three are never empty, as each starts with its label; the
    body text is entered as it is. *)
Theorem artifact_components (root : element) :
  extract_tree root =
    Ok (Py.join blank_line
          (title_part root ++ keywords_part root ++ abstract_entry root
           ++ body_entry root)) /\
  (title_part root <> [] <->
     exists title, ET.find_path (tei "titleStmt") (tei "title") root = Some title
                   /\ Py.truthy (text title) = true) /\
  (keywords_part root <> [] <->
     ET.findall_path (tei "keywords") (tei "term") root <> []) /\
  (abstract_entry root <> [] <-> is_Some (ET.find_desc (tei "abstract") root)) /\
  (body_entry root = from_option (fun body => [clean_body body]) []
                       (ET.find_desc (tei "body") root)) /\
  (length (title_part root) <= 1 /\ length (keywords_part root) <= 1 /\
   length (abstract_entry root) <= 1 /\ length (body_entry root) <= 1)%nat /\
  [] ∉ title_part root ++ keywords_part root ++ abstract_entry root.
Proof.
  split; [apply extract_tree_ok|].
  split; [apply title_part_found|].
  split; [apply keywords_part_found|].
  split; [apply abstract_entry_found|].
  split; [unfold body_entry; by destruct (ET.find_desc _ root)|].
  split.
  - unfold title_part, keywords_part, abstract_entry, body_entry.
    repeat split; repeat case_match; simpl; lia.
  - rewrite !elem_of_app.
    unfold title_part, keywords_part, abstract_entry.
    intros [H|[H|H]]; repeat case_match;
      repeat (apply elem_of_cons in H as [H|H]); try done;
      by apply elem_of_nil in H.
Qed.

(* ----------------------------------------------------------------- *)
(** ** Computations *)

Lemma bind_ok {A B} (m : M A) (k : A -> M B) w w1 a :
  m w = (w1, Ok a) -> bind m k w = k a w1.
Proof. unfold bind. by intros ->. Qed.

Lemma bind_raise {A B} (m : M A) (k : A -> M B) w w1 e :
  m w = (w1, Raise e) -> bind m k w = (w1, Raise e).
Proof. unfold bind. by intros ->. Qed.

Lemma bind_inv_ok {A B} (m : M A) (k : A -> M B) w w' b :
  bind m k w = (w', Ok b) ->
  exists w1 a, m w = (w1, Ok a) /\ k a w1 = (w', Ok b).
Proof.
  unfold bind. destruct (m w) as [w1 [a|e]]; [|done]. intros H. by exists w1, a.
Qed.

Lemma bind_inv_raise {A B} (m : M A) (k : A -> M B) w w' e :
  bind m k w = (w', Raise e) ->
  m w = (w', Raise e) \/ exists w1 a, m w = (w1, Ok a) /\ k a w1 = (w', Raise e).
Proof.
  unfold bind. destruct (m w) as [w1 [a|e']]; intros H; [right; by exists w1, a|left; congruence].
Qed.

Lemma bind_inv {A B} (m : M A) (k : A -> M B) w w' r :
  bind m k w = (w', r) ->
  (exists e, m w = (w', Raise e) /\ r = Raise e) \/
  exists w1 a, m w = (w1, Ok a) /\ k a w1 = (w', r).
Proof.
  unfold bind. destruct (m w) as [w1 [a|e]]; intros H.
  - right. by exists w1, a.
  - left. exists e. split; congruence.
Qed.

Section RaisesOnly.

Context (P : exn -> Prop).

Lemma raises_only_ret {A} (a : A) : raises_only P (ret a).
Proof. by intros w w' e. Qed.

Lemma raises_only_weaken {A} (Q : exn -> Prop) (m : M A) :
  (forall e, Q e -> P e) -> raises_only Q m -> raises_only P m.
Proof. intros HQ Hm w w' e H. by eapply HQ, Hm. Qed.

Lemma raises_only_emit ev : raises_only P (emit ev).
Proof. by intros w w' e. Qed.

Lemma raises_only_bind {A B} (m : M A) (k : A -> M B) :
  raises_only P m -> (forall a, raises_only P (k a)) -> raises_only P (bind m k).
Proof.
  intros Hm Hk w w' e [H|(w1 & a & _ & H)]%bind_inv_raise.
  - by eapply Hm.
  - by eapply Hk.
Qed.

Lemma raises_only_try {A} (m : M A) (h : exn -> M A) :
  (forall e, raises_only P (h e)) -> raises_only P (try_except m h).
Proof.
  intros Hh w w' e. unfold try_except.
  destruct (m w) as [w1 [a|e1]]; [done|]. apply Hh.
Qed.

Lemma raises_only_lift {A} (r : result A) :
  (forall e, r = Raise e -> P e) -> raises_only P (lift r).
Proof. intros Hr w w' e H. apply Hr. unfold lift in H. congruence. Qed.

Lemma raises_only_for_each {A} (l : list A) (body : A -> M unit) :
  (forall a, raises_only P (body a)) -> raises_only P (for_each l body).
Proof.
  intros Hb. induction l as [|a l IH]; simpl.
  - apply raises_only_ret.
  - apply raises_only_bind; [apply Hb|]. by intros _.
Qed.

Lemma raises_only_for_break {A} (l : list A) (body : A -> M bool) :
  (forall a, raises_only P (body a)) -> raises_only P (for_break l body).
Proof.
  intros Hb. induction l as [|a l IH]; simpl.
  - apply raises_only_ret.
  - apply raises_only_bind; [apply Hb|]. intros [|]; [apply raises_only_ret|done].
Qed.

End RaisesOnly.

(* ----------------------------------------------------------------- *)
(** ** Directories *)

Lemma fs_set_fs f w : fs (set_fs f w) = f (fs w).
Proof. done. Qed.

Lemma entry_put_eq d name x : entry (put d name x) name = Some x.
Proof.
  induction d as [|[n y] d IH]; cbn [put entry].
  - by rewrite bool_decide_eq_true_2.
  - case_bool_decide as E; cbn [entry]; rewrite ?E.
    + by rewrite bool_decide_eq_true_2.
    + by rewrite bool_decide_eq_false_2.
Qed.

Lemma entry_put_ne d name name' x :
  name' <> name -> entry (put d name x) name' = entry d name'.
Proof.
  intros Hne. induction d as [|[n y] d IH]; cbn [put entry].
  - by rewrite bool_decide_eq_false_2.
  - case_bool_decide as E; cbn [entry].
    + subst n. by rewrite !bool_decide_eq_false_2.
    + case_bool_decide; [done|apply IH].
Qed.

Lemma grown_refl m : grown m m.
Proof. split; [done|]. intros k d t x H1 H2. left. by exists d. Qed.

Lemma grown_trans m1 m2 m3 : grown m1 m2 -> grown m2 m3 -> grown m1 m3.
Proof.
  intros [K1 E1] [K2 E2]. split; [auto|].
  intros k d3 t x H3 Hx.
  destruct (E2 k d3 t x H3 Hx) as [(d2 & H2 & Hx2)|[-> Hs]]; [|by right].
  destruct (E1 k d2 t x H2 Hx2) as [(d1 & H1 & Hx1)|[-> Hs]].
  - left. by exists d1.
  - right. split; [done|]. by apply K2.
Qed.

Section Steps.

Implicit Types (h t q : ustr) (w : world) (l : list (ustr * ustr)).

Local Abbreviation node s := (Py.path_join s.1 s.2).

(** What a step leaves unchanged, and what it may raise. *)
Lemma make_step_inv blocked h t w w' r :
  make_step blocked h t w = (w', r) ->
  trace w' = trace w /\ probes w' = probes w /\ calls w' = calls w /\
  (forall q, q <> h -> q <> Py.path_join h t -> fs w' !! q = fs w !! q) /\
  (forall q d, fs w !! q = Some d -> q <> h -> fs w' !! q = Some d) /\
  grown (fs w) (fs w') /\
  (forall e, r = Raise e -> e = blocked /\ w' = w) /\
  (r = Ok tt ->
   (fs w !! Py.path_join h t = None ->
    forall d, fs w !! h = Some d -> entry d t = None) ->
   is_Some (fs w' !! Py.path_join h t)).
Proof.
  unfold make_step. cbn zeta.
  destruct (fs w !! Py.path_join h t) as [dq|] eqn:Eq.
  { intros [= <- <-].
    split; [done|]. split; [done|]. split; [done|]. split; [done|].
    split; [done|]. split; [apply grown_refl|]. split; [done|].
    intros _ _. by rewrite Eq. }
  destruct (fs w !! h) as [d|] eqn:Eh.
  - destruct (entry d t) as [[c|]|] eqn:Et.
    + intros [= <- <-].
      split; [done|]. split; [done|]. split; [done|]. split; [done|].
      split; [done|]. split; [apply grown_refl|]. split; [|done].
      by intros e [= <-].
    + intros [= <- <-].
      split; [done|]. split; [done|]. split; [done|]. split; [done|].
      split; [done|]. split; [apply grown_refl|]. split; [done|].
      intros _ H. by rewrite (H eq_refl d eq_refl) in Et.
    + intros [= <- <-]. rewrite !fs_set_fs. cbn [set_fs trace probes calls].
      split; [done|]. split; [done|]. split; [done|]. split; [|split; [|split; [|split]]].
      * intros q Hq1 Hq2. by rewrite !lookup_insert_ne.
      * intros q dq Hq Hne. destruct (decide (q = Py.path_join h t)) as [->|Hn];
          [congruence|]. by rewrite !lookup_insert_ne.
      * split.
        -- intros k [dk Hk]. destruct (decide (k = Py.path_join h t)) as [->|Hn];
             [congruence|]. rewrite lookup_insert_ne by done.
           destruct (decide (k = h)) as [->|Hn'].
           ++ rewrite lookup_insert_eq. eauto.
           ++ rewrite lookup_insert_ne by done. eauto.
        -- intros k d' t' x Hk Hx.
           destruct (decide (k = Py.path_join h t)) as [->|Hn].
           { rewrite lookup_insert_eq in Hk. injection Hk as <-. done. }
           rewrite lookup_insert_ne in Hk by done.
           destruct (decide (k = h)) as [->|Hn'].
           ++ rewrite lookup_insert_eq in Hk. injection Hk as <-.
              destruct (decide (t' = t)) as [->|Ht].
              ** rewrite entry_put_eq in Hx. injection Hx as <-. right.
                 split; [done|]. rewrite lookup_insert_eq. eauto.
              ** rewrite entry_put_ne in Hx by done. left. by exists d.
           ++ rewrite lookup_insert_ne in Hk by done. left. by exists d'.
      * done.
      * intros _ _. rewrite lookup_insert_eq. eauto.
  - intros [= <- <-]. rewrite !fs_set_fs. cbn [set_fs trace probes calls].
    split; [done|]. split; [done|]. split; [done|]. split; [|split; [|split; [|split]]].
    + intros q Hq1 Hq2. by rewrite lookup_insert_ne.
    + intros q dq Hq Hne. destruct (decide (q = Py.path_join h t)) as [->|Hn];
        [congruence|]. by rewrite lookup_insert_ne.
    + split.
      * intros k [dk Hk]. destruct (decide (k = Py.path_join h t)) as [->|Hn];
          [congruence|]. rewrite lookup_insert_ne by done. eauto.
      * intros k d' t' x Hk Hx.
        destruct (decide (k = Py.path_join h t)) as [->|Hn].
        { rewrite lookup_insert_eq in Hk. injection Hk as <-. done. }
        rewrite lookup_insert_ne in Hk by done. left. by exists d'.
    + done.
    + intros _ _. rewrite lookup_insert_eq. eauto.
Qed.

Lemma make_steps_inv l : forall w w' r,
  make_steps l w = (w', r) ->
  trace w' = trace w /\ probes w' = probes w /\ calls w' = calls w /\
  (forall q, q ∉ map fst l -> q ∉ map (fun s => node s) l ->
             fs w' !! q = fs w !! q) /\
  (forall q d, fs w !! q = Some d -> q ∉ map fst l -> fs w' !! q = Some d) /\
  grown (fs w) (fs w') /\
  (forall e, r = Raise e -> e = FileExistsError \/ e = NotADirectoryError).
Proof.
  induction l as [|[h t] l IH]; intros w w' r H.
  - injection H as <- <-. repeat split; try done; apply grown_refl.
  - cbn [make_steps] in H. unfold bind in H.
    destruct (make_step _ h t w) as [w1 [[]|e]] eqn:E1.
    + apply make_step_inv in E1 as (Ht1 & Hp1 & Hc1 & Hf1 & Hk1 & Hg1 & _ & _).
      apply IH in H as (Ht & Hp & Hc & Hf & Hk & Hg & He).
      split; [congruence|]. split; [congruence|]. split; [congruence|].
      split; [|split; [|split]].
      * intros q Hq1 Hq2. cbn [map fst snd] in Hq1, Hq2.
        rewrite not_elem_of_cons in Hq1, Hq2.
        destruct Hq1 as [Hq1 Hq1'], Hq2 as [Hq2 Hq2'].
        rewrite Hf by done. by apply Hf1.
      * intros q d Hq Hn. cbn [map fst] in Hn. rewrite not_elem_of_cons in Hn.
        destruct Hn as [Hn Hn']. apply Hk; [|done]. by apply Hk1.
      * by eapply grown_trans.
      * done.
    + injection H as <- <-.
      apply make_step_inv in E1 as (Ht1 & Hp1 & Hc1 & Hf1 & Hk1 & Hg1 & He1 & _).
      split; [done|]. split; [done|]. split; [done|].
      split; [|split; [|split]].
      * intros q Hq1 Hq2. cbn [map fst snd] in Hq1, Hq2.
        rewrite not_elem_of_cons in Hq1, Hq2.
        destruct Hq1 as [Hq1 Hq1'], Hq2 as [Hq2 Hq2']. by apply Hf1.
      * intros q d Hq Hn. cbn [map fst] in Hn. rewrite not_elem_of_cons in Hn.
        destruct Hn as [Hn Hn']. by apply Hk1.
      * done.
      * intros e' [= <-]. destruct (He1 e eq_refl) as [-> _].
        destruct l; [by left|by right].
Qed.

(** With nothing in the way, every step is taken. *)
Lemma make_steps_ok l : forall w m0,
  grown m0 (fs w) ->
  forallb (step_clear m0) l = true ->
  exists w',
    make_steps l w = (w', Ok tt) /\
    (forall s, s ∈ l -> is_Some (fs w' !! node s)).
Proof.
  induction l as [|[h t] l IH]; intros w m0 Hg Hl.
  - exists w. split; [done|]. intros s Hs. by apply elem_of_nil in Hs.
  - cbn [forallb] in Hl. apply andb_true_iff in Hl as [Hs Hl].
    assert (Hclear : fs w !! Py.path_join h t = None ->
                     forall d, fs w !! h = Some d -> entry d t = None).
    { intros Hq d Hd. destruct (entry d t) as [x|] eqn:Ex; [|done]. exfalso.
      destruct Hg as [K E].
      assert (Hq0 : m0 !! Py.path_join h t = None).
      { destruct (m0 !! Py.path_join h t) eqn:E0; [|done].
        destruct (K (Py.path_join h t)) as [? ?]; [eauto|congruence]. }
      destruct (E h d t x Hd Ex) as [(d0 & Hd0 & Hx0)|[_ [? ?]]]; [|congruence].
      unfold step_clear in Hs. cbn [fst snd] in Hs. rewrite Hq0, Hd0 in Hs.
      apply bool_decide_eq_true in Hs. congruence. }
    cbn [make_steps]. unfold bind.
    destruct (make_step _ h t w) as [w1 r] eqn:E1.
    pose proof (make_step_inv _ _ _ _ _ _ E1) as (_ & _ & _ & _ & _ & Hg1 & He1 & Hok).
    destruct r as [[]|e].
    + destruct (IH w1 m0) as (w' & E & Hn); [by eapply grown_trans|done|].
      exists w'. split; [done|]. intros s [->|Hs']%elem_of_cons; [|by apply Hn].
      cbn [fst snd]. pose proof (Hok eq_refl Hclear) as Hsome.
      apply make_steps_inv in E as (_ & _ & _ & _ & _ & [K _] & _). by apply K.
    + exfalso. destruct (He1 e eq_refl) as [_ ->].
      unfold make_step in E1. cbn zeta in E1.
      destruct (fs w !! Py.path_join h t) eqn:Eq; [discriminate E1|].
      destruct (fs w !! h) as [d|] eqn:Eh; [|discriminate E1].
      rewrite (Hclear eq_refl d eq_refl) in E1. discriminate E1.
Qed.

(** The directories that the steps make are those above the end of the
    path, and the end itself. *)
Lemma steps_nodes cs : forall h q,
  q ∈ map (fun s => node s) (steps h cs) ->
  q ∈ map fst (steps h cs) \/ q = fold_left Py.path_join cs h.
Proof.
  induction cs as [|c cs IH]; intros h q Hq; [by apply elem_of_nil in Hq|].
  cbn [steps map fst snd fold_left] in *.
  apply elem_of_cons in Hq as [->|Hq].
  - destruct cs as [|c' cs]; [by right|]. left. right. by left.
  - destruct (IH _ _ Hq) as [H|H]; [left; by right|by right].
Qed.

Lemma steps_end cs h :
  cs <> [] -> fold_left Py.path_join cs h ∈ map (fun s => node s) (steps h cs).
Proof.
  revert h. induction cs as [|c cs IH]; intros h Hne; [done|].
  cbn [steps map fst snd fold_left].
  destruct cs as [|c' cs]; [by left|]. right. by apply IH.
Qed.

End Steps.

Lemma os_makedirs_inv p w w' r :
  os_makedirs p w = (w', r) ->
  trace w' = trace w /\ probes w' = probes w /\ calls w' = calls w /\
  (forall q, q ∉ above p -> q <> spelled p -> fs w' !! q = fs w !! q) /\
  (forall q d, fs w !! q = Some d -> q ∉ above p -> fs w' !! q = Some d) /\
  grown (fs w) (fs w') /\
  (forall e, r = Raise e -> e = FileExistsError \/ e = NotADirectoryError).
Proof.
  unfold os_makedirs. intros H.
  apply make_steps_inv in H as (Ht & Hp & Hc & Hf & Hk & Hg & He).
  split; [done|]. split; [done|]. split; [done|]. split; [|done].
  intros q Hq1 Hq2. apply Hf; [done|].
  intros [H|H]%steps_nodes; [by apply Hq1|by apply Hq2].
Qed.

Lemma os_makedirs_ok p w :
  way_clear (fs w) p = true ->
  exists w',
    os_makedirs p w = (w', Ok tt) /\
    (Py.components p <> [] -> is_Some (fs w' !! spelled p)).
Proof.
  unfold way_clear. intros [_ H]%andb_true_iff.
  destruct (make_steps_ok (path_steps p) w (fs w)) as (w' & E & Hn);
    [apply grown_refl|done|].
  exists w'. split; [done|]. intros Hne. unfold spelled.
  pose proof (steps_end (Py.components p) (path_root p) Hne) as Hin.
  apply list_elem_of_fmap in Hin as (s & -> & Hs). by apply Hn.
Qed.

Lemma way_clear_grown m m' p :
  grown m m' -> way_clear m p = true -> way_clear m' p = true.
Proof.
  intros [K E]. unfold way_clear.
  rewrite !andb_true_iff, !bool_decide_eq_true, !forallb_forall.
  intros [Hr Hs]. split; [by apply K|].
  intros s Hin. specialize (Hs s Hin). unfold step_clear in *.
  destruct (m' !! Py.path_join s.1 s.2) as [dq'|] eqn:Eq'; [done|].
  destruct (m !! Py.path_join s.1 s.2) as [dq|] eqn:Eq.
  { destruct (K (Py.path_join s.1 s.2)) as [? ?]; [eauto|congruence]. }
  destruct (m' !! s.1) as [d'|] eqn:Eh'; [|done].
  apply bool_decide_eq_true. destruct (entry d' s.2) as [x|] eqn:Ex; [|done].
  exfalso. destruct (E _ _ _ _ Eh' Ex) as [(d & Hd & Hx)|[_ [? ?]]]; [|congruence].
  rewrite Hd in Hs. apply bool_decide_eq_true in Hs. congruence.
Qed.

(* ----------------------------------------------------------------- *)
(** *** Removing a tree *)

Lemma remove_tree_gone p m : remove_tree p m !! p = None.
Proof.
  unfold remove_tree. cbn zeta.
  assert (H : filter (fun kv : ustr * dir => kv.1 <> p /\ below p kv.1 = false) m
              !! p = None).
  { apply map_lookup_filter_None. right. intros d _ [Hne _]. done. }
  destruct (last (path_steps p)) as [[h t]|]; [|done].
  destruct (filter _ m !! h) as [d|] eqn:Eh; [|done].
  destruct (decide (h = p)) as [->|Hne]; [congruence|].
  by rewrite lookup_insert_ne.
Qed.

Lemma remove_tree_none p m q : m !! q = None -> remove_tree p m !! q = None.
Proof.
  intros Hq. unfold remove_tree. cbn zeta.
  assert (H : filter (fun kv : ustr * dir => kv.1 <> p /\ below p kv.1 = false) m
              !! q = None).
  { apply map_lookup_filter_None. by left. }
  destruct (last (path_steps p)) as [[h t]|]; [|done].
  destruct (filter _ m !! h) as [d|] eqn:Eh; [|done].
  destruct (decide (h = q)) as [->|Hne]; [congruence|].
  by rewrite lookup_insert_ne.
Qed.

Lemma last_elem_of {A} (l : list A) (a : A) : last l = Some a -> a ∈ l.
Proof.
  induction l as [|b l IH]; [done|].
  destruct l as [|c l]; [intros [= ->]; by left|].
  intros H. right. by apply IH.
Qed.

Lemma remove_tree_frame p m q :
  q <> p -> below p q = false -> q ∉ above p ->
  remove_tree p m !! q = m !! q.
Proof.
  intros Hne Hb Ha. unfold remove_tree. cbn zeta.
  assert (H : filter (fun kv : ustr * dir => kv.1 <> p /\ below p kv.1 = false) m
              !! q = m !! q).
  { destruct (m !! q) as [d|] eqn:E.
    - by apply map_lookup_filter_Some.
    - apply map_lookup_filter_None. by left. }
  destruct (last (path_steps p)) as [[h t]|] eqn:El; [|done].
  destruct (filter _ m !! h) as [d|] eqn:Eh; [|done].
  rewrite lookup_insert_ne; [done|]. intros <-. apply Ha.
  unfold above. apply list_elem_of_fmap. exists (h, t). split; [done|].
  by apply last_elem_of.
Qed.

Lemma shutil_rmtree_inv p w :
  exists w',
    shutil_rmtree p w = (w', Ok tt) /\
    trace w' = trace w /\ probes w' = probes w /\ calls w' = calls w /\
    fs w' !! p = None /\
    (forall q, fs w !! q = None -> fs w' !! q = None) /\
    (forall q, q <> p -> below p q = false -> q ∉ above p ->
               fs w' !! q = fs w !! q) /\
    (fs w !! p = None -> w' = w).
Proof.
  unfold shutil_rmtree. destruct (fs w !! p) as [d|] eqn:E.
  - eexists. split; [reflexivity|]. rewrite fs_set_fs. cbn [set_fs trace probes calls].
    repeat split; try done.
    + apply remove_tree_gone.
    + intros q. apply remove_tree_none.
    + intros q. apply remove_tree_frame.
  - exists w. repeat split; done.
Qed.

(* ----------------------------------------------------------------- *)
(** ** The extractor on a file *)

Section Extractor.

Variable xml_parse : data -> option element.

Lemma read_file_world loc w : (read_file loc w).1 = w.
Proof. unfold read_file. by repeat case_match. Qed.

Lemma extract_clean_text_world xml_path w :
  (extract_clean_text xml_parse xml_path w).1 = w.
Proof.
  unfold extract_clean_text, ET_parse, bind.
  pose proof (read_file_world xml_path w) as H.
  destruct (read_file xml_path w) as [w1 [c|e]]; simpl in H; subst w1; [|done].
  by destruct (xml_parse c).
Qed.

Lemma extract_clean_text_parsed xml_path w c root :
  read_file xml_path w = (w, Ok c) ->
  xml_parse c = Some root ->
  extract_clean_text xml_parse xml_path w = (w, extract_tree root).
Proof.
  intros Hr Hp. unfold extract_clean_text, ET_parse.
  rewrite (bind_ok _ _ w w root); [done|].
  rewrite (bind_ok _ _ _ _ _ Hr). by rewrite Hp.
Qed.

Lemma extract_clean_text_unparsed xml_path w c :
  read_file xml_path w = (w, Ok c) ->
  xml_parse c = None ->
  extract_clean_text xml_parse xml_path w = (w, Raise ParseError).
Proof.
  intros Hr Hp. unfold extract_clean_text, ET_parse.
  apply bind_raise. rewrite (bind_ok _ _ _ _ _ Hr). by rewrite Hp.
Qed.

(** C6: on a file that is there, the extractor returns a string whenever
    the content parses, also when title, keywords and abstract are all
    missing, the artifact then being the body text alone; it raises
    exactly when the content does not parse. *)
Theorem extract_raises_iff_unparseable (xml_path : location) (w : world) (c : data) :
  read_file xml_path w = (w, Ok c) ->
  (forall root, xml_parse c = Some root ->
     exists txt, extract_clean_text xml_parse xml_path w = (w, Ok txt)) /\
  ((exists e, (extract_clean_text xml_parse xml_path w).2 = Raise e) <->
     xml_parse c = None) /\
  (forall root, xml_parse c = Some root ->
     ET.find_path (tei "titleStmt") (tei "title") root = None ->
     ET.findall_path (tei "keywords") (tei "term") root = [] ->
     ET.find_desc (tei "abstract") root = None ->
     extract_clean_text xml_parse xml_path w =
       (w, Ok (Py.join blank_line (body_entry root)))).
Proof.
  intros Hr. split; [|split].
  - intros root Hp. rewrite (extract_clean_text_parsed _ _ _ _ Hr Hp), extract_tree_ok.
    eauto.
  - split.
    + intros [e He]. destruct (xml_parse c) as [root|] eqn:Hp; [|done].
      rewrite (extract_clean_text_parsed _ _ _ _ Hr Hp), extract_tree_ok in He. done.
    + intros Hp. rewrite (extract_clean_text_unparsed _ _ _ Hr Hp). eauto.
  - intros root Hp Ht Hk Ha.
    rewrite (extract_clean_text_parsed _ _ _ _ Hr Hp), extract_tree_ok.
    unfold title_part, keywords_part, abstract_entry. by rewrite Ht, Hk, Ha.
Qed.

(** C7: the extractor leaves the world as it found it: the files, the
    counters and the trace.  Its outcome depends on nothing but the
    directory of the document, and on a document that is there, on nothing
    but its content: it is the artifact of the tree the content parses to,
    whatever the path and the world the document is read from.  Run again
    and again, it gives the same outcome every time. *)
Theorem extract_pure (xml_path : location) (w : world) :
  (extract_clean_text xml_parse xml_path w).1 = w /\
  (forall w', fs w' !! xml_path.1 = fs w !! xml_path.1 ->
     (extract_clean_text xml_parse xml_path w').2 =
     (extract_clean_text xml_parse xml_path w).2) /\
  (forall n, runs n (extract_clean_text xml_parse xml_path) w =
             (w, replicate n (extract_clean_text xml_parse xml_path w).2)) /\
  (forall c, read_file xml_path w = (w, Ok c) ->
     extract_clean_text xml_parse xml_path w = (w, extraction xml_parse c) /\
     (forall xml_path' w', read_file xml_path' w' = (w', Ok c) ->
        extract_clean_text xml_parse xml_path' w' = (w', extraction xml_parse c)) /\
     (forall n, runs n (extract_clean_text xml_parse xml_path) w =
                (w, replicate n (extraction xml_parse c)))) /\
  (forall c root, xml_parse c = Some root ->
     extraction xml_parse c =
       Ok (Py.join blank_line
             (title_part root ++ keywords_part root ++ abstract_entry root
              ++ body_entry root))).
Proof.
  assert (Hruns : forall n, runs n (extract_clean_text xml_parse xml_path) w =
             (w, replicate n (extract_clean_text xml_parse xml_path w).2)).
  { intros n. induction n as [|n IH]; [done|].
    cbn [runs replicate]. rewrite extract_clean_text_world, IH. done. }
  assert (Hc : forall p0 w0 c, read_file p0 w0 = (w0, Ok c) ->
             extract_clean_text xml_parse p0 w0 = (w0, extraction xml_parse c)).
  { intros p0 w0 c Hr. unfold extraction.
    destruct (xml_parse c) as [root|] eqn:Hp.
    - by apply extract_clean_text_parsed with (c := c).
    - by apply extract_clean_text_unparsed with (c := c). }
  split; [apply extract_clean_text_world|]. split; [|split; [exact Hruns|split]].
  - intros w' Hfs. unfold extract_clean_text, ET_parse, bind, read_file.
    rewrite Hfs. destruct (fs w !! xml_path.1) as [d|]; [|done].
    destruct (entry d xml_path.2) as [[c|]|]; try done.
    unfold ret, lift. by destruct (xml_parse c).
  - intros c Hr. split; [by apply Hc|]. split; [intros p' w'; apply Hc|].
    intros n. by rewrite Hruns, (Hc _ _ _ Hr).
  - intros c root Hp. unfold extraction. by rewrite Hp, extract_tree_ok.
Qed.

End Extractor.

(* ----------------------------------------------------------------- *)
(** ** Ranges and traces *)

Lemma py_range_nil a b : b <= a -> py_range a b = [].
Proof. intros H. unfold py_range. by replace (Z.to_nat (b - a)) with O by lia. Qed.

Lemma py_range_cons a b : a < b -> py_range a b = a :: py_range (a + 1) b.
Proof.
  intros H. unfold py_range.
  replace (Z.to_nat (b - a)) with (S (Z.to_nat (b - (a + 1)))) by lia.
  cbn [seq map]. f_equal; [lia|].
  rewrite <- seq_shift, map_map. apply map_ext. intros i. lia.
Qed.

Lemma tally_app p tr1 tr2 : tally p (tr1 ++ tr2) = (tally p tr1 + tally p tr2)%nat.
Proof. unfold tally. by rewrite List.filter_app, length_app. Qed.

Lemma log_trace ev w : trace (log ev w) = trace w ++ [ev].
Proof. done. Qed.

(* ----------------------------------------------------------------- *)
(** ** The retry loop *)

Section Retry.

Variable service : nat -> dir -> dir -> dir * bool.
Variables (fl : flavour) (cfg : config).

Local Abbreviation called w :=
  (service (calls w) (default [] (fs w !! tmp_input))
     (default [] (fs w !! tmp_output))).

Lemma after_failure_events attempt w :
  after_failure fl cfg attempt w =
    (World (fs w) (probes w) (calls w) (trace w ++ backoff_events fl cfg attempt), Ok tt).
Proof.
  unfold after_failure, backoff_events.
  destruct fl; case_bool_decide; try done.
  unfold bind, print, time_sleep, emit, log; simpl. by rewrite <- app_assoc.
Qed.

Lemma attempt_body_ok attempt w :
  (called w).2 = true ->
  attempt_body service fl cfg attempt w =
    (World (<[tmp_output := (called w).1]> (fs w)) (probes w) (S (calls w))
           (trace w ++ [Submit (calls w) true]), Ok true).
Proof.
  intros H. unfold attempt_body, try_except, bind, client_process.
  by rewrite H.
Qed.

Lemma attempt_body_fail attempt w :
  (called w).2 = false ->
  attempt_body service fl cfg attempt w =
    (World (<[tmp_output := (called w).1]> (fs w)) (probes w) (S (calls w))
           (trace w ++ [Submit (calls w) false;
                        Print (MsgAttemptError attempt (ServiceError (calls w)))]
                   ++ backoff_events fl cfg attempt), Ok false).
Proof.
  intros H. unfold attempt_body, try_except, client_process.
  unfold bind at 1. cbn zeta beta. rewrite H. cbn iota.
  unfold bind at 1. unfold print, emit at 1. cbn beta iota.
  unfold bind at 1. rewrite after_failure_events.
  unfold ret, log. cbn [fs probes calls trace].
  by rewrite <- !app_assoc.
Qed.

Lemma backoff_events_last :
  backoff_events fl cfg (max_retries cfg) = [Print MsgSkip].
Proof.
  unfold backoff_events. destruct fl; case_bool_decide; try done; lia.
Qed.

Lemma backoff_events_wait attempt :
  attempt < max_retries cfg ->
  backoff_waits (backoff_events fl cfg attempt) = 1%nat /\
  skip_marks (backoff_events fl cfg attempt) = 0%nat /\
  submissions (backoff_events fl cfg attempt) = 0%nat.
Proof.
  intros H. unfold backoff_events. destruct fl; case_bool_decide; try done; lia.
Qed.

(** Every attempt from [attempt] on fails: the loop runs to its end. *)
Lemma retry_exhausted (k : nat) : forall (attempt : Z) (w : world),
  attempt + Z.of_nat k = max_retries cfg + 1 ->
  failing service (calls w) k ->
  exists w' evs,
    for_break (py_range attempt (max_retries cfg + 1))
      (attempt_body service fl cfg) w = (w', Ok tt) /\
    trace w' = trace w ++ evs /\
    calls w' = (calls w + k)%nat /\
    probes w' = probes w /\
    (forall p, p <> tmp_output -> fs w' !! p = fs w !! p) /\
    submissions evs = k /\
    backoff_waits evs = Nat.pred k /\
    skip_marks evs = Nat.min 1 k /\
    (k <> O -> last evs = Some (Print MsgSkip)) /\
    (k = O -> evs = []).
Proof.
  induction k as [|k IH]; intros attempt w Ha Hfail.
  - rewrite py_range_nil by lia. exists w, []. rewrite app_nil_r.
    repeat split; try done; lia.
  - rewrite py_range_cons by lia. cbn [for_break].
    assert (Hc : (called w).2 = false).
    { specialize (Hfail O). rewrite Nat.add_0_r in Hfail. apply Hfail. lia. }
    rewrite (bind_ok _ _ _ _ _ (attempt_body_fail attempt w Hc)).
    set (w1 := World _ _ _ _).
    destruct (IH (attempt + 1) w1) as (w' & evs & Hrun & Htr & Hcalls & Hpr & Hfs & Hs & Hb & Hk & Hl & Hnil).
    { lia. }
    { intros j inp out Hj. subst w1. cbn [calls].
      replace (S (calls w) + j)%nat with (calls w + S j)%nat by lia.
      apply Hfail. lia. }
    exists w', ([Submit (calls w) false;
                 Print (MsgAttemptError attempt (ServiceError (calls w)))]
                ++ backoff_events fl cfg attempt ++ evs).
    split; [exact Hrun|].
    split; [rewrite Htr; subst w1; cbn [trace]; by rewrite <- !app_assoc|].
    split; [rewrite Hcalls; subst w1; cbn [calls]; lia|].
    split; [by rewrite Hpr|].
    split; [intros p Hp; rewrite (Hfs p Hp); subst w1; cbn [fs];
            by rewrite lookup_insert_ne|].
    unfold submissions, backoff_waits, skip_marks in *.
    rewrite !tally_app, Hs, Hb, Hk.
    destruct k as [|k].
    + assert (attempt = max_retries cfg) as -> by lia.
      rewrite backoff_events_last.
      rewrite (Hnil eq_refl).
      repeat split; try done.
    + destruct (backoff_events_wait attempt) as (Hw1 & Hw2 & Hw3); [lia|].
      unfold submissions, backoff_waits, skip_marks in *.
      rewrite Hw1, Hw2, Hw3.
      repeat split; try (cbn; lia); try done.
      intros _. rewrite app_assoc, last_app, Hl; done.
Qed.

(** [j] failed attempts, then one that returns, all within the limit. *)
Lemma retry_recovers (j : nat) : forall (attempt : Z) (w : world),
  attempt + Z.of_nat j <= max_retries cfg ->
  failing service (calls w) j ->
  succeeding service (calls w + j)%nat ->
  exists w' evs,
    for_break (py_range attempt (max_retries cfg + 1))
      (attempt_body service fl cfg) w = (w', Ok tt) /\
    trace w' = trace w ++ evs /\
    calls w' = (calls w + j + 1)%nat /\
    probes w' = probes w /\
    (forall p, p <> tmp_output -> fs w' !! p = fs w !! p) /\
    submissions evs = S j /\
    backoff_waits evs = j /\
    skip_marks evs = O /\
    last evs = Some (Submit (calls w + j)%nat true).
Proof.
  induction j as [|j IH]; intros attempt w Ha Hfail Hok.
  - rewrite py_range_cons by lia. cbn [for_break].
    rewrite Nat.add_0_r in Hok.
    rewrite (bind_ok _ _ _ _ _ (attempt_body_ok attempt w (Hok _ _))).
    eexists _, [Submit (calls w) true]. split; [reflexivity|].
    cbn [trace calls probes fs]. rewrite Nat.add_0_r.
    repeat split; try done; try lia.
    intros p Hp. by rewrite lookup_insert_ne.
  - rewrite py_range_cons by lia. cbn [for_break].
    assert (Hc : (called w).2 = false).
    { specialize (Hfail O). rewrite Nat.add_0_r in Hfail. apply Hfail. lia. }
    rewrite (bind_ok _ _ _ _ _ (attempt_body_fail attempt w Hc)).
    set (w1 := World _ _ _ _).
    destruct (IH (attempt + 1) w1) as (w' & evs & Hrun & Htr & Hcalls & Hpr & Hfs & Hs & Hb & Hk & Hl).
    { lia. }
    { intros i inp out Hi. subst w1. cbn [calls].
      replace (S (calls w) + i)%nat with (calls w + S i)%nat by lia.
      apply Hfail. lia. }
    { subst w1. cbn [calls].
      by replace (S (calls w) + j)%nat with (calls w + S j)%nat by lia. }
    exists w', ([Submit (calls w) false;
                 Print (MsgAttemptError attempt (ServiceError (calls w)))]
                ++ backoff_events fl cfg attempt ++ evs).
    split; [exact Hrun|].
    split; [rewrite Htr; subst w1; cbn [trace]; by rewrite <- !app_assoc|].
    split; [rewrite Hcalls; subst w1; cbn [calls]; lia|].
    split; [by rewrite Hpr|].
    split; [intros p Hp; rewrite (Hfs p Hp); subst w1; cbn [fs];
            by rewrite lookup_insert_ne|].
    destruct (backoff_events_wait attempt) as (Hw1 & Hw2 & Hw3); [lia|].
    unfold submissions, backoff_waits, skip_marks in *.
    rewrite !tally_app, Hs, Hb, Hk, Hw1, Hw2, Hw3.
    repeat split; try (cbn; lia).
    rewrite app_assoc, last_app, Hl. subst w1. cbn [calls].
    by replace (S (calls w) + j)%nat with (calls w + S j)%nat by lia.
Qed.

End Retry.

(* ----------------------------------------------------------------- *)
(** ** Which exceptions leave the scheduler *)

Lemma outside_FileNotFoundError : outside_error FileNotFoundError.
Proof. by left. Qed.
Lemma outside_IsADirectoryError : outside_error IsADirectoryError.
Proof. right. by left. Qed.
Lemma outside_SameFileError : outside_error SameFileError.
Proof. right. right. by left. Qed.
Lemma outside_ValueError : outside_error ValueError.
Proof. right. right. right. by left. Qed.
Lemma outside_ZeroDivisionError : outside_error ZeroDivisionError.
Proof. do 4 right. by left. Qed.
Lemma outside_NotADirectoryError : outside_error NotADirectoryError.
Proof. do 5 right. by left. Qed.
Lemma outside_FileExistsError : outside_error FileExistsError.
Proof. do 6 right. done. Qed.

Lemma outside_not_service e c : outside_error e -> e <> ServiceError c.
Proof. intros H. repeat (destruct H as [H|H]); by subst. Qed.

Lemma outside_not_extractor e :
  outside_error e -> e <> ParseError /\ e <> AttributeError.
Proof. intros H. repeat (destruct H as [H|H]); by subst. Qed.

Create HintDb outside.
#[local] Hint Resolve outside_FileNotFoundError outside_IsADirectoryError
  outside_SameFileError outside_ValueError outside_ZeroDivisionError
  outside_NotADirectoryError outside_FileExistsError : outside.

Ltac raised :=
  intros ? ? ?; repeat case_match; intros ?; simplify_eq; auto with outside.

Section Contained.

Variable alive : nat -> bool.
Variable service : nat -> dir -> dir -> dir * bool.
Variable xml_parse : data -> option element.
Variables (fl : flavour) (cfg : config).

Local Abbreviation safe m := (raises_only outside_error m).

Lemma os_makedirs_safe p : safe (os_makedirs p).
Proof.
  intros w w' e H. apply os_makedirs_inv in H as (_ & _ & _ & _ & _ & _ & He).
  destruct (He e eq_refl) as [->| ->]; auto with outside.
Qed.

Lemma os_listdir_safe p : safe (os_listdir p).
Proof. unfold os_listdir. raised. Qed.

Lemma read_file_safe loc : safe (read_file loc).
Proof. unfold read_file. raised. Qed.

Lemma write_file_safe loc c : safe (write_file loc c).
Proof. unfold write_file. raised. Qed.

Lemma copyfile_safe src dst : safe (copyfile src dst).
Proof.
  unfold copyfile. case_bool_decide.
  - raised.
  - apply raises_only_bind; [apply read_file_safe|]. intros c. apply write_file_safe.
Qed.

Lemma shutil_copy_to_safe src dst : safe (shutil_copy_to src dst).
Proof.
  intros w w' e. unfold shutil_copy_to.
  destruct (fs w !! dst.1 ≫= _) as [[c|]|].
  - apply copyfile_safe.
  - apply raises_only_bind; [apply read_file_safe|]. intros c. apply raises_only_ret.
  - apply copyfile_safe.
Qed.

Lemma shutil_rmtree_safe p : safe (shutil_rmtree p).
Proof.
  intros w w' e H. destruct (shutil_rmtree_inv p w) as (w1 & E & _).
  rewrite E in H. discriminate H.
Qed.

Lemma stage_safe batch : safe (stage cfg batch).
Proof. apply raises_only_for_each. intros fname. apply copyfile_safe. Qed.

(** A failed call of the service never leaves the retry loop. *)
Lemma retry_loop_safe : safe (retry_loop service fl cfg).
Proof.
  apply raises_only_for_break. intros attempt. apply raises_only_try.
  intros e. apply raises_only_bind; [apply raises_only_emit|]. intros _.
  apply raises_only_bind; [|intros _; apply raises_only_ret].
  intros w w' e'. by rewrite after_failure_events.
Qed.

(** A failed extraction never leaves the harvest. *)
Lemma harvest_safe : safe (harvest xml_parse fl cfg).
Proof.
  apply raises_only_bind; [apply os_listdir_safe|]. intros names.
  apply raises_only_for_each. intros fname. unfold harvest_file.
  destruct (Py.endswith _ fname); [|apply raises_only_ret].
  apply raises_only_bind; [apply shutil_copy_to_safe|]. intros _.
  apply raises_only_try. intros e. apply raises_only_emit.
Qed.

Lemma cleanup_safe : safe cleanup.
Proof.
  unfold cleanup.
  repeat (apply raises_only_bind; [|intros _]);
    try apply shutil_rmtree_safe; apply raises_only_emit.
Qed.

Lemma restart_grobid_safe : safe restart_grobid.
Proof. apply raises_only_bind; [|intros _]; apply raises_only_emit. Qed.

Lemma restart_hint_safe lote_num : safe (restart_hint fl cfg lote_num).
Proof.
  apply raises_only_bind.
  - apply raises_only_lift. unfold py_mod. intros e.
    case_bool_decide; intros; simplify_eq; auto with outside.
  - intros r. case_bool_decide; [|apply raises_only_ret].
    destruct fl; [apply raises_only_emit|apply restart_grobid_safe].
Qed.

Lemma process_batch_safe lote_num batch :
  safe (process_batch service xml_parse fl cfg lote_num batch).
Proof.
  unfold process_batch.
  apply raises_only_bind; [apply os_makedirs_safe|]. intros _.
  apply raises_only_bind; [apply os_makedirs_safe|]. intros _.
  apply raises_only_bind; [apply stage_safe|]. intros _.
  apply raises_only_bind; [apply retry_loop_safe|]. intros _.
  apply raises_only_bind; [apply harvest_safe|]. intros _.
  apply raises_only_bind; [apply cleanup_safe|]. intros _.
  apply restart_hint_safe.
Qed.

Lemma is_grobid_alive_safe : safe (is_grobid_alive alive).
Proof. unfold is_grobid_alive. raised. Qed.

Lemma liveness_gate_safe : safe (liveness_gate alive fl).
Proof.
  unfold liveness_gate. destruct fl.
  - apply raises_only_bind; [apply is_grobid_alive_safe|]. intros [|].
    + apply raises_only_ret.
    + apply raises_only_bind; [apply raises_only_emit|]. intros _. apply raises_only_ret.
  - apply raises_only_bind; [apply is_grobid_alive_safe|]. intros [|].
    + apply raises_only_ret.
    + apply raises_only_bind; [apply restart_grobid_safe|]. intros _.
      apply raises_only_bind; [apply is_grobid_alive_safe|]. intros [|].
      * apply raises_only_ret.
      * apply raises_only_bind; [apply raises_only_emit|]. intros _.
        apply raises_only_ret.
Qed.

Lemma batch_body_safe pdfs it :
  safe (batch_body alive service xml_parse fl cfg pdfs it).
Proof.
  unfold batch_body.
  apply raises_only_bind; [apply raises_only_emit|]. intros _.
  apply raises_only_bind; [apply liveness_gate_safe|]. intros [|].
  - apply raises_only_ret.
  - apply raises_only_bind; [apply process_batch_safe|]. intros _.
    apply raises_only_ret.
Qed.

Lemma run_from_safe pdfs its :
  safe (run_from alive service xml_parse fl cfg pdfs its).
Proof.
  apply raises_only_bind.
  - apply raises_only_for_break. intros it. apply batch_body_safe.
  - intros _. apply raises_only_emit.
Qed.

Lemma make_output_folders_safe : safe (make_output_folders fl cfg).
Proof.
  unfold make_output_folders.
  apply raises_only_bind;
    [destruct fl; [apply raises_only_ret|apply os_makedirs_safe]|]. intros _.
  apply raises_only_bind; [apply os_makedirs_safe|]. intros _.
  apply os_makedirs_safe.
Qed.

Lemma run_listed_safe : safe (run_listed alive service xml_parse fl cfg).
Proof.
  unfold run_listed.
  apply raises_only_bind.
  { apply raises_only_bind; [apply os_listdir_safe|]. intros names.
    apply raises_only_ret. }
  intros pdfs.
  apply raises_only_bind; [apply raises_only_emit|]. intros _.
  apply raises_only_bind.
  { apply raises_only_lift. unfold py_range_step. intros e.
    repeat case_bool_decide; intros; simplify_eq; auto with outside. }
  intros starts. apply run_from_safe.
Qed.

(** Besides these, only the constructor of the client ends a run, when it
    cannot reach the server. *)
Lemma run_safe reachable :
  raises_only (fun e => e = ServerUnavailable \/ outside_error e)
              (run alive reachable service xml_parse fl cfg).
Proof.
  unfold run.
  apply raises_only_bind;
    [eapply raises_only_weaken; [|apply make_output_folders_safe]; auto|]. intros _.
  apply raises_only_bind.
  { intros w w' e. unfold GrobidClient. destruct (reachable _); [done|].
    intros [= _ <-]. by left. }
  intros _. eapply raises_only_weaken; [|apply run_listed_safe]. auto.
Qed.

End Contained.

(* ----------------------------------------------------------------- *)
(** ** Retries *)

Section RetryProperties.

Variable service : nat -> dir -> dir -> dir * bool.
Variables (fl : flavour) (cfg : config).

(** A loop whose limit is not positive makes no attempt at all. *)
Lemma retry_loop_empty w :
  max_retries cfg <= 0 -> retry_loop service fl cfg w = (w, Ok tt).
Proof. intros H. unfold retry_loop. by rewrite py_range_nil by lia. Qed.

Lemma retry_loop_exhausted w :
  failing service (calls w) (Z.to_nat (max_retries cfg)) ->
  exists w' evs,
    retry_loop service fl cfg w = (w', Ok tt) /\
    trace w' = trace w ++ evs /\
    submissions evs = Z.to_nat (max_retries cfg) /\
    backoff_waits evs = Z.to_nat (max_retries cfg - 1) /\
    skip_marks evs = Nat.min 1 (Z.to_nat (max_retries cfg)) /\
    (1 <= max_retries cfg -> last evs = Some (Print MsgSkip)).
Proof.
  intros Hfail. destruct (decide (max_retries cfg <= 0)) as [Hle|Hgt].
  - exists w, []. rewrite retry_loop_empty, app_nil_r by done.
    replace (Z.to_nat (max_retries cfg)) with O by lia.
    replace (Z.to_nat (max_retries cfg - 1)) with O by lia.
    repeat split; try done. lia.
  - destruct (retry_exhausted service fl cfg (Z.to_nat (max_retries cfg)) 1 w)
      as (w' & evs & Hrun & Htr & _ & _ & _ & Hs & Hb & Hk & Hl & _);
      [lia|done|].
    exists w', evs. repeat split; try done.
    + rewrite Hb. lia.
    + intros _. apply Hl. lia.
Qed.

(** C10: when every attempt of a batch fails, the backoff waits of the
    retry loop number [max_retries - 1] (none when the limit allows no
    attempt): the last failed attempt is followed by the skip mark and not
    by a wait, and the loop ends normally, so that the batch goes on to its
    harvest and its cleanup. *)
Theorem exhausted_backoff_waits (w : world) :
  failing service (calls w) (Z.to_nat (max_retries cfg)) ->
  exists w' evs,
    retry_loop service fl cfg w = (w', Ok tt) /\
    trace w' = trace w ++ evs /\
    backoff_waits evs = Z.to_nat (max_retries cfg - 1) /\
    (1 <= max_retries cfg ->
       Z.of_nat (backoff_waits evs) = max_retries cfg - 1 /\
       last evs = Some (Print MsgSkip)).
Proof.
  intros Hfail.
  destruct (retry_loop_exhausted w Hfail) as (w' & evs & Hrun & Htr & _ & Hb & _ & Hl).
  exists w', evs. repeat split; try done.
  - rewrite Hb. lia.
  - by apply Hl.
Qed.

End RetryProperties.

(* ----------------------------------------------------------------- *)
(** ** One batch *)

Section Batch.

Variable alive : nat -> bool.
Variable service : nat -> dir -> dir -> dir * bool.
Variable xml_parse : data -> option element.
Variables (fl : flavour) (cfg : config).

Lemma restart_hint_fs lote_num w w' r :
  restart_hint fl cfg lote_num w = (w', r) -> fs w' = fs w.
Proof.
  unfold restart_hint, bind, lift, py_mod.
  case_bool_decide; [by intros [= <- _]|].
  case_bool_decide; [|by intros [= <- _]].
  destruct fl; by intros [= <- _].
Qed.

Lemma cleanup_fs w :
  exists w', cleanup w = (w', Ok tt) /\
             fs w' !! tmp_input = None /\ fs w' !! tmp_output = None /\
             probes w' = probes w /\ calls w' = calls w /\
             trace w' = trace w ++ [Collect; Sleep 60].
Proof.
  destruct (shutil_rmtree_inv tmp_input w)
    as (w1 & E1 & Ht1 & Hp1 & Hc1 & Hg1 & _).
  destruct (shutil_rmtree_inv tmp_output w1)
    as (w2 & E2 & Ht2 & Hp2 & Hc2 & Hg2 & Hn2 & _).
  unfold cleanup. rewrite (bind_ok _ _ _ _ _ E1), (bind_ok _ _ _ _ _ E2).
  eexists. split; [reflexivity|]. cbn [log fs probes calls trace].
  split; [by apply Hn2|]. split; [done|]. split; [congruence|].
  split; [congruence|]. rewrite <- app_assoc. cbn [app]. congruence.
Qed.

Lemma process_batch_scratch lote_num batch w w' :
  process_batch service xml_parse fl cfg lote_num batch w = (w', Ok tt) ->
  fs w' !! tmp_input = None /\ fs w' !! tmp_output = None.
Proof.
  unfold process_batch. intros H.
  do 5 (apply bind_inv_ok in H as (? & [] & _ & H)).
  apply bind_inv_ok in H as (w5 & [] & Hc & H).
  match type of Hc with cleanup ?w0 = _ =>
    destruct (cleanup_fs w0) as (w6 & Hc' & Hi & Ho & _) end.
  rewrite Hc' in Hc. injection Hc as <-.
  by rewrite (restart_hint_fs _ _ _ _ H).
Qed.

Lemma gate_alive w :
  alive (probes w) = true ->
  liveness_gate alive fl w =
    (World (fs w) (S (probes w)) (calls w) (trace w ++ [Probe true]), Ok false).
Proof.
  intros H. unfold liveness_gate, bind, is_grobid_alive.
  destruct fl; by rewrite H.
Qed.

Lemma gate_down_module w :
  alive (probes w) = false ->
  liveness_gate alive Module_ w =
    (World (fs w) (S (probes w)) (calls w)
           (trace w ++ [Probe false; Print MsgDown]), Ok true).
Proof.
  intros H. unfold liveness_gate, bind, is_grobid_alive. rewrite H.
  unfold print, emit, log, ret. cbn [fs probes calls trace].
  by rewrite <- app_assoc.
Qed.

Lemma gate_down_script w :
  alive (probes w) = false ->
  alive (S (probes w)) = false ->
  liveness_gate alive Script w =
    (World (fs w) (S (S (probes w))) (calls w)
           (trace w ++ [Probe false; Print MsgRestarting; Sleep 60;
                        Probe false; Print MsgDown]), Ok true).
Proof.
  intros H1 H2. unfold liveness_gate, bind, is_grobid_alive, restart_grobid.
  rewrite H1. unfold bind, print, time_sleep, emit, log, ret.
  cbn [fs probes calls trace]. rewrite H2. cbn [fs probes calls trace].
  by rewrite <- !app_assoc.
Qed.

(** A batch that passed the liveness check ends its turn of the loop
    normally, and the loop goes on, unless the file system or the
    configuration fails it. *)
Lemma batch_body_continues pdfs it w w' r :
  alive (probes w) = true ->
  batch_body alive service xml_parse fl cfg pdfs it w = (w', r) ->
  r = Ok false \/ exists e, r = Raise e /\ outside_error e.
Proof.
  intros Ha. unfold batch_body.
  unfold bind at 1. unfold print, emit at 1.
  unfold bind at 1. rewrite gate_alive by done.
  unfold bind at 1.
  destruct (process_batch _ _ _ _ _ _ _) as [w3 [[]|e]] eqn:E.
  - intros [= _ <-]. by left.
  - intros [= _ <-]. right. exists e. split; [done|].
    by eapply process_batch_safe.
Qed.

(** A turn of the loop that ends normally without [break] has run its
    batch to the end. *)
Lemma batch_body_done pdfs it w w' :
  batch_body alive service xml_parse fl cfg pdfs it w = (w', Ok false) ->
  exists w2 lote_num batch,
    process_batch service xml_parse fl cfg lote_num batch w2 = (w', Ok tt).
Proof.
  unfold batch_body. intros H.
  apply bind_inv_ok in H as (w1 & [] & _ & H).
  apply bind_inv_ok in H as (w2 & halt & _ & H).
  destruct halt; [discriminate H|].
  apply bind_inv_ok in H as (w3 & [] & H & Hr).
  injection Hr as <-. eauto.
Qed.

(** C4: when the turn of a batch is over, whatever the service did with
    the submission, the two scratch directories are gone; removing them
    never raises, changes nothing when they are not there, and can be
    repeated. *)
Theorem scratch_absent_after_batch pdfs it w w' :
  batch_body alive service xml_parse fl cfg pdfs it w = (w', Ok false) ->
  (fs w' !! tmp_input = None /\ fs w' !! tmp_output = None) /\
  (forall p w0, (shutil_rmtree p w0).2 = Ok tt /\
                fs (shutil_rmtree p w0).1 !! p = None) /\
  (forall p w0, fs w0 !! p = None -> fs (shutil_rmtree p w0).1 = fs w0) /\
  (forall p w0, shutil_rmtree p (shutil_rmtree p w0).1 = shutil_rmtree p w0).
Proof.
  intros H. split; [|split; [|split]].
  - apply batch_body_done in H as (w2 & lote_num & batch & H).
    by eapply process_batch_scratch.
  - intros p w0. destruct (shutil_rmtree_inv p w0) as (w1 & E & _ & _ & _ & Hg & _).
    by rewrite E.
  - intros p w0 Hp.
    destruct (shutil_rmtree_inv p w0) as (w1 & E & _ & _ & _ & _ & _ & _ & Hs).
    rewrite E. cbn [fst]. by rewrite (Hs Hp).
  - intros p w0. destruct (shutil_rmtree_inv p w0) as (w1 & E & _ & _ & _ & Hg & _).
    rewrite E. cbn [fst].
    destruct (shutil_rmtree_inv p w1) as (w2 & E2 & _ & _ & _ & _ & _ & _ & Hs).
    rewrite E2. by rewrite (Hs Hg).
Qed.

(** C3: two failed calls and then one that returns, with room for three
    attempts, make three submissions and two backoff waits of 30 seconds,
    no skip mark, and the loop ends on the call that returned; when every
    call fails, [max_retries] submissions are made, the batch is marked
    skipped once, and the loop ends normally.  In both cases the turn of a
    batch that passed the liveness check ends with the loop going on to the
    next batch, unless the file system or the configuration fails it: no
    failure of the service stops it. *)
Theorem retry_property (w : world) :
  (3 <= max_retries cfg ->
   failing service (calls w) 2 ->
   succeeding service (calls w + 2)%nat ->
   exists w' evs,
     retry_loop service fl cfg w = (w', Ok tt) /\
     trace w' = trace w ++ evs /\
     submissions evs = 3%nat /\
     backoff_waits evs = 2%nat /\
     skip_marks evs = 0%nat /\
     last evs = Some (Submit (calls w + 2)%nat true)) /\
  (1 <= max_retries cfg ->
   failing service (calls w) (Z.to_nat (max_retries cfg)) ->
   exists w' evs,
     retry_loop service fl cfg w = (w', Ok tt) /\
     trace w' = trace w ++ evs /\
     Z.of_nat (submissions evs) = max_retries cfg /\
     skip_marks evs = 1%nat /\
     last evs = Some (Print MsgSkip)) /\
  (forall pdfs it w0 w' r,
     alive (probes w0) = true ->
     batch_body alive service xml_parse fl cfg pdfs it w0 = (w', r) ->
     r = Ok false \/ exists e, r = Raise e /\ outside_error e).
Proof.
  split; [|split].
  - intros Hmax Hfail Hok.
    destruct (retry_recovers service fl cfg 2 1 w)
      as (w' & evs & Hrun & Htr & _ & _ & _ & Hs & Hb & Hk & Hl); [lia|done|done|].
    by exists w', evs.
  - intros Hmax Hfail.
    destruct (retry_loop_exhausted service fl cfg w Hfail)
      as (w' & evs & Hrun & Htr & Hs & _ & Hk & Hl).
    exists w', evs. repeat split; try done.
    + rewrite Hs. lia.
    + rewrite Hk. lia.
    + by apply Hl.
  - intros pdfs it w0 w' r. apply batch_body_continues.
Qed.

(** The run from the head of the loop on, when it ends normally, ends on
    the closing report. *)
Lemma run_from_report pdfs its w w' :
  run_from alive service xml_parse fl cfg pdfs its w = (w', Ok tt) ->
  last (trace w') = Some (Print (MsgDone (length pdfs))).
Proof.
  unfold run_from. intros H.
  apply bind_inv_ok in H as (w1 & [] & _ & H).
  injection H as <-. rewrite log_trace. apply last_snoc.
Qed.

Lemma run_from_halt_module pdfs it its w :
  alive (probes w) = false ->
  run_from alive service xml_parse Module_ cfg pdfs (it :: its) w =
    (World (fs w) (S (probes w)) (calls w)
       (trace w ++
        [Print (MsgBatch (Z.of_nat it.1 + 1)
                  (length (py_slice pdfs it.2 (it.2 + batch_size cfg))));
         Probe false; Print MsgDown; Print (MsgDone (length pdfs))]),
     Ok tt).
Proof.
  intros H. unfold run_from. cbn [for_break]. unfold batch_body.
  unfold bind at 1. unfold bind at 1. unfold bind at 1.
  unfold print at 1. unfold emit at 1.
  unfold bind at 1. rewrite gate_down_module by done.
  unfold ret, print, emit, log. cbn [fs probes calls trace].
  by rewrite <- !app_assoc.
Qed.

Lemma run_from_halt_script pdfs it its w :
  alive (probes w) = false ->
  alive (S (probes w)) = false ->
  run_from alive service xml_parse Script cfg pdfs (it :: its) w =
    (World (fs w) (S (S (probes w))) (calls w)
       (trace w ++
        [Print (MsgBatch (Z.of_nat it.1 + 1)
                  (length (py_slice pdfs it.2 (it.2 + batch_size cfg))));
         Probe false; Print MsgRestarting; Sleep 60; Probe false;
         Print MsgDown; Print (MsgDone (length pdfs))]),
     Ok tt).
Proof.
  intros H1 H2. unfold run_from. cbn [for_break]. unfold batch_body.
  unfold bind at 1. unfold bind at 1. unfold bind at 1.
  unfold print at 1. unfold emit at 1.
  unfold bind at 1. rewrite gate_down_script by done.
  unfold ret, print, emit, log. cbn [fs probes calls trace].
  by rewrite <- !app_assoc.
Qed.

End Batch.

(* ----------------------------------------------------------------- *)
(** ** What is caught, and what ends a run *)

Lemma for_break_total {A} (l : list A) (body : A -> M bool) :
  (forall a w, exists w' b, body a w = (w', Ok b)) ->
  forall w, exists w', for_break l body w = (w', Ok tt).
Proof.
  intros Hb. induction l as [|a l IH]; intros w; [by exists w|].
  cbn [for_break]. destruct (Hb a w) as (w1 & b & E).
  rewrite (bind_ok _ _ _ _ _ E). destruct b; [by exists w1|apply IH].
Qed.

Lemma for_each_raise {A} (l : list A) (body : A -> M unit) : forall w w' e,
  for_each l body w = (w', Raise e) ->
  exists a w1, a ∈ l /\ body a w1 = (w', Raise e).
Proof.
  induction l as [|a l IH]; intros w w' e H; [discriminate H|].
  cbn [for_each] in H. apply bind_inv_raise in H as [H|(w1 & [] & _ & H)].
  - exists a, w. split; [by left|done].
  - destruct (IH _ _ _ H) as (b & w2 & Hb & E). exists b, w2. split; [by right|done].
Qed.

Section Caught.

Variable service : nat -> dir -> dir -> dir * bool.
Variable xml_parse : data -> option element.
Variables (fl : flavour) (cfg : config).

(** A call of the service that raises is caught in its turn of the retry
    loop, and the loop ends normally. *)
Lemma retry_loop_total w : exists w', retry_loop service fl cfg w = (w', Ok tt).
Proof.
  apply for_break_total. intros attempt w0.
  destruct (service (calls w0) (default [] (fs w0 !! tmp_input))
              (default [] (fs w0 !! tmp_output))).2 eqn:E.
  - rewrite (attempt_body_ok service fl cfg attempt w0 E). eauto.
  - rewrite (attempt_body_fail service fl cfg attempt w0 E). eauto.
Qed.

(** The extraction of one file, with its handler: it always ends normally
    and touches the text folder only. *)
Lemma extraction_block fname name w :
  exists w',
    try_except
      (txt <- extract_clean_text xml_parse (tmp_output, fname) ;;
       write_file (txt_folder fl cfg, name) txt)
      (fun e => print (MsgExtractError fname e)) w = (w', Ok tt) /\
    probes w' = probes w /\ calls w' = calls w /\
    (forall p, p <> txt_folder fl cfg -> fs w' !! p = fs w !! p).
Proof.
  unfold try_except.
  destruct ((txt <- extract_clean_text xml_parse (tmp_output, fname) ;;
             write_file (txt_folder fl cfg, name) txt) w) as [w1 r] eqn:E.
  assert (Hw : probes w1 = probes w /\ calls w1 = calls w /\
               forall p, p <> txt_folder fl cfg -> fs w1 !! p = fs w !! p).
  { unfold bind in E.
    pose proof (extract_clean_text_world xml_parse (tmp_output, fname) w) as Hx.
    destruct (extract_clean_text xml_parse (tmp_output, fname) w) as [w0 [txt|e]];
      cbn in Hx; subst w0; [|by injection E as <- _].
    unfold write_file in E. cbn [fst snd] in E.
    destruct (fs w !! txt_folder fl cfg) as [d|]; [|by injection E as <- _].
    destruct (entry d name) as [[c0|]|]; injection E as <- _; try done.
    all: split; [done|]; split; [done|]; intros p Hp;
      by rewrite fs_set_fs, lookup_insert_ne. }
  destruct Hw as (Hp & Hc & Hfs).
  destruct r as [[]|e].
  - by exists w1.
  - eexists. split; [reflexivity|]. done.
Qed.

(** The harvest of a file raises exactly when the copy of the structured
    document raises: what the extractor and the writing of the text raise
    is caught. *)
Lemma harvest_file_raises fname w w' e :
  harvest_file xml_parse fl cfg fname w = (w', Raise e) <->
  Py.endswith (u ".tei.xml") fname = true /\
  shutil_copy_to (tmp_output, fname) (tei_folder fl cfg, fname) w = (w', Raise e).
Proof.
  unfold harvest_file. destruct (Py.endswith _ fname); [|by split; [|intros [? _]]].
  split.
  - intros [H|(w1 & [] & _ & H)]%bind_inv_raise; [done|].
    destruct (extraction_block fname (Py.replace (u ".tei.xml") (u ".txt") fname) w1)
      as (w2 & E & _). rewrite E in H. discriminate H.
  - intros [_ H]. by apply bind_raise.
Qed.

(** Where an exception that ends a batch comes from. *)
Lemma process_batch_raises lote_num batch w w' e :
  process_batch service xml_parse fl cfg lote_num batch w = (w', Raise e) ->
  os_makedirs tmp_input w = (w', Raise e) \/
  (exists w1, os_makedirs tmp_output w1 = (w', Raise e)) \/
  (exists w1 fname, fname ∈ batch /\
     shutil_copy_into (input_dir cfg, fname) tmp_input w1 = (w', Raise e)) \/
  (exists w1, os_listdir tmp_output w1 = (w', Raise e)) \/
  (exists w1 fname, Py.endswith (u ".tei.xml") fname = true /\
     shutil_copy_to (tmp_output, fname) (tei_folder fl cfg, fname) w1
       = (w', Raise e)) \/
  (e = ZeroDivisionError /\ restart_every cfg = 0 /\
   fs w' !! tmp_input = None /\ fs w' !! tmp_output = None).
Proof.
  unfold process_batch. intros H.
  apply bind_inv_raise in H as [H|(w1 & [] & _ & H)]; [by left|].
  apply bind_inv_raise in H as [H|(w2 & [] & _ & H)]; [right; left; eauto|].
  apply bind_inv_raise in H as [H|(w3 & [] & _ & H)].
  { right. right. left. apply for_each_raise in H as (f & w0 & Hf & H). eauto. }
  apply bind_inv_raise in H as [H|(w4 & [] & _ & H)].
  { destruct (retry_loop_total w3) as [w0 E]. rewrite E in H. discriminate H. }
  apply bind_inv_raise in H as [H|(w5 & [] & _ & H)].
  { do 3 right. unfold harvest in H.
    apply bind_inv_raise in H as [H|(w0 & names & _ & H)]; [left; eauto|].
    right. left. apply for_each_raise in H as (f & w1' & _ & H).
    apply harvest_file_raises in H as [Hend H]. eauto. }
  destruct (cleanup_fs w5) as (w6 & Hc & Hi & Ho & _).
  apply bind_inv_raise in H as [H|(w6' & [] & Hc' & H)];
    [rewrite Hc in H; discriminate H|].
  rewrite Hc in Hc'. injection Hc' as <-.
  do 5 right. unfold restart_hint, bind, lift, py_mod in H.
  case_bool_decide as Hz.
  - injection H as <- <-. done.
  - case_bool_decide; [destruct fl|]; discriminate H.
Qed.

End Caught.

Section Unreachable.

Variables (alive reachable : nat -> bool).
Variable service : nat -> dir -> dir -> dir * bool.
Variable xml_parse : data -> option element.
Variables (fl : flavour) (cfg : config).

(** The making of the output folders: what it leaves as it is, and what it
    may raise. *)
Lemma make_output_folders_inv w w' r :
  make_output_folders fl cfg w = (w', r) ->
  trace w' = trace w /\ probes w' = probes w /\ calls w' = calls w /\
  grown (fs w) (fs w') /\
  (forall e, r = Raise e -> e = FileExistsError \/ e = NotADirectoryError).
Proof.
  unfold make_output_folders. intros H.
  assert (H0 : forall w0 w1 r0,
    match fl with Module_ => ret tt | Script => os_makedirs (output_dir cfg) end w0
      = (w1, r0) ->
    trace w1 = trace w0 /\ probes w1 = probes w0 /\ calls w1 = calls w0 /\
    grown (fs w0) (fs w1) /\
    (forall e, r0 = Raise e -> e = FileExistsError \/ e = NotADirectoryError)).
  { intros w0 w1 r0. destruct fl.
    - intros [= <- <-]. repeat split; try done. apply grown_refl.
    - intros E. by apply os_makedirs_inv in E as (? & ? & ? & _ & _ & ? & ?). }
  apply bind_inv in H as [(e & H & ->)|(w1 & [] & H1 & H)]; [by apply H0 in H|].
  apply H0 in H1 as (Ht1 & Hp1 & Hc1 & Hg1 & _).
  apply bind_inv in H as [(e & H & ->)|(w2 & [] & H2 & H)].
  { apply os_makedirs_inv in H as (? & ? & ? & _ & _ & ? & ?).
    split; [congruence|]. split; [congruence|]. split; [congruence|].
    split; [by eapply grown_trans|done]. }
  apply os_makedirs_inv in H2 as (Ht2 & Hp2 & Hc2 & _ & _ & Hg2 & _).
  apply os_makedirs_inv in H as (? & ? & ? & _ & _ & ? & ?).
  split; [congruence|]. split; [congruence|]. split; [congruence|].
  split; [|done]. eapply grown_trans; [|done]. by eapply grown_trans.
Qed.

(** The run up to its client. *)
Lemma run_client w w' r :
  run alive reachable service xml_parse fl cfg w = (w', r) ->
  (exists e, r = Raise e /\ (e = FileExistsError \/ e = NotADirectoryError) /\
             trace w' = trace w /\ probes w' = probes w /\ calls w' = calls w) \/
  (exists w2, make_output_folders fl cfg w = (w2, Ok tt) /\
     if reachable (probes w)
     then run_listed alive service xml_parse fl cfg
            (World (fs w2) (S (probes w)) (calls w) (trace w ++ [Connect true]))
          = (w', r)
     else w' = World (fs w2) (S (probes w)) (calls w) (trace w ++ [Connect false])
          /\ r = Raise ServerUnavailable).
Proof.
  unfold run. intros H.
  apply bind_inv in H as [(e & H & ->)|(w2 & [] & H2 & H)].
  { left. exists e. apply make_output_folders_inv in H as (? & ? & ? & _ & He).
    split; [done|]. split; [by apply He|done]. }
  right. exists w2. split; [done|].
  apply make_output_folders_inv in H2 as (Ht2 & Hp2 & Hc2 & _).
  unfold bind at 1, GrobidClient in H. rewrite Hp2 in H.
  destruct (reachable (probes w)).
  - by rewrite Ht2, Hc2 in H.
  - injection H as <- <-. by rewrite Ht2, Hc2.
Qed.

Lemma run_listed_no_server e : outside_error e -> e <> ServerUnavailable.
Proof. intros H. repeat (destruct H as [H|H]); by subst. Qed.

End Unreachable.

(** C5, as stated, fails: with the server reached by the client and alive
    at every check, the run on [world_with_folder] is ended by the staging
    of the first batch, which meets a folder among the documents, and the
    closing report is not made. *)
Lemma staging_failure_stops_run :
  (run always_alive always_reachable refusing_service sample_parse Module_
     sample_config world_with_folder).2 = Raise IsADirectoryError /\
  trace (run always_alive always_reachable refusing_service sample_parse Module_
           sample_config world_with_folder).1
    = [Connect true; Print (MsgFound 2); Print (MsgBatch 1 2); Probe true] /\
  ~ only_liveness_stops always_alive always_reachable refusing_service sample_parse
      Module_ sample_config world_with_folder.
Proof.
  split; [vm_compute; reflexivity|]. split; [vm_compute; reflexivity|].
  intros H. destruct H as [w' H]; [done|done|].
  apply (f_equal snd) in H. vm_compute in H. discriminate H.
Qed.

(** C5, amended: when the liveness check before a batch fails (in the
    script: fails again after the wait), the run ends there: the files, and
    the count of calls of the service, stay as they were, nothing is staged,
    submitted or harvested for this batch or a later one, and the closing
    report is made.  A run that ends normally ends on the closing report.
    An exception that ends a run is never one of a call of the service or of
    the extractor: it is the one of the client, which cannot reach the
    server, or comes from the file system or from the configuration.  A
    client that cannot reach the server ends the run before anything is
    listed or reported.  What a call of the service raises is caught in the
    retry loop, and what the extractor and the writing of a text raise is
    caught in the harvest, which raises exactly when the copy of a
    structured document does; an exception that ends a batch comes from the
    making of a scratch directory, from a staging copy, from the listing of
    the scratch output, from the copy of a structured document, or from a
    restart interval of zero, and from nothing else. *)
Theorem liveness_halt (alive : nat -> bool)
    (service : nat -> dir -> dir -> dir * bool)
    (xml_parse : data -> option element) (cfg : config)
    (pdfs : list ustr) (it : nat * Z) (its : list (nat * Z)) (w : world) :
  (alive (probes w) = false ->
   run_from alive service xml_parse Module_ cfg pdfs (it :: its) w =
     (World (fs w) (S (probes w)) (calls w)
        (trace w ++
         [Print (MsgBatch (Z.of_nat it.1 + 1)
                   (length (py_slice pdfs it.2 (it.2 + batch_size cfg))));
          Probe false; Print MsgDown; Print (MsgDone (length pdfs))]),
      Ok tt)) /\
  (alive (probes w) = false -> alive (S (probes w)) = false ->
   run_from alive service xml_parse Script cfg pdfs (it :: its) w =
     (World (fs w) (S (S (probes w))) (calls w)
        (trace w ++
         [Print (MsgBatch (Z.of_nat it.1 + 1)
                   (length (py_slice pdfs it.2 (it.2 + batch_size cfg))));
          Probe false; Print MsgRestarting; Sleep 60; Probe false;
          Print MsgDown; Print (MsgDone (length pdfs))]),
      Ok tt)) /\
  (forall fl its0 w0 w',
     run_from alive service xml_parse fl cfg pdfs its0 w0 = (w', Ok tt) ->
     last (trace w') = Some (Print (MsgDone (length pdfs)))) /\
  (forall fl reachable w0 w' e,
     run alive reachable service xml_parse fl cfg w0 = (w', Raise e) ->
     (e = ServerUnavailable \/ outside_error e) /\
     (forall c, e <> ServiceError c) /\
     e <> ParseError /\ e <> AttributeError) /\
  (forall fl reachable w0 w' r,
     reachable (probes w0) = false ->
     run alive reachable service xml_parse fl cfg w0 = (w', r) ->
     (r = Raise ServerUnavailable /\ trace w' = trace w0 ++ [Connect false] \/
      (r = Raise FileExistsError \/ r = Raise NotADirectoryError) /\
      trace w' = trace w0) /\
     calls w' = calls w0) /\
  (forall fl reachable w0 w',
     run alive reachable service xml_parse fl cfg w0 = (w', Raise ServerUnavailable) ->
     reachable (probes w0) = false /\ trace w' = trace w0 ++ [Connect false]) /\
  (forall fl w0, exists w', retry_loop service fl cfg w0 = (w', Ok tt)) /\
  (forall fl fname w0 w' e,
     harvest_file xml_parse fl cfg fname w0 = (w', Raise e) <->
     Py.endswith (u ".tei.xml") fname = true /\
     shutil_copy_to (tmp_output, fname) (tei_folder fl cfg, fname) w0
       = (w', Raise e)) /\
  (forall fl lote_num batch w0 w' e,
     process_batch service xml_parse fl cfg lote_num batch w0 = (w', Raise e) ->
     os_makedirs tmp_input w0 = (w', Raise e) \/
     (exists w1, os_makedirs tmp_output w1 = (w', Raise e)) \/
     (exists w1 fname, fname ∈ batch /\
        shutil_copy_into (input_dir cfg, fname) tmp_input w1 = (w', Raise e)) \/
     (exists w1, os_listdir tmp_output w1 = (w', Raise e)) \/
     (exists w1 fname, Py.endswith (u ".tei.xml") fname = true /\
        shutil_copy_to (tmp_output, fname) (tei_folder fl cfg, fname) w1
          = (w', Raise e)) \/
     (e = ZeroDivisionError /\ restart_every cfg = 0 /\
      fs w' !! tmp_input = None /\ fs w' !! tmp_output = None)).
Proof.
  split; [apply run_from_halt_module|]. split; [apply run_from_halt_script|].
  split; [intros fl its0 w0 w'; apply run_from_report|].
  split; [|split; [|split; [|split; [|split]]]].
  - intros fl reachable w0 w' e H. apply run_safe in H.
    split; [done|]. destruct H as [->|H]; [done|].
    split; [intros c; by apply outside_not_service|].
    by apply outside_not_extractor.
  - intros fl reachable w0 w' r Hr H.
    apply run_client in H as [(e & -> & He & Ht & _ & Hc)|(w2 & _ & H)].
    + split; [|done]. right. split; [|done]. destruct He as [->| ->]; auto.
    + rewrite Hr in H. destruct H as [-> ->]. cbn [trace calls]. split; [|done].
      by left.
  - intros fl reachable w0 w' H.
    apply run_client in H as [(e & [= <-] & [?|?] & _)|(w2 & _ & H)];
      [done|done|].
    destruct (reachable (probes w0)).
    + apply run_listed_safe in H. by apply run_listed_no_server in H.
    + destruct H as [-> _]. done.
  - intros fl w0. apply retry_loop_total.
  - intros fl fname w0 w' e. apply harvest_file_raises.
  - intros fl lote_num batch w0 w' e. apply process_batch_raises.
Qed.

(* ----------------------------------------------------------------- *)
(** ** The batches *)

Section Chunks.

Context {A : Type}.
Implicit Types l : list A.

(** The [i]-th slice of [b] elements. *)
Local Abbreviation chunk b l i := (take b (drop (i * b) l)).

Lemma map_lookup {B} (f : nat -> B) (l : list nat) (i : nat) :
  map f l !! i = f <$> l !! i.
Proof. exact (list_lookup_fmap f l i). Qed.

Lemma chunks_lookup b l c i x :
  map (fun i => chunk b l i) (seq 0 c) !! i = Some x ->
  (i < c)%nat /\ x = chunk b l i.
Proof.
  rewrite map_lookup. intros H.
  apply fmap_Some in H as (j & Hj & ->).
  apply lookup_seq in Hj as [-> Hi]. done.
Qed.

Lemma chunks_concat b l c :
  concat (map (fun i => chunk b l i) (seq 0 c)) = take (c * b) l.
Proof.
  induction c as [|c IH]; [done|].
  rewrite seq_S, map_app, concat_app, IH. cbn [map concat plus].
  rewrite app_nil_r, take_take_drop. f_equal. lia.
Qed.

Lemma chunk_elem b l i x :
  x ∈ chunk b l i -> exists p, (p < b)%nat /\ l !! (i * b + p)%nat = Some x.
Proof.
  intros (p & Hp & Hlt)%elem_of_take. rewrite lookup_drop in Hp. eauto.
Qed.

End Chunks.

Lemma batches_chunks (B : Z) (pdfs : list ustr) :
  1 <= B ->
  batches B pdfs =
    Ok (map (fun i => take (Z.to_nat B) (drop (i * Z.to_nat B) pdfs))
            (seq 0 (Z.to_nat ((Z.of_nat (length pdfs) + B - 1) / B)))).
Proof.
  intros HB. unfold batches, py_range_step.
  rewrite !bool_decide_eq_false_2 by lia. cbn [rbind].
  rewrite map_map. f_equal. apply map_ext. intros i. unfold py_slice.
  f_equal; [f_equal; lia|]. f_equal. lia.
Qed.

Lemma ceiling_bounds (n B : Z) :
  0 <= n -> 1 <= B ->
  n <= (n + B - 1) / B * B < n + B.
Proof.
  intros Hn HB.
  pose proof (Z.div_mod (n + B - 1) B ltac:(lia)) as Hd.
  pose proof (Z.mod_pos_bound (n + B - 1) B ltac:(lia)) as Hm.
  lia.
Qed.

(* ----------------------------------------------------------------- *)
(** ** What a run announces *)

Lemma announced_app tr1 tr2 : announced (tr1 ++ tr2) = announced tr1 ++ announced tr2.
Proof. apply flat_map_app. Qed.

Section Quiet.

Lemma quiet_ret {A} (a : A) : quiet (ret a).
Proof. intros w w' r [= <- _]. exists []. by rewrite app_nil_r. Qed.

Lemma quiet_lift {A} (x : result A) : quiet (lift x).
Proof. intros w w' r [= <- _]. exists []. by rewrite app_nil_r. Qed.

Lemma quiet_emit ev : announced [ev] = [] -> quiet (emit ev).
Proof. intros H w w' r [= <- _]. by exists [ev]. Qed.

Lemma quiet_bind {A B} (m : M A) (k : A -> M B) :
  quiet m -> (forall a, quiet (k a)) -> quiet (bind m k).
Proof.
  intros Hm Hk w w' r [(e & H & _)|(w1 & a & H1 & H2)]%bind_inv.
  - by eapply Hm.
  - destruct (Hm _ _ _ H1) as (evs1 & Ht1 & Ha1).
    destruct (Hk _ _ _ _ H2) as (evs2 & Ht2 & Ha2).
    exists (evs1 ++ evs2). rewrite Ht2, Ht1, <- app_assoc, announced_app, Ha1, Ha2.
    done.
Qed.

Lemma quiet_try {A} (m : M A) (h : exn -> M A) :
  quiet m -> (forall e, quiet (h e)) -> quiet (try_except m h).
Proof.
  intros Hm Hh w w' r. unfold try_except.
  destruct (m w) as [w1 [a|e]] eqn:E.
  - intros [= <- <-]. by eapply Hm.
  - intros H2. destruct (Hm _ _ _ E) as (evs1 & Ht1 & Ha1).
    destruct (Hh _ _ _ _ H2) as (evs2 & Ht2 & Ha2).
    exists (evs1 ++ evs2). rewrite Ht2, Ht1, <- app_assoc, announced_app, Ha1, Ha2.
    done.
Qed.

Lemma quiet_for_each {A} (l : list A) (body : A -> M unit) :
  (forall a, quiet (body a)) -> quiet (for_each l body).
Proof.
  intros Hb. induction l as [|a l IH]; simpl.
  - apply quiet_ret.
  - apply quiet_bind; [apply Hb|]. by intros _.
Qed.

Lemma quiet_for_break {A} (l : list A) (body : A -> M bool) :
  (forall a, quiet (body a)) -> quiet (for_break l body).
Proof.
  intros Hb. induction l as [|a l IH]; simpl.
  - apply quiet_ret.
  - apply quiet_bind; [apply Hb|]. intros [|]; [apply quiet_ret|done].
Qed.

(** An operation on the files alone. *)
Lemma quiet_files {A} (m : M A) :
  (forall w, trace (m w).1 = trace w) -> quiet m.
Proof.
  intros H w w' r E. exists []. rewrite app_nil_r.
  rewrite <- (H w). by rewrite E.
Qed.

End Quiet.

Ltac files := apply quiet_files; intros ?; cbv beta delta
  [os_listdir read_file write_file set_fs];
  repeat case_match; done.

Section Announced.

Variable alive : nat -> bool.
Variable service : nat -> dir -> dir -> dir * bool.
Variable xml_parse : data -> option element.
Variables (fl : flavour) (cfg : config) (pdfs : list ustr).

Lemma write_file_quiet loc c : quiet (write_file loc c).
Proof. files. Qed.

Lemma os_makedirs_quiet p : quiet (os_makedirs p).
Proof.
  apply quiet_files. intros w. destruct (os_makedirs p w) as [w' r] eqn:E.
  by apply os_makedirs_inv in E as (? & _).
Qed.

Lemma shutil_rmtree_quiet p : quiet (shutil_rmtree p).
Proof.
  apply quiet_files. intros w.
  destruct (shutil_rmtree_inv p w) as (w' & E & Ht & _). by rewrite E.
Qed.

Lemma read_file_quiet loc : quiet (read_file loc).
Proof. files. Qed.

Lemma copyfile_quiet src dst : quiet (copyfile src dst).
Proof.
  unfold copyfile. case_bool_decide.
  - apply quiet_files. intros w. by repeat case_match.
  - apply quiet_bind; [apply read_file_quiet|]. intros c. apply write_file_quiet.
Qed.

Lemma shutil_copy_to_quiet src dst : quiet (shutil_copy_to src dst).
Proof.
  intros w w' r. unfold shutil_copy_to.
  destruct (fs w !! dst.1 ≫= _) as [[c|]|].
  - apply copyfile_quiet.
  - apply quiet_bind; [apply read_file_quiet|]. intros c. apply quiet_ret.
  - apply copyfile_quiet.
Qed.

Lemma process_batch_quiet lote_num batch :
  quiet (process_batch service xml_parse fl cfg lote_num batch).
Proof.
  unfold process_batch.
  apply quiet_bind; [apply os_makedirs_quiet|]. intros _.
  apply quiet_bind; [apply os_makedirs_quiet|]. intros _.
  apply quiet_bind.
  { apply quiet_for_each. intros fname. apply copyfile_quiet. }
  intros _. apply quiet_bind.
  { apply quiet_for_break. intros attempt. apply quiet_try.
    - apply quiet_bind; [|intros _; apply quiet_ret].
      intros w w' r [= <- _]. by exists [Submit (calls w) (service (calls w)
        (default [] (fs w !! tmp_input)) (default [] (fs w !! tmp_output))).2].
    - intros e. apply quiet_bind; [by apply quiet_emit|]. intros _.
      apply quiet_bind; [|intros _; apply quiet_ret].
      intros w w' r. rewrite after_failure_events. intros [= <- _].
      exists (backoff_events fl cfg attempt). split; [done|].
      unfold backoff_events. destruct fl; by case_bool_decide. }
  intros _. apply quiet_bind.
  { apply quiet_bind; [files|]. intros names.
    apply quiet_for_each. intros fname. unfold harvest_file.
    destruct (Py.endswith _ fname); [|apply quiet_ret].
    apply quiet_bind; [apply shutil_copy_to_quiet|]. intros _.
    apply quiet_try.
    - apply quiet_bind; [|intros txt; apply write_file_quiet].
      apply quiet_bind; [|intros root; apply quiet_lift].
      apply quiet_bind; [apply read_file_quiet|]. intros c.
      destruct (xml_parse c); [apply quiet_ret|apply quiet_lift].
    - intros e. by apply quiet_emit. }
  intros _. apply quiet_bind.
  { unfold cleanup.
    apply quiet_bind; [apply shutil_rmtree_quiet|]. intros _.
    apply quiet_bind; [apply shutil_rmtree_quiet|]. intros _.
    apply quiet_bind; [by apply quiet_emit|]. intros _. by apply quiet_emit. }
  intros _. apply quiet_bind; [apply quiet_lift|]. intros r.
  case_bool_decide; [|apply quiet_ret].
  destruct fl; [by apply quiet_emit|].
  apply quiet_bind; [by apply quiet_emit|]. intros _. by apply quiet_emit.
Qed.

Local Abbreviation mark := (mark cfg pdfs).

(** Every turn of the loop announces its batch, once. *)
Lemma batch_body_announces it w w' r :
  batch_body alive service xml_parse fl cfg pdfs it w = (w', r) ->
  announced (trace w') = announced (trace w) ++ [mark it].
Proof.
  unfold batch_body. unfold bind at 1. unfold print, emit at 1. intros H.
  assert (Hq : quiet (halt <- liveness_gate alive fl ;;
                      if halt : bool then ret true
                      else (process_batch service xml_parse fl cfg
                              (Z.of_nat it.1 + 1)
                              (py_slice pdfs it.2 (it.2 + batch_size cfg))
                            >> ret false))).
  { apply quiet_bind.
    - unfold liveness_gate. destruct fl.
      + apply quiet_bind; [by intros w0 w1 r0 [= <- _]; eexists [_]|].
        intros [|]; [apply quiet_ret|].
        apply quiet_bind; [by apply quiet_emit|]. intros _. apply quiet_ret.
      + apply quiet_bind; [by intros w0 w1 r0 [= <- _]; eexists [_]|].
        intros [|]; [apply quiet_ret|].
        apply quiet_bind.
        { apply quiet_bind; [by apply quiet_emit|]. intros _. by apply quiet_emit. }
        intros _. apply quiet_bind; [by intros w0 w1 r0 [= <- _]; eexists [_]|].
        intros [|]; [apply quiet_ret|].
        apply quiet_bind; [by apply quiet_emit|]. intros _. apply quiet_ret.
    - intros [|]; [apply quiet_ret|].
      apply quiet_bind; [apply process_batch_quiet|]. intros _. apply quiet_ret. }
  destruct (Hq _ _ _ H) as (evs & Ht & Ha).
  rewrite Ht, log_trace, !announced_app, Ha, app_nil_r. done.
Qed.

(** With the service alive at every check, a loop that ends normally has
    announced every one of its batches, in order. *)
Lemma for_break_announced its : forall w w',
  (forall k, alive k = true) ->
  for_break its (batch_body alive service xml_parse fl cfg pdfs) w = (w', Ok tt) ->
  announced (trace w') = announced (trace w) ++ map mark its.
Proof.
  induction its as [|it its IH]; intros w w' Ha H.
  - injection H as <-. by rewrite app_nil_r.
  - cbn [for_break] in H. apply bind_inv_ok in H as (w1 & b & Hb & H).
    destruct (batch_body_continues alive service xml_parse fl cfg pdfs it w w1 (Ok b))
      as [Hr|(e & Hr & _)]; [apply Ha|done| |discriminate Hr].
    injection Hr as ->.
    rewrite (IH _ _ Ha H), (batch_body_announces _ _ _ _ Hb), <- app_assoc. done.
Qed.

Lemma run_from_announced its w w' :
  (forall k, alive k = true) ->
  run_from alive service xml_parse fl cfg pdfs its w = (w', Ok tt) ->
  announced (trace w') = announced (trace w) ++ map mark its.
Proof.
  intros Ha H. unfold run_from in H.
  apply bind_inv_ok in H as (w1 & [] & H1 & H).
  injection H as <-.
  rewrite log_trace, announced_app, app_nil_r. by apply for_break_announced.
Qed.

End Announced.

Lemma ceiling_nat (n : nat) (B : Z) :
  1 <= B ->
  (n <= Z.to_nat ((Z.of_nat n + B - 1) / B) * Z.to_nat B
     < n + Z.to_nat B)%nat.
Proof.
  intros HB.
  pose proof (ceiling_bounds (Z.of_nat n) B ltac:(lia) HB) as Hc.
  assert (0 <= (Z.of_nat n + B - 1) / B) by (apply Z.div_pos; lia).
  split.
  - apply Nat2Z.inj_le. rewrite Nat2Z.inj_mul, !Z2Nat.id by lia. lia.
  - apply Nat2Z.inj_lt. rewrite Nat2Z.inj_add, Nat2Z.inj_mul, !Z2Nat.id by lia. lia.
Qed.

Lemma mark_enumerate (cfg : config) (pdfs : list ustr) (starts : list Z) :
  map (mark cfg pdfs) (enumerate starts) =
  imap (fun i b => (Z.of_nat i + 1, length b))
       (map (fun s => py_slice pdfs s (s + batch_size cfg)) starts).
Proof.
  unfold enumerate.
  enough (H : forall j,
    map (mark cfg pdfs) (zip (seq j (length starts)) starts) =
    imap (fun i b => (Z.of_nat (j + i) + 1, length b))
         (map (fun s => py_slice pdfs s (s + batch_size cfg)) starts)) by apply (H O).
  induction starts as [|s starts IH]; intros j; [done|].
  cbn [length seq zip zip_with map imap]. f_equal.
  - unfold mark. cbn [fst snd]. by rewrite Nat.add_0_r.
  - rewrite (IH (S j)). apply imap_ext. intros i b _. cbn.
    by replace (j + S i)%nat with (S (j + i)) by lia.
Qed.

(** C1: for a batch size [B >= 1] the batches of a run number the ceiling
    of [N/B]; the [i]-th is the slice of [B] documents from position [i*B]
    on, never empty, and of size [B] unless it is the last; put end to end
    the batches give the discovered list back, and when no name is listed
    twice no document is in two batches.  A run that the liveness check
    never halts, and that ends normally, announces exactly these batches,
    numbered from 1, in this order. *)
Theorem batches_partition (B : Z) (pdfs : list ustr) :
  1 <= B ->
  exists bs,
    batches B pdfs = Ok bs /\
    Z.of_nat (length bs) = (Z.of_nat (length pdfs) + B - 1) / B /\
    Z.of_nat (length pdfs) <= Z.of_nat (length bs) * B < Z.of_nat (length pdfs) + B /\
    (forall (i : nat) b, bs !! i = Some b ->
       b = take (Z.to_nat B) (drop (i * Z.to_nat B) pdfs) /\
       b <> [] /\
       (S i < length bs -> length b = Z.to_nat B)%nat) /\
    concat bs = pdfs /\
    (NoDup pdfs ->
     forall (i j : nat) b b' x,
       bs !! i = Some b -> bs !! j = Some b' -> x ∈ b -> x ∈ b' -> i = j) /\
    (forall alive service xml_parse fl cfg starts w w',
       batch_size cfg = B ->
       py_range_step (Z.of_nat (length pdfs)) B = Ok starts ->
       (forall k, alive k = true) ->
       run_from alive service xml_parse fl cfg pdfs (enumerate starts) w = (w', Ok tt) ->
       announced (trace w') =
         announced (trace w) ++ imap (fun i b => (Z.of_nat i + 1, length b)) bs).
Proof.
  intros HB.
  pose proof (ceiling_nat (length pdfs) B HB) as [Hlo Hhi].
  pose proof (ceiling_bounds (Z.of_nat (length pdfs)) B ltac:(lia) HB) as Hc.
  assert (Hpos : 0 <= (Z.of_nat (length pdfs) + B - 1) / B) by (apply Z.div_pos; lia).
  set (c := Z.to_nat ((Z.of_nat (length pdfs) + B - 1) / B)) in *.
  set (b := Z.to_nat B) in *.
  assert (Hb : (1 <= b)%nat) by (subst b; lia).
  eexists. split; [apply (batches_chunks B pdfs HB)|].
  fold c b.
  assert (Hlen : length (map (fun i => take b (drop (i * b) pdfs)) (seq 0 c)) = c)
    by (by rewrite length_map, length_seq).
  rewrite Hlen.
  split; [subst c; lia|]. split; [subst c; rewrite Z2Nat.id by lia; lia|].
  split; [|split; [|split]].
  - intros i x [Hi ->]%chunks_lookup. split; [done|]. split.
    + intros Hnil%(f_equal length). rewrite length_take, length_drop in Hnil.
      cbn in Hnil. nia.
    + intros Hlast. rewrite length_take, length_drop. nia.
  - rewrite chunks_concat. apply take_ge. lia.
  - intros Hnd i j x x' y [_ ->]%chunks_lookup [_ ->]%chunks_lookup
      (p & Hp & Hx)%chunk_elem (q & Hq & Hy)%chunk_elem.
    pose proof (NoDup_lookup _ _ _ _ Hnd Hx Hy). nia.
  - intros alive service xml_parse fl cfg starts w w' Hcfg Hstarts Ha Hrun.
    rewrite (run_from_announced _ _ _ _ _ _ _ _ _ Ha Hrun), mark_enumerate.
    f_equal. f_equal. rewrite Hcfg.
    pose proof (batches_chunks B pdfs HB) as Hbs. unfold batches in Hbs.
    rewrite Hstarts in Hbs. cbn [rbind] in Hbs. by injection Hbs.
Qed.

(* ----------------------------------------------------------------- *)
(** ** The properties at work *)

(** Seven documents in batches of five, the service failing twice before it
    answers: two batches, of five and of two; the structured document and its
    text are in the output folders and the scratch directories are gone. *)
Example seven_documents :
  let r := process_pdfs_in_batches always_alive always_reachable recovering_service
             sample_parse sample_config seven_world in
  r.2 = Ok tt /\
  announced (trace r.1) = [(1, 5%nat); (2, 2%nat)] /\
  fs r.1 !! u "/out/articulos_tei" = Some [(u "a.tei.xml", File (u "<TEI/>"))] /\
  fs r.1 !! u "/out/articulos_txt"
    = Some [(u "a.txt", File (u "Intro" ++ blank_line ++ u "See"))] /\
  fs r.1 !! tmp_input = None /\ fs r.1 !! tmp_output = None.
Proof. vm_compute. repeat split; reflexivity. Qed.

Lemma batches_partition_witness :
  exists bs,
    batches 5 seven_names = Ok bs /\
    map length bs = [5; 2]%nat /\
    concat bs = seven_names /\
    announced
      (trace (run_from always_alive recovering_service sample_parse Module_
                sample_config seven_names [(0%nat, 0); (1%nat, 5)] seven_world).1)
      = imap (fun i b => (Z.of_nat i + 1, length b)) bs.
Proof.
  destruct (batches_partition 5 seven_names) as (bs & Hbs & _ & _ & _ & Hcat & _ & Hrun);
    [lia|].
  exists bs. split; [exact Hbs|]. split.
  - vm_compute in Hbs. injection Hbs as <-. reflexivity.
  - split; [exact Hcat|].
    apply (Hrun always_alive recovering_service sample_parse Module_ sample_config
             [0; 5] seven_world).
    + reflexivity.
    + vm_compute. reflexivity.
    + intros k. reflexivity.
    + vm_compute. reflexivity.
Defined.


Lemma recovering_fails_twice : failing recovering_service 0 2.
Proof. intros [|[|j]] inp out Hj; [reflexivity|reflexivity|lia]. Defined.

Lemma refusing_fails (c k : nat) : failing refusing_service c k.
Proof. intros j inp out _. reflexivity. Defined.

Lemma retry_property_witness :
  (exists w' evs,
     retry_loop recovering_service Module_ sample_config sample_world = (w', Ok tt) /\
     trace w' = trace sample_world ++ evs /\
     submissions evs = 3%nat /\ backoff_waits evs = 2%nat /\ skip_marks evs = 0%nat /\
     last evs = Some (Submit 2 true)) /\
  (exists w' evs,
     retry_loop refusing_service Module_ sample_config sample_world = (w', Ok tt) /\
     trace w' = trace sample_world ++ evs /\
     Z.of_nat (submissions evs) = 3 /\ skip_marks evs = 1%nat /\
     last evs = Some (Print MsgSkip)) /\
  (batch_body always_alive refusing_service sample_parse Module_ sample_config
     [u "a.pdf"] (0%nat, 0) sample_world).2 = Ok false.
Proof.
  split; [|split].
  - destruct (retry_property always_alive recovering_service sample_parse Module_
                sample_config sample_world) as (H & _ & _).
    apply H.
    + vm_compute. discriminate.
    + exact recovering_fails_twice.
    + intros inp out. reflexivity.
  - destruct (retry_property always_alive refusing_service sample_parse Module_
                sample_config sample_world) as (_ & H & _).
    apply H.
    + vm_compute. discriminate.
    + apply refusing_fails.
  - destruct (retry_property always_alive refusing_service sample_parse Module_
                sample_config sample_world) as (_ & _ & H).
    destruct (H [u "a.pdf"] (0%nat, 0) sample_world
                (batch_body always_alive refusing_service sample_parse Module_
                   sample_config [u "a.pdf"] (0%nat, 0) sample_world).1
                (batch_body always_alive refusing_service sample_parse Module_
                   sample_config [u "a.pdf"] (0%nat, 0) sample_world).2)
      as [Hr|(e & Hr & _)].
    + reflexivity.
    + vm_compute. reflexivity.
    + exact Hr.
    + vm_compute in Hr. discriminate Hr.
Defined.

Lemma scratch_absent_after_batch_witness :
  let w' := (batch_body always_alive recovering_service sample_parse Module_
               sample_config [u "a.pdf"] (0%nat, 0) sample_world).1 in
  fs w' !! tmp_input = None /\ fs w' !! tmp_output = None.
Proof.
  intros w'.
  apply (scratch_absent_after_batch always_alive recovering_service sample_parse
           Module_ sample_config [u "a.pdf"] (0%nat, 0) sample_world w').
  vm_compute. reflexivity.
Defined.

Lemma liveness_halt_witness :
  run_from never_alive refusing_service sample_parse Module_ sample_config
    [u "a.pdf"] [(0%nat, 0)] sample_world =
    (World (fs sample_world) 1 0
       [Print (MsgBatch 1 1); Probe false; Print MsgDown; Print (MsgDone 1)], Ok tt) /\
  run_from never_alive refusing_service sample_parse Script sample_config
    [u "a.pdf"] [(0%nat, 0)] sample_world =
    (World (fs sample_world) 2 0
       [Print (MsgBatch 1 1); Probe false; Print MsgRestarting; Sleep 60;
        Probe false; Print MsgDown; Print (MsgDone 1)], Ok tt) /\
  (let r := run_from always_alive writing_service sample_parse Module_
              sample_config [u "a.pdf"] [(0%nat, 0)] blocked_text_world in
   Print (MsgExtractError (u "a.tei.xml") IsADirectoryError) ∈ trace r.1 /\
   last (trace r.1) = Some (Print (MsgDone 1))) /\
  (let r := run always_alive never_reachable refusing_service sample_parse Module_
              sample_config sample_world in
   r.2 = Raise ServerUnavailable /\ trace r.1 = [Connect false] /\
   calls r.1 = 0%nat) /\
  outside_error IsADirectoryError.
Proof.
  destruct (liveness_halt never_alive refusing_service sample_parse sample_config
              [u "a.pdf"] (0%nat, 0) [] sample_world) as (Hm & Hs & _ & _ & Hu & _).
  destruct (liveness_halt always_alive writing_service sample_parse sample_config
              [u "a.pdf"] (0%nat, 0) [] sample_world) as (_ & _ & Hr & _).
  destruct (liveness_halt always_alive refusing_service sample_parse sample_config
              [u "a.pdf"] (0%nat, 0) [] sample_world) as (_ & _ & _ & He & _).
  split; [apply Hm; reflexivity|].
  split; [apply Hs; reflexivity|].
  split; [|split].
  - split.
    + apply list_elem_of_In. vm_compute.
      repeat (first [left; reflexivity|right]).
    + apply (Hr Module_ [(0%nat, 0)] blocked_text_world). vm_compute. reflexivity.
  - cbn zeta.
    destruct (Hu Module_ never_reachable sample_world
                (run always_alive never_reachable refusing_service sample_parse
                   Module_ sample_config sample_world).1
                (run always_alive never_reachable refusing_service sample_parse
                   Module_ sample_config sample_world).2)
      as [[[Hx Ht]|[[Hx|Hx] _]] Hc].
    + reflexivity.
    + by destruct (run _ _ _ _ _ _ _).
    + by rewrite Hx, Ht, Hc.
    + vm_compute in Hx. discriminate Hx.
    + vm_compute in Hx. discriminate Hx.
  - destruct (He Module_ always_reachable world_with_folder
                (run always_alive always_reachable refusing_service sample_parse
                   Module_ sample_config world_with_folder).1 IsADirectoryError)
      as [[Hx|Hx] _]; [vm_compute; reflexivity|discriminate Hx|exact Hx].
Defined.

Lemma extract_raises_iff_unparseable_witness :
  (exists txt,
     extract_clean_text sample_parse (tmp_output, u "a.tei.xml") harvest_world
       = (harvest_world, Ok txt)) /\
  ((exists e, (extract_clean_text sample_parse (tmp_output, u "a.tei.xml")
                 harvest_world).2 = Raise e) <->
   sample_parse (u "<TEI/>") = None).
Proof.
  destruct (extract_raises_iff_unparseable sample_parse (tmp_output, u "a.tei.xml")
              harvest_world (u "<TEI/>")) as (H1 & H2 & _).
  - vm_compute. reflexivity.
  - split; [|exact H2]. apply (H1 doc_mention). vm_compute. reflexivity.
Defined.

Lemma extract_pure_witness :
  extract_clean_text sample_parse (tmp_output, u "a.tei.xml") harvest_world
    = (harvest_world, Ok (u "Intro" ++ blank_line ++ u "See")) /\
  extract_clean_text sample_parse (u "/out/articulos_tei", u "b.tei.xml")
    archived_world
    = (archived_world, Ok (u "Intro" ++ blank_line ++ u "See")) /\
  runs 3 (extract_clean_text sample_parse (tmp_output, u "a.tei.xml")) harvest_world
    = (harvest_world, replicate 3 (Ok (u "Intro" ++ blank_line ++ u "See"))).
Proof.
  destruct (extract_pure sample_parse (tmp_output, u "a.tei.xml") harvest_world)
    as (_ & _ & _ & H & _).
  destruct (H (u "<TEI/>")) as (H1 & H2 & H3); [vm_compute; reflexivity|].
  split; [exact H1|]. split; [|exact (H3 3%nat)].
  apply H2. vm_compute. reflexivity.
Defined.

Lemma exhausted_backoff_waits_witness :
  exists w' evs,
    retry_loop refusing_service Module_ sample_config sample_world = (w', Ok tt) /\
    trace w' = trace sample_world ++ evs /\
    backoff_waits evs = Z.to_nat (3 - 1) /\
    (1 <= 3 -> Z.of_nat (backoff_waits evs) = 3 - 1 /\ last evs = Some (Print MsgSkip)).
Proof.
  apply (exhausted_backoff_waits refusing_service Module_ sample_config sample_world).
  apply refusing_fails.
Defined.

(* ================================================================= *)
(** * Further properties of the scheduler and of the extractor *)

(* ----------------------------------------------------------------- *)
(** ** Paths *)

Section Paths.

Implicit Types (a n cur s : ustr) (cs : list ustr).

(** No slash in [n]. *)
Local Abbreviation slashfree n := (forallb (fun c => negb (N.eqb c 47)) n = true).

Lemma components_from_name n : forall cur,
  slashfree n -> Py.components_from cur n = Py.flush (cur ++ n).
Proof.
  induction n as [|c n IH]; intros cur H; cbn [Py.components_from].
  - by rewrite app_nil_r.
  - cbn [forallb] in H. apply andb_true_iff in H as [Hc H].
    apply negb_true_iff in Hc. rewrite Hc, IH by done.
    by rewrite <- app_assoc.
Qed.

Lemma components_from_slash s n : forall cur,
  slashfree n -> n <> [] ->
  Py.components_from cur (s ++ 47%N :: n) = Py.components_from cur s ++ [n].
Proof.
  intros cur Hn Hne. revert cur. induction s as [|c s IH]; intros cur.
  - cbn [app Py.components_from]. rewrite N.eqb_refl.
    rewrite components_from_name by done. cbn [app]. by destruct n.
  - cbn [app Py.components_from]. destruct (N.eqb c 47).
    + by rewrite IH, app_assoc.
    + apply IH.
Qed.

Lemma components_from_end s : forall cur,
  Py.components_from cur (s ++ [47%N]) = Py.components_from cur s.
Proof.
  induction s as [|c s IH]; intros cur.
  - cbn [app Py.components_from]. rewrite N.eqb_refl. by rewrite app_nil_r.
  - cbn [app Py.components_from]. destruct (N.eqb c 47); by rewrite IH.
Qed.

Lemma steps_snoc cs : forall h n,
  steps h (cs ++ [n]) = steps h cs ++ [(fold_left Py.path_join cs h, n)].
Proof.
  induction cs as [|c cs IH]; intros h n; [done|].
  cbn [app steps fold_left]. by rewrite IH.
Qed.

(** A name added to a path in normal form: the path it gives is in normal
    form, and lies right below the first. *)
Lemma proper_join a n :
  proper_path a = true ->
  slashfree n -> n <> [] -> n <> u "." -> n <> u ".." ->
  proper_path (Py.path_join a n) = true /\
  above (Py.path_join a n) = above a ++ [a] /\
  path_steps (Py.path_join a n) = path_steps a ++ [(a, n)].
Proof.
  unfold proper_path. rewrite !andb_true_iff, !bool_decide_eq_true, !negb_true_iff.
  intros [[[Hs Hsp] Hc] Hd] Hn Hne Hn1 Hn2.
  destruct a as [|c0 a]; [done|].
  assert (Hc0 : c0 = 47%N).
  { cbn in Hs. apply andb_true_iff in Hs as [Hs _]. symmetry. by apply N.eqb_eq. }
  subst c0.
  assert (Hnb : Py.startswith (u "/") n = false).
  { destruct n as [|c n]; [done|]. cbn [forallb] in Hn.
    apply andb_true_iff in Hn as [Hn _]. apply negb_true_iff in Hn.
    change (u "/") with [47%N]. cbn [Py.startswith]. rewrite N.eqb_sym, Hn. done. }
  assert (Hcomp : Py.components (Py.path_join (47%N :: a) n)
                  = Py.components (47%N :: a) ++ [n] /\
                  Py.startswith (u "/") (Py.path_join (47%N :: a) n) = true).
  { unfold Py.path_join. rewrite Hnb.
    destruct (Py.endswith (u "/") (47%N :: a)) eqn:Ee.
    - split; [|reflexivity].
      unfold Py.endswith in Ee. change (rev (u "/")) with [47%N] in Ee.
      destruct (rev (47%N :: a)) as [|z l] eqn:Er; [done|].
      cbn [Py.startswith] in Ee. apply andb_true_iff in Ee as [Ez _].
      apply N.eqb_eq in Ez. subst z.
      apply (f_equal (@rev N)) in Er. rewrite rev_involutive in Er.
      cbn [rev] in Er. rewrite Er. unfold Py.components.
      rewrite <- app_assoc. cbn [app].
      by rewrite components_from_slash, components_from_end.
    - split; [|reflexivity].
      unfold Py.components. change (u "/" ++ n) with (47%N :: n).
      by rewrite components_from_slash. }
  destruct Hcomp as [Hcomp Hstart].
  assert (Hroot : path_root (Py.path_join (47%N :: a) n) = path_root (47%N :: a)).
  { unfold path_root. by rewrite Hstart, Hs. }
  assert (Hsteps : path_steps (Py.path_join (47%N :: a) n)
                   = path_steps (47%N :: a) ++ [(47%N :: a, n)]).
  { unfold path_steps. rewrite Hroot, Hcomp, steps_snoc.
    fold (spelled (47%N :: a)). by rewrite Hsp. }
  split; [|split; [|exact Hsteps]].
  - split; [split; [split|]|].
    + done.
    + unfold spelled. rewrite Hroot, Hcomp, fold_left_app. cbn [fold_left].
      fold (spelled (47%N :: a)). by rewrite Hsp.
    + rewrite Hcomp. apply bool_decide_eq_false. by destruct (Py.components _).
    + rewrite Hcomp, forallb_app, Hd. cbn [forallb andb].
      rewrite andb_true_r. apply negb_true_iff, bool_decide_eq_false. tauto.
  - unfold above. rewrite Hsteps, map_app. done.
Qed.

Lemma proper_spelled p : proper_path p = true -> spelled p = p /\ Py.components p <> [].
Proof.
  unfold proper_path. rewrite !andb_true_iff, !bool_decide_eq_true, !negb_true_iff.
  intros [[[_ Hsp] Hc] _]. split; [done|]. by apply bool_decide_eq_false in Hc.
Qed.

End Paths.

(** The output folders lie right below [output_dir]. *)
Lemma output_folders_proper fl cfg :
  proper_path (output_dir cfg) = true ->
  proper_path (tei_folder fl cfg) = true /\
  proper_path (txt_folder fl cfg) = true /\
  above (tei_folder fl cfg) = above (output_dir cfg) ++ [output_dir cfg] /\
  above (txt_folder fl cfg) = above (output_dir cfg) ++ [output_dir cfg].
Proof.
  intros H. unfold tei_folder, txt_folder.
  destruct (proper_join (output_dir cfg)
              (match fl with Module_ => u "articulos_tei" | Script => u "tei" end) H)
    as (H1 & H2 & _); try by destruct fl.
  destruct (proper_join (output_dir cfg)
              (match fl with Module_ => u "articulos_txt" | Script => u "txt" end) H)
    as (H3 & H4 & _); try by destruct fl.
Qed.


(* ----------------------------------------------------------------- *)
(** ** The start of a run *)

Lemma discover_listed cfg w d :
  fs w !! input_dir cfg = Some d ->
  discover cfg w = (w, Ok (List.filter Py.lower_endswith_pdf (map fst d))).
Proof. intros H. unfold discover, bind, os_listdir. by rewrite H. Qed.


(** A directory that [os.makedirs] makes, and that is not on the way to
    another one, is empty. *)
Lemma make_steps_new l : forall w w' r q d',
  make_steps l w = (w', r) ->
  fs w !! q = None -> fs w' !! q = Some d' -> q ∉ map fst l -> d' = [].
Proof.
  induction l as [|[h t] l IH]; intros w w' r q d' H Hq Hq' Hn.
  - injection H as <- <-. congruence.
  - cbn [map fst] in Hn. apply not_elem_of_cons in Hn as [Hn Hn'].
    cbn [make_steps] in H. unfold bind in H.
    destruct (make_step _ h t w) as [w1 r1] eqn:E1.
    assert (H1 : forall d1, fs w1 !! q = Some d1 -> d1 = []).
    { intros d1 Hd1. unfold make_step in E1. cbn zeta in E1.
      destruct (fs w !! Py.path_join h t) eqn:Eq; [injection E1 as <- _; congruence|].
      destruct (fs w !! h) as [d|] eqn:Eh.
      - destruct (entry d t) as [[c|]|]; try (injection E1 as <- _; congruence).
        injection E1 as <- _. rewrite fs_set_fs in Hd1.
        destruct (decide (q = Py.path_join h t)) as [->|Hne].
        + rewrite lookup_insert_eq in Hd1. by injection Hd1.
        + rewrite !lookup_insert_ne in Hd1 by done. congruence.
      - injection E1 as <- _. rewrite fs_set_fs in Hd1.
        destruct (decide (q = Py.path_join h t)) as [->|Hne].
        + rewrite lookup_insert_eq in Hd1. by injection Hd1.
        + rewrite lookup_insert_ne in Hd1 by done. congruence. }
    destruct r1 as [[]|e]; [|injection H as <- _; by apply H1].
    destruct (fs w1 !! q) as [d1|] eqn:Eq1.
    + pose proof (H1 d1 eq_refl) as ->.
      apply make_steps_inv in H as (_ & _ & _ & _ & Hk & _).
      rewrite (Hk q [] Eq1 Hn') in Hq'. by injection Hq'.
    + by eapply IH.
Qed.

Lemma os_makedirs_new p w w' r q d' :
  os_makedirs p w = (w', r) ->
  fs w !! q = None -> fs w' !! q = Some d' -> q ∉ above p -> d' = [].
Proof. apply make_steps_new. Qed.

(** What [os.makedirs] makes of a path in normal form with nothing in its
    way. *)
Lemma os_makedirs_proper p w :
  proper_path p = true ->
  way_clear (fs w) p = true ->
  exists w',
    os_makedirs p w = (w', Ok tt) /\
    trace w' = trace w /\ probes w' = probes w /\ calls w' = calls w /\
    is_Some (fs w' !! p) /\
    (forall q, q ∉ above p -> q <> p -> fs w' !! q = fs w !! q) /\
    (forall q d, fs w !! q = Some d -> q ∉ above p -> fs w' !! q = Some d) /\
    grown (fs w) (fs w').
Proof.
  intros [Hsp Hne]%proper_spelled Hw.
  destruct (os_makedirs_ok p w Hw) as (w' & E & Hs).
  pose proof (os_makedirs_inv _ _ _ _ E) as (Ht & Hp & Hc & Hf & Hk & Hg & _).
  exists w'. split; [done|]. split; [done|]. split; [done|]. split; [done|].
  rewrite Hsp in Hs, Hf. split; [by apply Hs|]. done.
Qed.

Section Start.

Variables (alive reachable : nat -> bool).
Variable service : nat -> dir -> dir -> dir * bool.
Variable xml_parse : data -> option element.
Variables (fl : flavour) (cfg : config).








End Start.

(* ----------------------------------------------------------------- *)
(** ** The end of a batch *)

Lemma file_FileNotFoundError : file_error FileNotFoundError.
Proof. by left. Qed.
Lemma file_IsADirectoryError : file_error IsADirectoryError.
Proof. right. by left. Qed.
Lemma file_SameFileError : file_error SameFileError.
Proof. right. right. by left. Qed.
Lemma file_NotADirectoryError : file_error NotADirectoryError.
Proof. do 3 right. by left. Qed.
Lemma file_FileExistsError : file_error FileExistsError.
Proof. do 4 right. done. Qed.

Create HintDb files.
#[local] Hint Resolve file_FileNotFoundError file_IsADirectoryError
  file_SameFileError file_NotADirectoryError file_FileExistsError : files.

Ltac file_raised :=
  intros ? ? ?; repeat case_match; intros ?; simplify_eq; auto with files.

Section Hint.

Variable service : nat -> dir -> dir -> dir * bool.
Variable xml_parse : data -> option element.
Variables (fl : flavour) (cfg : config).

Lemma copyfile_file_error src dst : raises_only file_error (copyfile src dst).
Proof.
  unfold copyfile. case_bool_decide.
  - file_raised.
  - apply raises_only_bind; [unfold read_file; file_raised|].
    intros c. unfold write_file. file_raised.
Qed.

Lemma shutil_copy_to_file_error src dst :
  raises_only file_error (shutil_copy_to src dst).
Proof.
  intros w w' e. unfold shutil_copy_to.
  destruct (fs w !! dst.1 ≫= _) as [[c|]|].
  - apply copyfile_file_error.
  - apply raises_only_bind; [unfold read_file; file_raised|].
    intros c. apply raises_only_ret.
  - apply copyfile_file_error.
Qed.

Lemma os_makedirs_file_error p : raises_only file_error (os_makedirs p).
Proof.
  intros w w' e H. apply os_makedirs_inv in H as (_ & _ & _ & _ & _ & _ & He).
  destruct (He e eq_refl) as [->| ->]; auto with files.
Qed.

Lemma stage_file_error batch : raises_only file_error (stage cfg batch).
Proof. apply raises_only_for_each. intros fname. apply copyfile_file_error. Qed.

Lemma retry_loop_file_error : raises_only file_error (retry_loop service fl cfg).
Proof.
  apply raises_only_for_break. intros attempt. apply raises_only_try.
  intros e. apply raises_only_bind; [apply raises_only_emit|]. intros _.
  apply raises_only_bind; [|intros _; apply raises_only_ret].
  intros w w' e'. by rewrite after_failure_events.
Qed.

Lemma harvest_file_error : raises_only file_error (harvest xml_parse fl cfg).
Proof.
  apply raises_only_bind; [unfold os_listdir; file_raised|]. intros names.
  apply raises_only_for_each. intros fname. unfold harvest_file.
  destruct (Py.endswith _ fname); [|apply raises_only_ret].
  apply raises_only_bind; [apply shutil_copy_to_file_error|]. intros _.
  apply raises_only_try. intros e. apply raises_only_emit.
Qed.

(** A batch either fails on its files, or reaches the restart hint with
    both scratch directories gone. *)
Lemma process_batch_inv lote_num batch w w' r :
  process_batch service xml_parse fl cfg lote_num batch w = (w', r) ->
  (exists e, r = Raise e /\ file_error e) \/
  exists w6, fs w6 !! tmp_input = None /\ fs w6 !! tmp_output = None /\
             restart_hint fl cfg lote_num w6 = (w', r).
Proof.
  unfold process_batch. intros E.
  apply bind_inv in E as [(e & E & ->)|(w1 & [] & _ & E)];
    [left; exists e; split; [done|]; by eapply os_makedirs_file_error|].
  apply bind_inv in E as [(e & E & ->)|(w2 & [] & _ & E)];
    [left; exists e; split; [done|]; by eapply os_makedirs_file_error|].
  apply bind_inv in E as [(e & E & ->)|(w3 & [] & _ & E)];
    [left; exists e; split; [done|]; by eapply stage_file_error|].
  apply bind_inv in E as [(e & E & ->)|(w4 & [] & _ & E)];
    [left; exists e; split; [done|]; by eapply retry_loop_file_error|].
  apply bind_inv in E as [(e & E & ->)|(w5 & [] & _ & E)];
    [left; exists e; split; [done|]; by eapply harvest_file_error|].
  destruct (cleanup_fs w5) as (w6 & Hc & Hi & Ho & _).
  apply bind_inv in E as [(e & E & ->)|(w6' & [] & Hc' & E)];
    [rewrite Hc in E; discriminate E|].
  rewrite Hc in Hc'. injection Hc' as <-.
  right. by exists w6.
Qed.

Lemma restart_hint_zero lote_num w :
  restart_every cfg = 0 ->
  restart_hint fl cfg lote_num w = (w, Raise ZeroDivisionError).
Proof.
  intros H. unfold restart_hint, bind, lift, py_mod.
  by rewrite bool_decide_eq_true_2.
Qed.

Lemma restart_hint_nonzero lote_num w :
  restart_every cfg <> 0 ->
  exists w' evs,
    restart_hint fl cfg lote_num w = (w', Ok tt) /\
    fs w' = fs w /\ probes w' = probes w /\ calls w' = calls w /\
    trace w' = trace w ++ evs /\
    evs = (if bool_decide (lote_num mod restart_every cfg = 0)
           then match fl with
                | Module_ => [Print MsgSuggest]
                | Script => [Print MsgRestarting; Sleep 60]
                end
           else []).
Proof.
  intros H. unfold restart_hint, bind, lift, py_mod.
  rewrite bool_decide_eq_false_2 by done.
  case_bool_decide.
  - destruct fl; eexists _, _; (split; [reflexivity|]);
      cbn [fs probes calls trace log]; rewrite <- ?app_assoc; done.
  - exists w, []. rewrite app_nil_r. done.
Qed.

(** X4: the restart hint is given at the end of the batches whose number
    is a multiple of [restart_every], and of no other (in the script it is
    the wait of [restart_grobid]).  With [restart_every = 0] the test
    itself raises [ZeroDivisionError]: no batch ends normally, and the
    exception comes after the cleanup, with both scratch directories
    gone. *)
Theorem restart_hint_cases (lote_num : Z) (w : world) :
  (restart_every cfg <> 0 ->
   exists w' evs,
     restart_hint fl cfg lote_num w = (w', Ok tt) /\
     fs w' = fs w /\ trace w' = trace w ++ evs /\
     ((restart_every cfg | lote_num) ->
      evs = match fl with
            | Module_ => [Print MsgSuggest]
            | Script => [Print MsgRestarting; Sleep 60]
            end) /\
     (~ (restart_every cfg | lote_num) -> evs = [])) /\
  (restart_every cfg = 0 ->
   forall batch w0 w' r,
     process_batch service xml_parse fl cfg lote_num batch w0 = (w', r) ->
     r <> Ok tt /\
     (r = Raise ZeroDivisionError ->
      fs w' !! tmp_input = None /\ fs w' !! tmp_output = None)).
Proof.
  split.
  - intros H.
    destruct (restart_hint_nonzero lote_num w H)
      as (w' & evs & E & Hfs & _ & _ & Ht & Hevs).
    exists w', evs. repeat split; try done.
    + intros Hdiv. rewrite Hevs, bool_decide_eq_true_2; [done|].
      by apply Z.mod_divide.
    + intros Hdiv. rewrite Hevs, bool_decide_eq_false_2; [done|].
      intros Hm. by apply Hdiv, Z.mod_divide.
  - intros H batch w0 w' r E.
    apply process_batch_inv in E as [(e & -> & He)|(w6 & H1 & H2 & E)].
    + split; [done|]. intros [= ->]. by destruct He as [?|[?|[?|[?|?]]]].
    + rewrite restart_hint_zero in E by done. injection E as <- <-. done.
Qed.

End Hint.

(* ----------------------------------------------------------------- *)
(** ** The retry loop, whatever the service does *)

Section RetryBounds.

Variable service : nat -> dir -> dir -> dir * bool.
Variables (fl : flavour) (cfg : config).

Lemma retry_bounded (k : nat) : forall (attempt : Z) (w : world),
  attempt + Z.of_nat k = max_retries cfg + 1 ->
  exists w' evs,
    for_break (py_range attempt (max_retries cfg + 1))
      (attempt_body service fl cfg) w = (w', Ok tt) /\
    trace w' = trace w ++ evs /\
    probes w' = probes w /\
    calls w' = (calls w + submissions evs)%nat /\
    (forall p, p <> tmp_output -> fs w' !! p = fs w !! p) /\
    (submissions evs <= k)%nat /\
    (k <> O -> 1 <= submissions evs)%nat /\
    backoff_waits evs = Nat.pred (submissions evs) /\
    (k = O -> evs = []) /\
    (k <> O ->
     (skip_marks evs = O /\ exists c, last evs = Some (Submit c true)) \/
     (skip_marks evs = 1%nat /\ last evs = Some (Print MsgSkip) /\
      submissions evs = k)).
Proof.
  induction k as [|k IH]; intros attempt w Ha.
  - rewrite py_range_nil by lia. exists w, []. rewrite app_nil_r.
    repeat split; try done; cbn; lia.
  - rewrite py_range_cons by lia. cbn [for_break].
    destruct (service (calls w) (default [] (fs w !! tmp_input))
                (default [] (fs w !! tmp_output))).2 eqn:Hc.
    + rewrite (bind_ok _ _ _ _ _ (attempt_body_ok service fl cfg attempt w Hc)).
      eexists _, [Submit (calls w) true]. split; [reflexivity|].
      cbn [trace calls probes fs].
      repeat split; try done; try (cbn; lia).
      * intros p Hp. by rewrite lookup_insert_ne.
      * intros _. left. split; [done|]. by eexists.
    + rewrite (bind_ok _ _ _ _ _ (attempt_body_fail service fl cfg attempt w Hc)).
      set (w1 := World _ _ _ _).
      destruct (IH (attempt + 1) w1)
        as (w' & evs & Hrun & Htr & Hpr & Hcalls & Hfs & Hle & Hge & Hb & Hnil & Hend);
        [lia|].
      exists w', ([Submit (calls w) false;
                   Print (MsgAttemptError attempt (ServiceError (calls w)))]
                  ++ backoff_events fl cfg attempt ++ evs).
      split; [exact Hrun|].
      split; [rewrite Htr; subst w1; cbn [trace]; by rewrite <- !app_assoc|].
      split; [by rewrite Hpr|].
      assert (Hfs' : forall p, p <> tmp_output -> fs w' !! p = fs w !! p).
      { intros p Hp. rewrite (Hfs p Hp). subst w1. cbn [fs].
        by rewrite lookup_insert_ne. }
      unfold submissions, backoff_waits, skip_marks in *.
      rewrite !tally_app.
      destruct k as [|k].
      * assert (attempt = max_retries cfg) as -> by lia.
        rewrite backoff_events_last, (Hnil eq_refl).
        subst w1. cbn [calls] in Hcalls. rewrite Hcalls, (Hnil eq_refl).
        repeat split; try done; try (cbn; lia).
        intros _. right. done.
      * destruct (backoff_events_wait fl cfg attempt) as (Hw1 & Hw2 & Hw3); [lia|].
        unfold submissions, backoff_waits, skip_marks in *.
        rewrite Hw1, Hw2, Hw3.
        specialize (Hge ltac:(done)).
        subst w1. cbn [calls] in Hcalls.
        split; [rewrite Hcalls; cbn; lia|].
        split; [done|].
        split; [cbn; lia|]. split; [cbn; lia|].
        split; [rewrite Hb; cbn; lia|]. split; [done|].
        intros _. destruct (Hend ltac:(done)) as [(Hs & c & Hl)|(Hs & Hl & Hk)].
        -- left. split; [cbn; lia|]. exists c.
           by rewrite app_assoc, last_app, Hl.
        -- right. split; [cbn; lia|]. split; [|cbn; lia].
           by rewrite app_assoc, last_app, Hl.
Qed.

(** X5: whatever the service answers, the retry loop ends normally.  With
    [max_retries >= 1] it calls the service at least once and at most
    [max_retries] times, waits 30 seconds between two calls and never after
    the last one, and it ends either on a call that returned, without a
    skip mark, or on the skip mark after [max_retries] calls that all
    raised.  It makes no liveness probe and changes no directory but the
    scratch output. *)
Theorem retry_loop_bounds (w : world) :
  exists w' evs,
    retry_loop service fl cfg w = (w', Ok tt) /\
    trace w' = trace w ++ evs /\
    probes w' = probes w /\
    calls w' = (calls w + submissions evs)%nat /\
    (forall p, p <> tmp_output -> fs w' !! p = fs w !! p) /\
    (max_retries cfg <= 0 -> evs = []) /\
    (1 <= max_retries cfg ->
     (1 <= submissions evs <= Z.to_nat (max_retries cfg))%nat /\
     backoff_waits evs = Nat.pred (submissions evs) /\
     ((skip_marks evs = O /\ exists c, last evs = Some (Submit c true)) \/
      (skip_marks evs = 1%nat /\ last evs = Some (Print MsgSkip) /\
       submissions evs = Z.to_nat (max_retries cfg)))).
Proof.
  destruct (decide (max_retries cfg <= 0)) as [Hle|Hgt].
  - exists w, []. rewrite retry_loop_empty, app_nil_r by done.
    repeat split; try done; try lia.
  - destruct (retry_bounded (Z.to_nat (max_retries cfg)) 1 w)
      as (w' & evs & Hrun & Htr & Hpr & Hcalls & Hfs & Hle & Hge & Hb & _ & Hend);
      [lia|].
    exists w', evs. split; [done|]. split; [done|]. split; [done|].
    split; [done|]. split; [done|]. split; [lia|].
    intros _. split; [split; [apply Hge; lia|done]|]. split; [done|].
    apply Hend. lia.
Qed.

End RetryBounds.

(* ----------------------------------------------------------------- *)
(** ** The second liveness check of the script *)

Section SecondChance.

Variable alive : nat -> bool.
Variable service : nat -> dir -> dir -> dir * bool.
Variable xml_parse : data -> option element.
Variable cfg : config.

Lemma gate_second_chance w :
  alive (probes w) = false ->
  alive (S (probes w)) = true ->
  liveness_gate alive Script w =
    (World (fs w) (S (S (probes w))) (calls w)
           (trace w ++ [Probe false; Print MsgRestarting; Sleep 60; Probe true]),
     Ok false).
Proof.
  intros H1 H2. unfold liveness_gate, bind, is_grobid_alive, restart_grobid.
  rewrite H1. unfold bind, print, time_sleep, emit, log, ret.
  cbn [fs probes calls trace]. rewrite H2. cbn [fs probes calls trace].
  by rewrite <- !app_assoc.
Qed.

(** X6: in the script a failed liveness check is followed by the wait of
    [restart_grobid] (its message and 60 seconds) and by a second check,
    which alone decides: when it fails too the loop is left, before any
    staging; when it succeeds the batch is processed from the world in which
    two probes and the wait have been made, and its turn does not end in
    [break].  (As the file stands every check of the script fails, since its
    [is_grobid_alive] uses [requests], which the file does not import.)  The
    module, with its single check, leaves the loop at once. *)
Theorem script_second_check (pdfs : list ustr) (it : nat * Z) (w : world) :
  alive (probes w) = false ->
  let batch := py_slice pdfs it.2 (it.2 + batch_size cfg) in
  let lote_num := Z.of_nat it.1 + 1 in
  let header := Print (MsgBatch lote_num (length batch)) in
  batch_body alive service xml_parse Script cfg pdfs it w =
    (if alive (S (probes w))
     then (process_batch service xml_parse Script cfg lote_num batch >> ret false)
            (World (fs w) (S (S (probes w))) (calls w)
               (trace w ++ [header; Probe false; Print MsgRestarting; Sleep 60;
                            Probe true]))
     else (World (fs w) (S (S (probes w))) (calls w)
             (trace w ++ [header; Probe false; Print MsgRestarting; Sleep 60;
                          Probe false; Print MsgDown]), Ok true)) /\
  (alive (S (probes w)) = true ->
   (batch_body alive service xml_parse Script cfg pdfs it w).2 <> Ok true) /\
  batch_body alive service xml_parse Module_ cfg pdfs it w =
    (World (fs w) (S (probes w)) (calls w)
       (trace w ++ [header; Probe false; Print MsgDown]), Ok true).
Proof.
  intros H1 batch lote_num header.
  assert (E : batch_body alive service xml_parse Script cfg pdfs it w =
    (if alive (S (probes w))
     then (process_batch service xml_parse Script cfg lote_num batch >> ret false)
            (World (fs w) (S (S (probes w))) (calls w)
               (trace w ++ [header; Probe false; Print MsgRestarting; Sleep 60;
                            Probe true]))
     else (World (fs w) (S (S (probes w))) (calls w)
             (trace w ++ [header; Probe false; Print MsgRestarting; Sleep 60;
                          Probe false; Print MsgDown]), Ok true))).
  { unfold batch_body. fold batch lote_num.
    unfold bind at 1. unfold print at 1, emit at 1.
    unfold bind at 1. destruct (alive (S (probes w))) eqn:H2.
    - rewrite gate_second_chance by done.
      unfold log. cbn [fs probes calls trace]. by rewrite <- !app_assoc.
    - rewrite gate_down_script by done.
      unfold log, ret. cbn [fs probes calls trace]. by rewrite <- !app_assoc. }
  split; [exact E|]. split.
  - intros H2. rewrite E, H2. unfold bind.
    by destruct (process_batch _ _ _ _ _ _ _) as [w3 [[]|e]].
  - unfold batch_body. fold batch lote_num.
    unfold bind at 1. unfold print at 1, emit at 1.
    unfold bind at 1. rewrite gate_down_module by done.
    unfold log, ret. cbn [fs probes calls trace]. by rewrite <- !app_assoc.
Qed.

End SecondChance.

(* ----------------------------------------------------------------- *)
(** ** Staging *)

Lemma for_each_app {A} (l1 l2 : list A) (body : A -> M unit) w :
  for_each (l1 ++ l2) body w = (for_each l1 body >> for_each l2 body) w.
Proof.
  revert w. induction l1 as [|a l1 IH]; intros w; [done|].
  cbn [app for_each]. unfold bind in *.
  destruct (body a w) as [w1 [[]|e]]; [|done]. apply IH.
Qed.

Section Staging.

Variable cfg : config.

(** The copy of one document into the scratch input directory. *)
Lemma stage_one fname w d_in d0 c :
  input_dir cfg <> tmp_input ->
  fs w !! input_dir cfg = Some d_in ->
  fs w !! tmp_input = Some d0 ->
  entry d_in fname = Some (File c) ->
  entry d0 fname <> Some Dir ->
  shutil_copy_into (input_dir cfg, fname) tmp_input w =
    (set_fs (insert tmp_input (put d0 fname (File c))) w, Ok tt).
Proof.
  intros Hne Hin H0 Hc Hd. unfold shutil_copy_into, copyfile. cbn [snd].
  rewrite bool_decide_eq_false_2 by (intros [= E]; done).
  unfold bind, read_file, write_file. cbn [fst snd]. rewrite Hin, Hc, H0.
  destruct (entry d0 fname) as [[c0|]|]; done.
Qed.

Lemma stage_spec (batch : list ustr) : forall w d_in d0,
  input_dir cfg <> tmp_input ->
  fs w !! input_dir cfg = Some d_in ->
  fs w !! tmp_input = Some d0 ->
  (forall f, f ∈ batch -> exists c, entry d_in f = Some (File c)) ->
  (forall f, f ∈ batch -> entry d0 f <> Some Dir) ->
  exists w' d',
    stage cfg batch w = (w', Ok tt) /\
    trace w' = trace w /\ probes w' = probes w /\ calls w' = calls w /\
    fs w' !! tmp_input = Some d' /\
    (forall p, p <> tmp_input -> fs w' !! p = fs w !! p) /\
    (forall name, entry d' name =
                  if bool_decide (name ∈ batch) then entry d_in name
                  else entry d0 name).
Proof.
  induction batch as [|f batch IH]; intros w d_in d0 Hne Hin H0 Hfiles Hdirs.
  - exists w, d0. repeat split; try done.
  - destruct (Hfiles f) as [c Hc]; [by left|].
    unfold stage. cbn [for_each].
    rewrite (bind_ok _ _ _ _ _
               (stage_one f w d_in d0 c Hne Hin H0 Hc (Hdirs f ltac:(by left)))).
    set (w1 := set_fs _ w).
    destruct (IH w1 d_in (put d0 f (File c))) as (w' & d' & E & Ht & Hp & Hc' & Hd' & Hfs & He).
    + done.
    + subst w1. cbn [set_fs fs]. by rewrite lookup_insert_ne.
    + subst w1. cbn [set_fs fs]. apply lookup_insert_eq.
    + intros f' Hf'. apply Hfiles. by right.
    + intros f' Hf'. destruct (decide (f' = f)) as [->|Hn].
      * by rewrite entry_put_eq.
      * rewrite entry_put_ne by done. apply Hdirs. by right.
    + exists w', d'. split; [exact E|]. repeat split; try done.
      * intros p Hp'. rewrite (Hfs p Hp'). subst w1. cbn [set_fs fs].
        by rewrite lookup_insert_ne.
      * intros name. rewrite He.
        destruct (decide (name = f)) as [->|Hn].
        -- rewrite (bool_decide_eq_true_2 (f ∈ f :: batch)) by by left.
           case_bool_decide; [done|]. by rewrite entry_put_eq.
        -- rewrite entry_put_ne by done.
           case_bool_decide as E1; case_bool_decide as E2; try done.
           ++ exfalso. apply E2. by right.
           ++ exfalso. apply E1. by apply elem_of_cons in E2 as [?|?].
Qed.

(** The scratch directories, once made. *)
Lemma scratch_made w d_in :
  apart (input_dir cfg) tmp_input ->
  apart (input_dir cfg) tmp_output ->
  way_clear (fs w) tmp_input = true ->
  way_clear (fs w) tmp_output = true ->
  fs w !! input_dir cfg = Some d_in ->
  exists w1 w2,
    os_makedirs tmp_input w = (w1, Ok tt) /\
    os_makedirs tmp_output w1 = (w2, Ok tt) /\
    trace w2 = trace w /\ probes w2 = probes w /\ calls w2 = calls w /\
    fs w2 !! tmp_input = Some (default [] (fs w !! tmp_input)) /\
    is_Some (fs w2 !! tmp_output) /\
    fs w2 !! input_dir cfg = Some d_in.
Proof.
  intros (_ & _ & _ & Hb1 & _) (_ & _ & _ & Hb2 & _) Hw1 Hw2 Hin.
  unfold below in Hb1, Hb2. apply bool_decide_eq_false in Hb1, Hb2.
  assert (Hii : below tmp_input tmp_input = false) by (vm_compute; reflexivity).
  assert (Hio : below tmp_input tmp_output = false) by (vm_compute; reflexivity).
  unfold below in Hii, Hio. apply bool_decide_eq_false in Hii, Hio.
  destruct (os_makedirs_proper tmp_input w eq_refl Hw1)
    as (w1 & E1 & Ht1 & Hp1 & Hc1 & Hs1 & _ & Hk1 & Hg1).
  destruct (os_makedirs_proper tmp_output w1 eq_refl (way_clear_grown _ _ _ Hg1 Hw2))
    as (w2 & E2 & Ht2 & Hp2 & Hc2 & Hs2 & _ & Hk2 & _).
  exists w1, w2. split; [done|]. split; [done|].
  split; [congruence|]. split; [congruence|]. split; [congruence|].
  split; [|split; [done|apply Hk2; [by apply Hk1|done]]].
  apply Hk2; [|done]. destruct (fs w !! tmp_input) as [d0|] eqn:E0.
  - by apply Hk1.
  - destruct Hs1 as [d1 Hd1]. rewrite Hd1. f_equal.
    by apply (os_makedirs_new _ _ _ _ _ _ E1 E0 Hd1).
Qed.

(** X7: when the input folder is named in normal form and lies apart from
    the scratch directories, nothing stands in the way of these, and every
    document of the batch is a regular file of the input folder, staging
    succeeds, and afterwards the scratch input directory holds each
    document of the batch with the content it has in the input folder, and
    besides them exactly what the directory held before: all of the batch
    and nothing else when the directory was absent, but also any file left
    there from before, since [makedirs(..., exist_ok=True)] keeps it.  The
    input folder is as it was. *)
Theorem staging_contents (batch : list ustr) (w : world) (d_in : dir) :
  apart (input_dir cfg) tmp_input ->
  apart (input_dir cfg) tmp_output ->
  way_clear (fs w) tmp_input = true ->
  way_clear (fs w) tmp_output = true ->
  fs w !! input_dir cfg = Some d_in ->
  (forall f, f ∈ batch -> exists c, entry d_in f = Some (File c)) ->
  (forall f, f ∈ batch ->
     entry (default [] (fs w !! tmp_input)) f <> Some Dir) ->
  exists w' d',
    (os_makedirs tmp_input >> os_makedirs tmp_output >> stage cfg batch) w
      = (w', Ok tt) /\
    trace w' = trace w /\ calls w' = calls w /\
    fs w' !! tmp_input = Some d' /\
    fs w' !! input_dir cfg = Some d_in /\
    (forall name, entry d' name =
                  if bool_decide (name ∈ batch) then entry d_in name
                  else entry (default [] (fs w !! tmp_input)) name) /\
    (fs w !! tmp_input = None ->
     forall name, is_Some (entry d' name) <-> name ∈ batch).
Proof.
  intros Ha1 Ha2 Hw1 Hw2 Hin Hfiles Hdirs.
  destruct (scratch_made w d_in Ha1 Ha2 Hw1 Hw2 Hin)
    as (w1 & w2 & E1 & E2 & Ht2 & _ & Hc2 & H0 & _ & Hin2).
  destruct Ha1 as (_ & _ & Hne1 & _).
  destruct (stage_spec batch w2 d_in (default [] (fs w !! tmp_input)))
    as (w' & d' & E & Ht & _ & Hc & Hd' & Hfs & He); try done.
  exists w', d'. split.
  - by rewrite (bind_ok _ _ _ _ _ E1), (bind_ok _ _ _ _ _ E2).
  - split; [congruence|]. split; [congruence|]. split; [done|].
    split; [by rewrite Hfs|]. split; [done|].
    intros Hnone name. rewrite He, Hnone. cbn [default entry].
    case_bool_decide as Hb; split; try done.
    intros _. destruct (Hfiles name Hb) as [c ->]. by eexists.
Qed.

End Staging.

(* ----------------------------------------------------------------- *)
(** ** The working directories are four *)

Lemma path_join_relative a b :
  Py.startswith (u "/") b = false ->
  exists x, Py.path_join a b = x ++ b /\ (x = [] \/ last x = Some 47%N).
Proof.
  intros Hb. unfold Py.path_join. rewrite Hb.
  destruct a as [|c a]; [exists []; by split; [|left]|].
  destruct (Py.endswith (u "/") (c :: a)) eqn:E.
  - exists (c :: a). split; [done|]. right.
    unfold Py.endswith in E. change (rev (u "/")) with [47%N] in E.
    rewrite <- (rev_involutive (c :: a)).
    destruct (rev (c :: a)) as [|z l]; [done|].
    cbn [Py.startswith] in E. apply andb_true_iff in E as [E _].
    apply N.eqb_eq in E as <-. cbn [rev]. by rewrite last_snoc.
  - exists ((c :: a) ++ u "/"). split; [by rewrite <- app_assoc|]. right.
    change (u "/") with [47%N]. by rewrite last_snoc.
Qed.

Lemma last_app_cons {A} (x l : list A) (a : A) : last (x ++ l ++ [a]) = Some a.
Proof. by rewrite app_assoc, last_snoc. Qed.

Lemma working_dirs_NoDup fl cfg : NoDup (working_dirs fl cfg).
Proof.
  unfold working_dirs, tei_folder, txt_folder.
  destruct (path_join_relative (output_dir cfg)
              (match fl with Module_ => u "articulos_tei" | Script => u "tei" end))
    as (x & -> & Hx); [by destruct fl|].
  destruct (path_join_relative (output_dir cfg)
              (match fl with Module_ => u "articulos_txt" | Script => u "txt" end))
    as (y & -> & Hy); [by destruct fl|].
  assert (Hi : last tmp_input = Some 115%N) by reflexivity.
  assert (Ho : last tmp_output = Some 105%N) by reflexivity.
  assert (Htei : last (x ++ match fl with
                            | Module_ => u "articulos_tei" | Script => u "tei"
                            end) = Some 105%N).
  { destruct fl.
    - change (u "articulos_tei") with (u "articulos_te" ++ [105%N]).
      apply last_app_cons.
    - change (u "tei") with (u "te" ++ [105%N]). apply last_app_cons. }
  assert (Htxt : last (y ++ match fl with
                            | Module_ => u "articulos_txt" | Script => u "txt"
                            end) = Some 116%N).
  { destruct fl.
    - change (u "articulos_txt") with (u "articulos_tx" ++ [116%N]).
      apply last_app_cons.
    - change (u "txt") with (u "tx" ++ [116%N]). apply last_app_cons. }
  assert (Hout : tmp_output <> x ++ match fl with
                                   | Module_ => u "articulos_tei" | Script => u "tei"
                                   end).
  { intros E. destruct fl.
    - change tmp_output with (u "/co" ++ u "ntent/tmp_tei") in E.
      apply app_inj_2 in E as [_ E]; [discriminate E|done].
    - change tmp_output with (u "/content/tmp_" ++ u "tei") in E.
      apply app_inj_2 in E as [<- _]; [|done].
      by destruct Hx as [Hx|Hx]. }
  repeat constructor; rewrite ?elem_of_cons, ?elem_of_nil.
  - intros [E|[E|[E|[]]]]; [discriminate E| |]; congruence.
  - intros [E|[E|[]]]; [done|]. congruence.
  - intros [E|[]]. congruence.
  - intros [].
Qed.

Lemma working_dirs_distinct fl cfg :
  tmp_input <> tmp_output /\
  tmp_input <> tei_folder fl cfg /\ tmp_input <> txt_folder fl cfg /\
  tmp_output <> tei_folder fl cfg /\ tmp_output <> txt_folder fl cfg /\
  tei_folder fl cfg <> txt_folder fl cfg.
Proof.
  pose proof (working_dirs_NoDup fl cfg) as H. unfold working_dirs in H.
  apply NoDup_cons in H as [H1 H]. apply NoDup_cons in H as [H2 H].
  apply NoDup_cons in H as [H3 _].
  repeat split; intros E.
  - apply H1. rewrite E. by left.
  - apply H1. rewrite E. right. by left.
  - apply H1. rewrite E. right. right. by left.
  - apply H2. rewrite E. by left.
  - apply H2. rewrite E. right. by left.
  - apply H3. rewrite E. by left.
Qed.

(* ----------------------------------------------------------------- *)
(** ** A batch that cannot be staged *)

Section StagingFailure.

Variable service : nat -> dir -> dir -> dir * bool.
Variable xml_parse : data -> option element.
Variables (fl : flavour) (cfg : config).

Lemma stage_one_fails fname w d_in :
  input_dir cfg <> tmp_input ->
  fs w !! input_dir cfg = Some d_in ->
  (forall c, entry d_in fname <> Some (File c)) ->
  shutil_copy_into (input_dir cfg, fname) tmp_input w =
    (w, Raise (match entry d_in fname with
               | Some Dir => IsADirectoryError
               | _ => FileNotFoundError
               end)).
Proof.
  intros Hne Hin Hc. unfold shutil_copy_into, copyfile. cbn [snd].
  rewrite bool_decide_eq_false_2 by (intros [= E]; done).
  unfold bind, read_file. cbn [fst snd]. rewrite Hin.
  destruct (entry d_in fname) as [[c|]|]; [by destruct (Hc c)|done|done].
Qed.

(** X8: when the input folder is named in normal form and lies apart from
    the scratch directories, nothing stands in the way of these, and a
    member of the batch is not a regular file of the input folder (a folder
    whose name ends in [.pdf], or a name that is gone), the batch ends in the
    exception of the copy, [IsADirectoryError] or [FileNotFoundError]; the
    service has not been called, and the cleanup has not run: both scratch
    directories are left in place, the first one with the documents that
    were copied before the failure. *)
Theorem staging_failure_keeps_scratch (lote_num : Z) (b1 b2 : list ustr)
    (f : ustr) (w : world) (d_in : dir) :
  apart (input_dir cfg) tmp_input ->
  apart (input_dir cfg) tmp_output ->
  way_clear (fs w) tmp_input = true ->
  way_clear (fs w) tmp_output = true ->
  fs w !! input_dir cfg = Some d_in ->
  (forall g, g ∈ b1 -> exists c, entry d_in g = Some (File c)) ->
  (forall g, g ∈ b1 -> entry (default [] (fs w !! tmp_input)) g <> Some Dir) ->
  (forall c, entry d_in f <> Some (File c)) ->
  exists w' d',
    process_batch service xml_parse fl cfg lote_num (b1 ++ f :: b2) w =
      (w', Raise (match entry d_in f with
                  | Some Dir => IsADirectoryError
                  | _ => FileNotFoundError
                  end)) /\
    calls w' = calls w /\ trace w' = trace w /\
    fs w' !! tmp_input = Some d' /\
    (forall g, g ∈ b1 -> entry d' g = entry d_in g) /\
    is_Some (fs w' !! tmp_output).
Proof.
  intros Ha1 Ha2 Hw1 Hw2 Hin Hfiles Hdirs Hf.
  destruct (scratch_made cfg w d_in Ha1 Ha2 Hw1 Hw2 Hin)
    as (w1 & w2 & E1 & E2 & Ht2 & _ & Hc2 & H0 & Hs2 & Hin2).
  destruct Ha1 as (_ & _ & Hne1 & _).
  destruct (stage_spec cfg b1 w2 d_in (default [] (fs w !! tmp_input)))
    as (w' & d' & E & Ht & _ & Hc & Hd' & Hfs & He); try done.
  exists w', d'. split.
  - unfold process_batch.
    rewrite (bind_ok _ _ _ _ _ E1), (bind_ok _ _ _ _ _ E2).
    apply bind_raise. unfold stage. rewrite for_each_app.
    fold (stage cfg b1). rewrite (bind_ok _ _ _ _ _ E).
    cbn [for_each]. apply bind_raise, stage_one_fails; try done.
    by rewrite Hfs.
  - split; [congruence|]. split; [congruence|]. split; [done|]. split.
    + intros g Hg. rewrite He. by rewrite bool_decide_eq_true_2.
    + rewrite Hfs by (by destruct (working_dirs_distinct fl cfg) as (? & _)).
      done.
Qed.

End StagingFailure.

(* ----------------------------------------------------------------- *)
(** ** The harvest of one file *)

Section Harvest.

Variable xml_parse : data -> option element.
Variables (fl : flavour) (cfg : config).

Lemma harvest_copy fname w d_out d_tei c :
  fs w !! tmp_output = Some d_out ->
  entry d_out fname = Some (File c) ->
  fs w !! tei_folder fl cfg = Some d_tei ->
  entry d_tei fname <> Some Dir ->
  shutil_copy_to (tmp_output, fname) (tei_folder fl cfg, fname) w =
    (set_fs (insert (tei_folder fl cfg) (put d_tei fname (File c))) w, Ok tt).
Proof.
  intros Hout Hc Htei Hd.
  destruct (working_dirs_distinct fl cfg) as (_ & _ & _ & Hne & _).
  unfold shutil_copy_to. cbn [fst snd]. rewrite Htei. cbn [mbind option_bind].
  assert (E : copyfile (tmp_output, fname) (tei_folder fl cfg, fname) w =
              (set_fs (insert (tei_folder fl cfg) (put d_tei fname (File c))) w,
               Ok tt)).
  { unfold copyfile. rewrite bool_decide_eq_false_2 by (intros [= E]; done).
    unfold bind, read_file, write_file. cbn [fst snd].
    rewrite Hout, Hc, Htei. by destruct (entry d_tei fname) as [[?|]|]. }
  by destruct (entry d_tei fname) as [[?|]|].
Qed.

(** X9: the harvest of a structured document that parses puts a copy of it in
    the folder of the structured documents and writes the artifact of the
    extractor into the text folder; read back, the two files hold the
    document and the artifact.  Nothing is printed, and no other directory
    changes, the scratch output included. *)
Theorem harvest_parsed (fname : ustr) (w : world) (d_out d_tei d_txt : dir)
    (c : data) (root : element) :
  let txt_name := Py.replace (u ".tei.xml") (u ".txt") fname in
  let artifact :=
    Py.join blank_line (title_part root ++ keywords_part root
                        ++ abstract_entry root ++ body_entry root) in
  Py.endswith (u ".tei.xml") fname = true ->
  fs w !! tmp_output = Some d_out ->
  entry d_out fname = Some (File c) ->
  xml_parse c = Some root ->
  fs w !! tei_folder fl cfg = Some d_tei ->
  entry d_tei fname <> Some Dir ->
  fs w !! txt_folder fl cfg = Some d_txt ->
  entry d_txt txt_name <> Some Dir ->
  exists w',
    harvest_file xml_parse fl cfg fname w = (w', Ok tt) /\
    trace w' = trace w /\
    read_file (tei_folder fl cfg, fname) w' = (w', Ok c) /\
    read_file (txt_folder fl cfg, txt_name) w' = (w', Ok artifact) /\
    (forall p, p <> tei_folder fl cfg -> p <> txt_folder fl cfg ->
               fs w' !! p = fs w !! p).
Proof.
  intros txt_name artifact Hend Hout Hc Hp Htei Hd1 Htxt Hd2.
  destruct (working_dirs_distinct fl cfg) as (_ & _ & _ & Hne1 & Hne2 & Hne3).
  unfold harvest_file. rewrite Hend.
  rewrite (bind_ok _ _ _ _ _ (harvest_copy fname w d_out d_tei c Hout Hc Htei Hd1)).
  set (w1 := set_fs _ w).
  assert (Hout1 : fs w1 !! tmp_output = Some d_out).
  { subst w1. cbn [set_fs fs]. by rewrite lookup_insert_ne. }
  assert (Htxt1 : fs w1 !! txt_folder fl cfg = Some d_txt).
  { subst w1. cbn [set_fs fs]. by rewrite lookup_insert_ne. }
  assert (Hr : read_file (tmp_output, fname) w1 = (w1, Ok c)).
  { unfold read_file. cbn [fst snd]. by rewrite Hout1, Hc. }
  assert (Hx : extract_clean_text xml_parse (tmp_output, fname) w1 =
               (w1, Ok artifact)).
  { rewrite (extract_clean_text_parsed xml_parse _ _ _ _ Hr Hp).
    by rewrite extract_tree_ok. }
  unfold try_except. rewrite (bind_ok _ _ _ _ _ Hx). fold txt_name.
  unfold write_file. cbn [fst snd]. rewrite Htxt1.
  eexists. split.
  - destruct (entry d_txt txt_name) as [[?|]|]; [reflexivity|done|reflexivity].
  - subst w1. cbn [set_fs fs trace]. split; [done|]. split; [|split].
    + unfold read_file. cbn [fst snd]. rewrite ?fs_set_fs.
      rewrite lookup_insert_ne, lookup_insert_eq, entry_put_eq by done. done.
    + unfold read_file. cbn [fst snd]. rewrite ?fs_set_fs.
      rewrite lookup_insert_eq, entry_put_eq. done.
    + intros p Hp1 Hp2. rewrite ?fs_set_fs. by rewrite !lookup_insert_ne.
Qed.

(** X10: the harvest of a structured document that does not parse still
    copies it to the folder of the structured documents, writes no text
    file, prints the error with the name of the file, and ends normally, so
    that the files after it are harvested; a name that does not end in
    [.tei.xml] is passed over without any effect. *)
Theorem harvest_unparsed (fname : ustr) (w : world) (d_out d_tei : dir) (c : data) :
  (Py.endswith (u ".tei.xml") fname = false ->
   harvest_file xml_parse fl cfg fname w = (w, Ok tt)) /\
  (Py.endswith (u ".tei.xml") fname = true ->
   fs w !! tmp_output = Some d_out ->
   entry d_out fname = Some (File c) ->
   xml_parse c = None ->
   fs w !! tei_folder fl cfg = Some d_tei ->
   entry d_tei fname <> Some Dir ->
   exists w',
     harvest_file xml_parse fl cfg fname w = (w', Ok tt) /\
     trace w' = trace w ++ [Print (MsgExtractError fname ParseError)] /\
     read_file (tei_folder fl cfg, fname) w' = (w', Ok c) /\
     (forall p, p <> tei_folder fl cfg -> fs w' !! p = fs w !! p)).
Proof.
  split.
  - intros Hend. unfold harvest_file. by rewrite Hend.
  - intros Hend Hout Hc Hp Htei Hd1.
    destruct (working_dirs_distinct fl cfg) as (_ & _ & _ & Hne1 & Hne2 & Hne3).
    unfold harvest_file. rewrite Hend.
    rewrite (bind_ok _ _ _ _ _ (harvest_copy fname w d_out d_tei c Hout Hc Htei Hd1)).
    set (w1 := set_fs _ w).
    assert (Hout1 : fs w1 !! tmp_output = Some d_out).
    { subst w1. cbn [set_fs fs]. by rewrite lookup_insert_ne. }
    assert (Hr : read_file (tmp_output, fname) w1 = (w1, Ok c)).
    { unfold read_file. cbn [fst snd]. by rewrite Hout1, Hc. }
    unfold try_except.
    rewrite (bind_raise _ _ _ _ _ (extract_clean_text_unparsed xml_parse _ _ _ Hr Hp)).
    eexists. split; [reflexivity|].
    subst w1. cbn [set_fs fs trace log]. split; [done|]. split.
    + unfold read_file, log. cbn [fst snd fs]. rewrite ?fs_set_fs.
      rewrite lookup_insert_eq, entry_put_eq. done.
    + intros p Hp1. unfold log. cbn [fs]. rewrite ?fs_set_fs.
      by rewrite lookup_insert_ne.
Qed.

End Harvest.

(* ----------------------------------------------------------------- *)
(** ** The name of a text artifact *)

Section Replace.

Implicit Types old new s a b : ustr.

Lemma startswith_app old b : Py.startswith old (old ++ b) = true.
Proof.
  induction old as [|c old IH]; [done|].
  cbn [app Py.startswith]. by rewrite N.eqb_refl, IH.
Qed.

Lemma startswith_inv old s :
  Py.startswith old s = true -> exists t, s = old ++ t.
Proof.
  revert s. induction old as [|c old IH]; intros s H; [by exists s|].
  destruct s as [|c' s]; [done|]. cbn [Py.startswith] in H.
  apply andb_true_iff in H as [->%N.eqb_eq H].
  destruct (IH s H) as [t ->]. by exists t.
Qed.

Lemma endswith_app suf base : Py.endswith suf (base ++ suf) = true.
Proof. unfold Py.endswith. rewrite rev_app_distr. apply startswith_app. Qed.

Lemma endswith_inv suf s :
  Py.endswith suf s = true -> exists base, s = base ++ suf.
Proof.
  unfold Py.endswith. intros [t Ht]%startswith_inv. exists (rev t).
  by rewrite <- (rev_involutive s), Ht, rev_app_distr, rev_involutive.
Qed.

Lemma replace_from_skip old new (k : nat) s :
  Py.replace_from old new k s = Py.replace_from old new O (drop k s).
Proof.
  revert k. induction s as [|c s IH]; intros [|k]; try done.
  cbn [Py.replace_from drop]. apply IH.
Qed.

Lemma replace_match old new s :
  old <> [] ->
  Py.startswith old s = true ->
  Py.replace old new s = new ++ Py.replace old new (drop (length old) s).
Proof.
  intros Hold H. unfold Py.replace.
  destruct s as [|c s]; [by destruct old|].
  cbn [Py.replace_from]. rewrite H, replace_from_skip.
  by destruct old.
Qed.

Lemma replace_no_match old new c s :
  Py.startswith old (c :: s) = false ->
  Py.replace old new (c :: s) = c :: Py.replace old new s.
Proof. intros H. unfold Py.replace. cbn [Py.replace_from]. by rewrite H. Qed.

(** The first occurrence of [old] is replaced, and the replacement goes
    on after it. *)
Lemma replace_first old new a b :
  old <> [] ->
  (forall i : nat, (i < length a)%nat ->
     Py.startswith old (drop i (a ++ old ++ b)) = false) ->
  Py.replace old new (a ++ old ++ b) = a ++ new ++ Py.replace old new b.
Proof.
  intros Hold. induction a as [|c a IH]; intros Hfree.
  - cbn [app]. rewrite replace_match by (done || apply startswith_app).
    by rewrite drop_app_length.
  - cbn [app]. rewrite replace_no_match by (apply (Hfree O); cbn; lia).
    f_equal. apply IH. intros i Hi. apply (Hfree (S i)). cbn. lia.
Qed.

End Replace.

(** X11: the harvest handles the names of the form [base.tei.xml].  When
    [.tei.xml] occurs in such a name at its end only, the text artifact is
    named [base.txt], and two such names with different bases give
    different text names.  The replacement is not confined to the end of
    the name: an occurrence further left is replaced as well. *)
Theorem text_artifact_name :
  (forall fname, Py.endswith (u ".tei.xml") fname = true ->
     exists base, fname = base ++ u ".tei.xml") /\
  (forall base,
     (forall i : nat, (i < length base)%nat ->
        Py.startswith (u ".tei.xml") (drop i (base ++ u ".tei.xml")) = false) ->
     Py.endswith (u ".tei.xml") (base ++ u ".tei.xml") = true /\
     Py.replace (u ".tei.xml") (u ".txt") (base ++ u ".tei.xml") = base ++ u ".txt") /\
  (forall base1 base2,
     (forall i : nat, (i < length base1)%nat ->
        Py.startswith (u ".tei.xml") (drop i (base1 ++ u ".tei.xml")) = false) ->
     (forall i : nat, (i < length base2)%nat ->
        Py.startswith (u ".tei.xml") (drop i (base2 ++ u ".tei.xml")) = false) ->
     Py.replace (u ".tei.xml") (u ".txt") (base1 ++ u ".tei.xml") =
     Py.replace (u ".tei.xml") (u ".txt") (base2 ++ u ".tei.xml") ->
     base1 = base2) /\
  (forall a b,
     (forall i : nat, (i < length a)%nat ->
        Py.startswith (u ".tei.xml") (drop i (a ++ u ".tei.xml" ++ b)) = false) ->
     Py.replace (u ".tei.xml") (u ".txt") (a ++ u ".tei.xml" ++ b) =
     a ++ u ".txt" ++ Py.replace (u ".tei.xml") (u ".txt") b).
Proof.
  assert (Hold : u ".tei.xml" <> []) by done.
  assert (Hsuffix : forall base,
     (forall i : nat, (i < length base)%nat ->
        Py.startswith (u ".tei.xml") (drop i (base ++ u ".tei.xml")) = false) ->
     Py.replace (u ".tei.xml") (u ".txt") (base ++ u ".tei.xml") = base ++ u ".txt").
  { intros base Hfree.
    rewrite <- (app_nil_r (u ".tei.xml")) at 2.
    rewrite replace_first; [done|done|]. by rewrite app_nil_r. }
  split; [apply endswith_inv|]. split; [|split].
  - intros base Hfree. split; [apply endswith_app|by apply Hsuffix].
  - intros base1 base2 H1 H2. rewrite !Hsuffix by done.
    apply app_inv_tail.
  - intros a b Hfree. by apply replace_first.
Qed.

(* ----------------------------------------------------------------- *)
(** ** The directories a run leaves alone *)

Section Confined.

Variable D : list ustr.

Lemma confined_ret {A} (a : A) : confined D (ret a).
Proof. by intros w w' r [= <- _] p _. Qed.

Lemma confined_lift {A} (x : result A) : confined D (lift x).
Proof. by intros w w' r [= <- _] p _. Qed.

Lemma confined_emit ev : confined D (emit ev).
Proof. by intros w w' r [= <- _] p _. Qed.

Lemma confined_bind {A B} (m : M A) (k : A -> M B) :
  confined D m -> (forall a, confined D (k a)) -> confined D (bind m k).
Proof.
  intros Hm Hk w w' r [(e & H & _)|(w1 & a & H1 & H2)]%bind_inv p Hp.
  - by eapply Hm.
  - rewrite (Hk _ _ _ _ H2 p Hp). by eapply Hm.
Qed.

Lemma confined_try {A} (m : M A) (h : exn -> M A) :
  confined D m -> (forall e, confined D (h e)) -> confined D (try_except m h).
Proof.
  intros Hm Hh w w' r. unfold try_except.
  destruct (m w) as [w1 [a|e]] eqn:E.
  - intros [= <- <-]. by eapply Hm.
  - intros H2 p Hp. rewrite (Hh _ _ _ _ H2 p Hp). by eapply Hm.
Qed.

Lemma confined_for_each {A} (l : list A) (body : A -> M unit) :
  (forall a, confined D (body a)) -> confined D (for_each l body).
Proof.
  intros Hb. induction l as [|a l IH]; simpl.
  - apply confined_ret.
  - apply confined_bind; [apply Hb|]. by intros _.
Qed.

Lemma confined_for_break {A} (l : list A) (body : A -> M bool) :
  (forall a, confined D (body a)) -> confined D (for_break l body).
Proof.
  intros Hb. induction l as [|a l IH]; simpl.
  - apply confined_ret.
  - apply confined_bind; [apply Hb|]. intros [|]; [apply confined_ret|done].
Qed.

Lemma unrelated_in p q : q ∈ D -> Forall (unrelated p) D -> unrelated p q.
Proof. intros Hq H. by apply (proj1 (Forall_forall _ _) H). Qed.

Lemma os_makedirs_confined p :
  p ∈ D -> spelled p = p -> confined D (os_makedirs p).
Proof.
  intros Hp Hsp w w' r H q Hq.
  destruct (unrelated_in q p Hp Hq) as (Hne & Hb & _).
  apply os_makedirs_inv in H as (_ & _ & _ & Hf & _).
  apply Hf; [|by rewrite Hsp].
  unfold below in Hb. by apply bool_decide_eq_false in Hb.
Qed.

Lemma os_listdir_confined p : confined D (os_listdir p).
Proof. intros w w' r. unfold os_listdir. by destruct (fs w !! p); intros [= <- _]. Qed.

Lemma read_file_confined loc : confined D (read_file loc).
Proof.
  intros w w' r H p _. pose proof (read_file_world loc w) as E.
  rewrite H in E. cbn in E. by subst.
Qed.

Lemma write_file_confined loc c : loc.1 ∈ D -> confined D (write_file loc c).
Proof.
  intros Hp w w' r. unfold write_file.
  destruct (fs w !! loc.1) as [d|]; [|by intros [= <- _]].
  destruct (entry d loc.2) as [[c0|]|]; intros [= <- _] q Hq; try done.
  all: destruct (unrelated_in q loc.1 Hp Hq) as (Hne & _);
    by rewrite fs_set_fs, lookup_insert_ne.
Qed.

Lemma copyfile_confined src dst : dst.1 ∈ D -> confined D (copyfile src dst).
Proof.
  intros Hp. unfold copyfile. case_bool_decide.
  - intros w w' r. destruct (fs w !! src.1) as [d|]; [|by intros [= <- _]].
    by destruct (entry d src.2); intros [= <- _].
  - apply confined_bind; [apply read_file_confined|].
    intros c. by apply write_file_confined.
Qed.

Lemma shutil_copy_to_confined src dst :
  dst.1 ∈ D -> confined D (shutil_copy_to src dst).
Proof.
  intros Hp w w' r. unfold shutil_copy_to.
  destruct (fs w !! dst.1 ≫= _) as [[c|]|].
  - by apply copyfile_confined.
  - apply confined_bind; [apply read_file_confined|]. intros c. apply confined_ret.
  - by apply copyfile_confined.
Qed.

Lemma shutil_rmtree_confined p : p ∈ D -> confined D (shutil_rmtree p).
Proof.
  intros Hp w w' r H q Hq.
  destruct (unrelated_in q p Hp Hq) as (Hne & Hb1 & Hb2).
  destruct (shutil_rmtree_inv p w) as (w1 & E & _ & _ & _ & _ & _ & Hf & _).
  rewrite E in H. injection H as <- _. apply Hf; [done|done|].
  unfold below in Hb1. by apply bool_decide_eq_false in Hb1.
Qed.

End Confined.

Section RunConfined.

Variables (alive reachable : nat -> bool).
Variable service : nat -> dir -> dir -> dir * bool.
Variable xml_parse : data -> option element.
Variables (fl : flavour) (cfg : config).

Local Abbreviation D := (working_dirs fl cfg).

Lemma in_working_dirs :
  tmp_input ∈ D /\ tmp_output ∈ D /\ tei_folder fl cfg ∈ D /\ txt_folder fl cfg ∈ D.
Proof. unfold working_dirs. rewrite !elem_of_cons. tauto. Qed.

Lemma process_batch_confined lote_num batch :
  confined D (process_batch service xml_parse fl cfg lote_num batch).
Proof.
  destruct in_working_dirs as (Hi & Ho & Hte & Htx).
  unfold process_batch.
  apply confined_bind; [by apply os_makedirs_confined|]. intros _.
  apply confined_bind; [by apply os_makedirs_confined|]. intros _.
  apply confined_bind.
  { apply confined_for_each. intros fname. by apply copyfile_confined. }
  intros _. apply confined_bind.
  { apply confined_for_break. intros attempt. apply confined_try.
    - apply confined_bind; [|intros _; apply confined_ret].
      intros w w' r [= <- _] p Hp. cbn [fs].
      destruct (unrelated_in D p tmp_output Ho Hp) as (Hne & _).
      by rewrite lookup_insert_ne.
    - intros e. apply confined_bind; [apply confined_emit|]. intros _.
      apply confined_bind; [|intros _; apply confined_ret].
      intros w w' r. rewrite after_failure_events. by intros [= <- _]. }
  intros _. apply confined_bind.
  { apply confined_bind; [apply os_listdir_confined|]. intros names.
    apply confined_for_each. intros fname. unfold harvest_file.
    destruct (Py.endswith _ fname); [|apply confined_ret].
    apply confined_bind; [by apply shutil_copy_to_confined|]. intros _.
    apply confined_try.
    - apply confined_bind; [|intros txt; by apply write_file_confined].
      intros w w' r H p _.
      pose proof (extract_clean_text_world xml_parse (tmp_output, fname) w) as E.
      rewrite H in E. cbn in E. by subst.
    - intros e. apply confined_emit. }
  intros _. apply confined_bind.
  { unfold cleanup.
    apply confined_bind; [by apply shutil_rmtree_confined|]. intros _.
    apply confined_bind; [by apply shutil_rmtree_confined|]. intros _.
    apply confined_bind; [apply confined_emit|]. intros _. apply confined_emit. }
  intros _. intros w w' r H p _. by rewrite (restart_hint_fs _ _ _ _ _ _ H).
Qed.

Lemma liveness_gate_confined : confined D (liveness_gate alive fl).
Proof.
  assert (Hp : confined D (is_grobid_alive alive)) by by intros w w' r [= <- _].
  unfold liveness_gate. destruct fl.
  - apply confined_bind; [done|]. intros [|]; [apply confined_ret|].
    apply confined_bind; [apply confined_emit|]. intros _. apply confined_ret.
  - apply confined_bind; [done|]. intros [|]; [apply confined_ret|].
    apply confined_bind.
    { apply confined_bind; [apply confined_emit|]. intros _. apply confined_emit. }
    intros _. apply confined_bind; [done|]. intros [|]; [apply confined_ret|].
    apply confined_bind; [apply confined_emit|]. intros _. apply confined_ret.
Qed.

Lemma make_output_folders_confined :
  proper_path (output_dir cfg) = true -> confined D (make_output_folders fl cfg).
Proof.
  intros Hout. destruct in_working_dirs as (Hi & Ho & Hte & Htx).
  destruct (output_folders_proper fl cfg Hout) as (Hp1 & Hp2 & Ha1 & Ha2).
  apply proper_spelled in Hp1 as [Hs1 _]. apply proper_spelled in Hp2 as [Hs2 _].
  unfold make_output_folders.
  apply confined_bind; [|intros _].
  { destruct fl; [apply confined_ret|].
    intros w w' r H q Hq.
    destruct (unrelated_in _ q _ Hte Hq) as (_ & Hb & _).
    unfold below in Hb. apply bool_decide_eq_false in Hb.
    rewrite Ha1, elem_of_app, list_elem_of_singleton in Hb.
    apply os_makedirs_inv in H as (_ & _ & _ & Hf & _).
    apply proper_spelled in Hout as [Hs _].
    apply Hf; [tauto|rewrite Hs; tauto]. }
  apply confined_bind; [by apply os_makedirs_confined|]. intros _.
  by apply os_makedirs_confined.
Qed.

Lemma run_confined_dirs :
  proper_path (output_dir cfg) = true ->
  confined D (run alive reachable service xml_parse fl cfg).
Proof.
  intros Hout. unfold run.
  apply confined_bind; [by apply make_output_folders_confined|]. intros _.
  apply confined_bind.
  { intros w w' r. unfold GrobidClient. by intros [= <- _]. }
  intros _. apply confined_bind.
  { apply confined_bind; [apply os_listdir_confined|]. intros names.
    apply confined_ret. }
  intros pdfs. apply confined_bind; [apply confined_emit|]. intros _.
  apply confined_bind; [apply confined_lift|]. intros starts.
  apply confined_bind; [|intros _; apply confined_emit].
  apply confined_for_break. intros it. unfold batch_body.
  apply confined_bind; [apply confined_emit|]. intros _.
  apply confined_bind; [apply liveness_gate_confined|]. intros [|].
  - apply confined_ret.
  - apply confined_bind; [apply process_batch_confined|]. intros _.
    apply confined_ret.
Qed.

(** X12: however a run ends, normally, halted or on an exception, a
    directory named in normal form that is none of the two scratch
    directories and the two output folders, and lies neither above nor
    below one of them, is as it was before: in particular the run changes
    and removes nothing in an input folder that lies apart from them.  (The
    service is taken to write into the scratch output directory only.) *)
Theorem run_leaves_other_directories (w w' : world) (r : result unit) (p : ustr) :
  run alive reachable service xml_parse fl cfg w = (w', r) ->
  proper_path (output_dir cfg) = true ->
  Forall (apart p) (working_dirs fl cfg) ->
  fs w' !! p = fs w !! p.
Proof.
  intros H Hout Hp. apply (run_confined_dirs Hout _ _ _ H).
  eapply Forall_impl; [exact Hp|]. by intros q (_ & _ & Hq).
Qed.

End RunConfined.

(* ----------------------------------------------------------------- *)
(** ** The four markers *)

Section Markers.

Implicit Types s v : ustr.

Lemma rstrip_prefix s : Py.rstrip s `prefix_of` s.
Proof.
  unfold Py.rstrip. destruct (lstrip_suffix (rev s)) as [k Hk].
  exists (rev k). apply (f_equal (@rev N)) in Hk.
  by rewrite rev_involutive, rev_app_distr in Hk.
Qed.

(** [strip] takes away from both ends and nothing from the middle. *)
Lemma strip_infix s : exists a b, s = a ++ Py.strip s ++ b.
Proof.
  unfold Py.strip. destruct (lstrip_suffix s) as [a Ha].
  destruct (rstrip_prefix (Py.lstrip s)) as [b Hb].
  exists a, b. by rewrite <- Hb.
Qed.

Lemma marker_free_infix s a v b :
  s = a ++ v ++ b ->
  (forall i : nat, (i < length s)%nat -> Re.marker_at (drop i s) = false) ->
  forall i : nat, (i < length v)%nat -> Re.marker_at (drop i v) = false.
Proof.
  intros -> Hfree i Hi.
  destruct (Re.marker_at (drop i v)) eqn:E; [|done].
  apply (marker_at_app _ b) in E.
  rewrite <- drop_app_le in E by lia.
  rewrite <- (Hfree (length a + i)%nat).
  - by rewrite drop_app_add.
  - rewrite !length_app. lia.
Qed.

Lemma split_head_all s :
  (forall i : nat, (i < length s)%nat -> Re.marker_at (drop i s) = false) ->
  Re.split_head s = s.
Proof.
  induction s as [|c s IH]; intros Hfree; [done|].
  cbn [Re.split_head].
  assert (H0 : Re.marker_at (c :: s) = false) by (apply (Hfree O); cbn; lia).
  rewrite H0. f_equal. apply IH. intros i Hi. apply (Hfree (S i)). cbn. lia.
Qed.

Lemma marker_occurs m y :
  m ∈ Re.markers -> occurs_at m y = true -> Re.marker_at y = true.
Proof.
  intros Hm Hy. unfold Re.marker_at. apply existsb_exists.
  exists m. split; [by apply list_elem_of_In|by apply occurs_at_match].
Qed.

(** X13: the body text of an artifact holds no occurrence, in any case,
    of [references], [bibliography], [acknowledg] or [agradecimientos];
    where one of them is written in the joined blocks, also inside a longer
    word, the body text is cut from what precedes it; and when none occurs
    the body text is the joined blocks, stripped, with nothing lost. *)
Theorem body_text_marker_free (body : element) :
  (forall i : nat, (i < length (clean_body body))%nat ->
     Re.marker_at (drop i (clean_body body)) = false) /\
  (forall m x y,
     m ∈ Re.markers -> occurs_at m y = true ->
     Py.join blank_line (body_parts body) = x ++ y ->
     exists w, w `prefix_of` x /\ clean_body body = Py.strip w) /\
  ((forall i : nat, (i < length (Py.join blank_line (body_parts body)))%nat ->
      Re.marker_at (drop i (Py.join blank_line (body_parts body))) = false) ->
   clean_body body = Py.strip (Py.join blank_line (body_parts body))).
Proof.
  unfold clean_body. split; [|split].
  - destruct (strip_infix (Re.split_head (Py.join blank_line (body_parts body))))
      as (a & b & E).
    apply (marker_free_infix _ _ _ _ E). apply split_head_free.
  - intros m x y Hm Hy ->. eexists. split; [|reflexivity].
    apply split_head_before. by eapply marker_occurs.
  - intros Hfree. by rewrite split_head_all.
Qed.

End Markers.

(* ----------------------------------------------------------------- *)
(** ** The harvest of a batch *)

Section HarvestLoop.

Variable xml_parse : data -> option element.
Variables (fl : flavour) (cfg : config).

Lemma harvest_file_copy fname w d_out d_tei c :
  Py.endswith (u ".tei.xml") fname = true ->
  fs w !! tmp_output = Some d_out ->
  entry d_out fname = Some (File c) ->
  fs w !! tei_folder fl cfg = Some d_tei ->
  entry d_tei fname <> Some Dir ->
  exists w',
    harvest_file xml_parse fl cfg fname w = (w', Ok tt) /\
    probes w' = probes w /\ calls w' = calls w /\
    fs w' !! tmp_output = Some d_out /\
    fs w' !! tei_folder fl cfg = Some (put d_tei fname (File c)).
Proof.
  intros Hend Hout Hc Htei Hd.
  destruct (working_dirs_distinct fl cfg) as (_ & _ & _ & Hne1 & Hne2 & Hne3).
  unfold harvest_file. rewrite Hend.
  rewrite (bind_ok _ _ _ _ _ (harvest_copy fl cfg fname w d_out d_tei c Hout Hc Htei Hd)).
  destruct (extraction_block xml_parse fl cfg fname
              (Py.replace (u ".tei.xml") (u ".txt") fname)
              (set_fs (insert (tei_folder fl cfg) (put d_tei fname (File c))) w))
    as (w' & E & Hp & Hcl & Hfs).
  exists w'. split; [exact E|]. split; [done|]. split; [done|].
  rewrite !Hfs by done. rewrite fs_set_fs.
  by rewrite lookup_insert_ne, lookup_insert_eq.
Qed.

Lemma harvest_loop d_out (names : list ustr) : forall w d_tei,
  fs w !! tmp_output = Some d_out ->
  fs w !! tei_folder fl cfg = Some d_tei ->
  (forall n, n ∈ names -> Py.endswith (u ".tei.xml") n = true ->
     (exists c, entry d_out n = Some (File c)) /\ entry d_tei n <> Some Dir) ->
  exists w' d_tei',
    for_each names (harvest_file xml_parse fl cfg) w = (w', Ok tt) /\
    probes w' = probes w /\ calls w' = calls w /\
    fs w' !! tmp_output = Some d_out /\
    fs w' !! tei_folder fl cfg = Some d_tei' /\
    (forall n, entry d_tei' n =
               if bool_decide (n ∈ names) && Py.endswith (u ".tei.xml") n
               then entry d_out n else entry d_tei n).
Proof.
  induction names as [|f names IH]; intros w d_tei Hout Htei Hfiles.
  - exists w, d_tei. repeat split; try done.
  - cbn [for_each].
    destruct (Py.endswith (u ".tei.xml") f) eqn:Hend.
    + destruct (Hfiles f ltac:(by left) Hend) as [[c Hc] Hd].
      destruct (harvest_file_copy f w d_out d_tei c Hend Hout Hc Htei Hd)
        as (w1 & E1 & Hp1 & Hc1 & Hout1 & Htei1).
      rewrite (bind_ok _ _ _ _ _ E1).
      destruct (IH w1 (put d_tei f (File c)) Hout1 Htei1)
        as (w' & d' & E & Hp & Hcl & Hout' & Htei' & He).
      { intros n Hn Hn'. destruct (Hfiles n ltac:(by right) Hn') as [Hx Hy].
        split; [done|]. destruct (decide (n = f)) as [->|Hnf].
        - by rewrite entry_put_eq.
        - by rewrite entry_put_ne. }
      exists w', d'. split; [exact E|].
      split; [congruence|]. split; [congruence|]. split; [done|]. split; [done|].
      intros n. rewrite He. destruct (decide (n = f)) as [->|Hnf].
      * rewrite (bool_decide_eq_true_2 (f ∈ f :: names)) by by left.
        rewrite Hend. cbn [andb].
        case_bool_decide; cbn [andb]; [done|]. by rewrite entry_put_eq.
      * rewrite entry_put_ne by done.
        destruct (decide (n ∈ names)) as [Hin|Hin].
        -- rewrite !bool_decide_eq_true_2; [done| |done]. by right.
        -- rewrite !bool_decide_eq_false_2; [done| |done].
           by intros [?|?]%elem_of_cons.
    + assert (E1 : harvest_file xml_parse fl cfg f w = (w, Ok tt)).
      { unfold harvest_file. by rewrite Hend. }
      rewrite (bind_ok _ _ _ _ _ E1).
      destruct (IH w d_tei Hout Htei)
        as (w' & d' & E & Hp & Hcl & Hout' & Htei' & He).
      { intros n Hn Hn'. apply Hfiles; [by right|done]. }
      exists w', d'. split; [exact E|]. repeat split; try done.
      intros n. rewrite He. destruct (decide (n = f)) as [->|Hnf].
      * rewrite Hend, !andb_false_r. done.
      * destruct (decide (n ∈ names)) as [Hin|Hin].
        -- rewrite !bool_decide_eq_true_2; [done| |done]. by right.
        -- rewrite !bool_decide_eq_false_2; [done| |done].
           by intros [?|?]%elem_of_cons.
Qed.

(** X14: when the files of the scratch output directory whose names end in
    [.tei.xml] are regular files, and the folder of the structured documents
    is there and holds no folder under one of these names, the harvest ends
    normally whatever the extractor makes of each file, and afterwards that
    folder holds every one of these files with its content, and otherwise
    what it held before.  The scratch output directory is as before. *)
Theorem harvest_copies_all (w : world) (d_out d_tei : dir) :
  fs w !! tmp_output = Some d_out ->
  fs w !! tei_folder fl cfg = Some d_tei ->
  (forall n, n ∈ map fst d_out -> Py.endswith (u ".tei.xml") n = true ->
     (exists c, entry d_out n = Some (File c)) /\ entry d_tei n <> Some Dir) ->
  exists w' d_tei',
    harvest xml_parse fl cfg w = (w', Ok tt) /\
    probes w' = probes w /\ calls w' = calls w /\
    fs w' !! tmp_output = Some d_out /\
    fs w' !! tei_folder fl cfg = Some d_tei' /\
    (forall n, entry d_tei' n =
               if bool_decide (n ∈ map fst d_out) && Py.endswith (u ".tei.xml") n
               then entry d_out n else entry d_tei n).
Proof.
  intros Hout Htei Hfiles.
  destruct (harvest_loop d_out (map fst d_out) w d_tei Hout Htei Hfiles)
    as (w' & d' & E & H).
  exists w', d'. split; [|exact H].
  unfold harvest, bind, os_listdir. by rewrite Hout.
Qed.

End HarvestLoop.

(* ----------------------------------------------------------------- *)
(** ** The documents of a run *)

Lemma lower_endswith_pdf_iff (f : ustr) :
  Py.lower_endswith_pdf f = true <->
  exists base c1 c2 c3,
    f = base ++ [46; c1; c2; c3]%N /\
    (c1 = 112 \/ c1 = 80)%N /\ (c2 = 100 \/ c2 = 68)%N /\ (c3 = 102 \/ c3 = 70)%N.
Proof.
  unfold Py.lower_endswith_pdf, Py.ascii_ci. split.
  - destruct (rev f) as [|c4 [|c3 [|c2 [|c1 l]]]] eqn:E; try done.
    intros H. repeat (apply andb_true_iff in H as [H ?]).
    exists (rev l), c2, c3, c4. apply N.eqb_eq in H as ->.
    split.
    + rewrite <- (rev_involutive f), E. cbn [rev]. by rewrite <- !app_assoc.
    + repeat match goal with
             | H : (_ || _) = true |- _ =>
                 apply orb_true_iff in H as [->%N.eqb_eq| ->%N.eqb_eq]
             end; repeat split; (by left) || (by right).
  - intros (base & c1 & c2 & c3 & -> & H1 & H2 & H3).
    rewrite rev_app_distr. cbn [rev app].
    destruct H1 as [-> | ->], H2 as [-> | ->], H3 as [-> | ->]; reflexivity.
Qed.

Lemma filter_sublist {A} (p : A -> bool) (l : list A) :
  List.filter p l `sublist_of` l.
Proof.
  induction l as [|a l IH]; [done|]. cbn [List.filter].
  destruct (p a); [by apply sublist_skip|by apply sublist_cons].
Qed.

(** X15: the documents of a run are the names of the input folder that end
    in [.pdf], in any mix of upper and lower case, in the order of the
    listing; an entry is taken by its name alone, be it a file or a folder;
    names listed once are discovered once; and the listing changes
    nothing. *)
Theorem discovered_documents (cfg : config) (w : world) (d : dir) :
  fs w !! input_dir cfg = Some d ->
  exists pdfs,
    discover cfg w = (w, Ok pdfs) /\
    pdfs `sublist_of` map fst d /\
    (forall f, f ∈ pdfs <->
       f ∈ map fst d /\
       exists base c1 c2 c3,
         f = base ++ [46; c1; c2; c3]%N /\
         (c1 = 112 \/ c1 = 80)%N /\ (c2 = 100 \/ c2 = 68)%N /\
         (c3 = 102 \/ c3 = 70)%N) /\
    (NoDup (map fst d) -> NoDup pdfs).
Proof.
  intros Hd. eexists. split; [by apply discover_listed|].
  split; [apply filter_sublist|]. split.
  - intros f. rewrite !list_elem_of_In, filter_In, lower_endswith_pdf_iff. done.
  - intros Hnd. eapply sublist_NoDup; [exact Hnd|apply filter_sublist].
Qed.

(* ----------------------------------------------------------------- *)
(** ** What [strip] leaves *)

Section Strip.

Implicit Types s t v : ustr.

(** [s] does not start with white space. *)
Local Abbreviation clean_head s :=
  (match s with c :: _ => Py.isspace c = false | [] => True end).

Lemma lstrip_clean_head s : clean_head (Py.lstrip s).
Proof.
  induction s as [|c s IH]; [done|]. cbn [Py.lstrip].
  by destruct (Py.isspace c) eqn:E.
Qed.

Lemma lstrip_id s : clean_head s -> Py.lstrip s = s.
Proof. destruct s as [|c s]; [done|]. cbn [Py.lstrip]. by intros ->. Qed.

Lemma prefix_clean_head s t : s `prefix_of` t -> clean_head t -> clean_head s.
Proof. intros [k ->]. by destruct s. Qed.

Lemma strip_clean_head s : clean_head (Py.strip s).
Proof.
  eapply prefix_clean_head; [apply rstrip_prefix|apply lstrip_clean_head].
Qed.

Lemma strip_clean_last s : clean_head (rev (Py.strip s)).
Proof.
  unfold Py.strip, Py.rstrip. rewrite rev_involutive. apply lstrip_clean_head.
Qed.

Lemma strip_id s : clean_head s -> clean_head (rev s) -> Py.strip s = s.
Proof.
  intros H1 H2. unfold Py.strip, Py.rstrip.
  by rewrite (lstrip_id s H1), (lstrip_id (rev s) H2), rev_involutive.
Qed.

Lemma strip_strip s : Py.strip (Py.strip s) = Py.strip s.
Proof. apply strip_id; [apply strip_clean_head|apply strip_clean_last]. Qed.

Lemma lstrip_app_keep a t :
  t <> [] -> clean_head t -> exists a', Py.lstrip (a ++ t) = a' ++ t.
Proof.
  intros Hne Ht. induction a as [|c a [a' IH]].
  - exists []. by apply lstrip_id.
  - cbn [app Py.lstrip]. destruct (Py.isspace c).
    + by exists a'.
    + by exists (c :: a).
Qed.

(** A piece that neither starts nor ends with white space stays whole when
    the text around it is stripped. *)
Lemma strip_keeps_infix a v b :
  v <> [] -> clean_head v -> clean_head (rev v) ->
  exists a' b', Py.strip (a ++ v ++ b) = a' ++ v ++ b'.
Proof.
  intros Hne H1 H2. unfold Py.strip, Py.rstrip.
  destruct (lstrip_app_keep a (v ++ b)) as [a' Ha].
  { by destruct v. }
  { by destruct v. }
  rewrite Ha.
  destruct (lstrip_app_keep (rev b) (rev v ++ rev a')) as [b' Hb].
  { intros E. apply app_eq_nil in E as [E _].
    apply (f_equal (@rev N)) in E. rewrite rev_involutive in E. done. }
  { destruct (rev v) eqn:E; [|done].
    apply (f_equal (@rev N)) in E. rewrite rev_involutive in E. done. }
  exists a', (rev b').
  rewrite !rev_app_distr, <- app_assoc, Hb, !rev_app_distr, !rev_involutive.
  by rewrite <- app_assoc.
Qed.

End Strip.

(** X16: stripping twice is stripping once.  Every block of the body is
    non-empty and has no white space at its ends, stripping it again changes
    nothing, and the same holds of the body text of the artifact, which has
    no white space at its ends either. *)
Theorem blocks_are_stripped (body : element) :
  (forall s, Py.strip (Py.strip s) = Py.strip s) /\
  (forall b, b ∈ body_parts body -> b <> [] /\ Py.strip b = b) /\
  Py.strip (clean_body body) = clean_body body /\
  (forall c rest, clean_body body = c :: rest -> Py.isspace c = false) /\
  (forall c rest, clean_body body = rest ++ [c] -> Py.isspace c = false).
Proof.
  split; [apply strip_strip|]. split; [|split; [apply strip_strip|split]].
  - intros b. unfold body_parts.
    rewrite list_elem_of_In, filter_In, in_map_iff.
    intros [(e & <- & _) Hne]. split.
    + intros E. by rewrite E in Hne.
    + apply strip_strip.
  - intros c rest E. pose proof (strip_clean_head
      (Re.split_head (Py.join blank_line (body_parts body)))) as H.
    unfold clean_body in E. by rewrite E in H.
  - intros c rest E. pose proof (strip_clean_last
      (Re.split_head (Py.join blank_line (body_parts body)))) as H.
    unfold clean_body in E. rewrite E, rev_app_distr in H. done.
Qed.

(* ----------------------------------------------------------------- *)
(** ** Retained elements inside retained elements *)

Lemma element_induction (P : element -> Prop) :
  (forall t x tl cs, Forall P cs -> P (Element t x tl cs)) ->
  forall e, P e.
Proof.
  intros H. fix IH 1. intros [t x tl cs]. apply H.
  revert cs. fix IHcs 1. intros [|c cs]; constructor; [apply IH|apply IHcs].
Qed.

Lemma iter_self e : e ∈ ET.iter e.
Proof. destruct e. cbn [ET.iter]. by left. Qed.

Lemma iter_child e c : c ∈ children e -> c ∈ ET.iter e.
Proof.
  destruct e as [t x tl cs]. cbn [children ET.iter]. intros Hc. right.
  rewrite list_elem_of_In, in_flat_map. exists c.
  split; [by apply list_elem_of_In|]. apply list_elem_of_In, iter_self.
Qed.

Lemma iter_trans r : forall e x, e ∈ ET.iter r -> x ∈ ET.iter e -> x ∈ ET.iter r.
Proof.
  induction r as [t x0 tl cs IH] using element_induction. intros e x He Hx.
  cbn [ET.iter] in He. apply elem_of_cons in He as [->|He]; [done|].
  cbn [ET.iter]. right.
  rewrite list_elem_of_In, in_flat_map in He. destruct He as (c & Hc & He).
  rewrite list_elem_of_In, in_flat_map. exists c. split; [done|].
  apply list_elem_of_In.
  apply (proj1 (Forall_forall _ _) IH c) with (e := e).
  - by apply list_elem_of_In.
  - by apply list_elem_of_In.
  - done.
Qed.

Lemma join_app sep (l1 l2 : list ustr) :
  l1 <> [] -> l2 <> [] ->
  Py.join sep (l1 ++ l2) = Py.join sep l1 ++ sep ++ Py.join sep l2.
Proof.
  intros H1 H2. induction l1 as [|p l1 IH]; [done|].
  destruct l1 as [|q l1].
  - destruct l2; [done|]. done.
  - change ((p :: q :: l1) ++ l2) with (p :: (q :: l1) ++ l2).
    change (Py.join sep (p :: (q :: l1) ++ l2))
      with (p ++ sep ++ Py.join sep ((q :: l1) ++ l2)).
    rewrite IH by done. cbn [Py.join]. by rewrite <- !app_assoc.
Qed.

Lemma join_infix sep (l m r : list ustr) :
  m <> [] -> exists a b, Py.join sep (l ++ m ++ r) = a ++ Py.join sep m ++ b.
Proof.
  intros Hm. destruct l as [|p l], r as [|q r].
  - exists [], []. by rewrite !app_nil_r.
  - exists [], (sep ++ Py.join sep (q :: r)). cbn [app]. by rewrite join_app.
  - exists (Py.join sep (p :: l) ++ sep), []. rewrite !app_nil_r.
    rewrite join_app by done. by rewrite <- app_assoc.
  - exists (Py.join sep (p :: l) ++ sep), (sep ++ Py.join sep (q :: r)).
    rewrite (join_app sep (p :: l)); [|done|by destruct m].
    rewrite (join_app sep m) by done. by rewrite <- !app_assoc.
Qed.

Lemma itertext_child e c :
  c ∈ children e -> exists l r, ET.itertext e = l ++ ET.itertext c ++ r.
Proof.
  destruct e as [t x tl cs]. cbn [children]. intros Hc.
  apply list_elem_of_split in Hc as (l1 & l2 & ->).
  cbn [ET.itertext]. rewrite flat_map_app. cbn [flat_map].
  exists (ET.opt_text x ++
          flat_map (fun c0 => ET.itertext c0 ++ ET.opt_text (tail c0)) l1),
         (ET.opt_text (tail c) ++
          flat_map (fun c0 => ET.itertext c0 ++ ET.opt_text (tail c0)) l2).
  by rewrite <- !app_assoc.
Qed.

(** X17: when an element kept for the body lies directly inside another
    element kept for the body (a paragraph in a figure, a label in a list),
    both give a block, and the block of the outer one contains the block of
    the inner one: the text of the inner element is in the joined blocks
    twice. *)
Theorem nested_blocks_repeat (body e c : element) :
  e ∈ ET.iter body ->
  c ∈ children e ->
  retained e = true ->
  retained c = true ->
  block_text c <> [] ->
  block_text e ∈ body_parts body /\
  block_text c ∈ body_parts body /\
  exists a b, block_text e = a ++ block_text c ++ b.
Proof.
  intros He Hc Hre Hrc Hne.
  assert (Hinfix : exists a b, block_text e = a ++ block_text c ++ b).
  { unfold block_text in *.
    destruct (itertext_child e c Hc) as (l & r & ->).
    destruct (join_infix (u " ") l (ET.itertext c) r) as (a & b & ->).
    { intros E. by rewrite E in Hne. }
    destruct (strip_infix (Py.join (u " ") (ET.itertext c))) as (a1 & b1 & E).
    destruct (strip_keeps_infix (a ++ a1)
                (Py.strip (Py.join (u " ") (ET.itertext c))) (b1 ++ b))
      as (a' & b' & Hk);
      [done|apply strip_clean_head|apply strip_clean_last|].
    exists a', b'. rewrite <- Hk. f_equal.
    set (v := Py.strip _) in *. rewrite E. by rewrite <- !app_assoc. }
  assert (Hin : forall x, x ∈ ET.iter body -> retained x = true ->
                          block_text x <> [] -> block_text x ∈ body_parts body).
  { intros x Hx Hr Hn. unfold body_parts.
    rewrite list_elem_of_In, filter_In, in_map_iff. split.
    - exists x. split; [done|]. apply filter_In. split; [|done].
      by apply list_elem_of_In.
    - by rewrite bool_decide_eq_false_2. }
  split; [|split; [|done]].
  - apply Hin; [done|done|]. destruct Hinfix as (a & b & ->).
    intros E. apply app_eq_nil in E as [_ E]. by apply app_eq_nil in E as [E _].
  - apply Hin; [|done|done]. eapply iter_trans; [exact He|by apply iter_child].
Qed.

(* ----------------------------------------------------------------- *)
(** ** The further properties at work *)

Ltac apart_by_computation :=
  split; [vm_compute; reflexivity|];
  split; [vm_compute; reflexivity|];
  split; [done|]; split; vm_compute; reflexivity.

Lemma apart_in_scratch :
  apart (u "/in") tmp_input /\ apart (u "/in") tmp_output.
Proof. split; apart_by_computation. Qed.





Lemma restart_hint_cases_witness :
  (exists w' evs,
     restart_hint Module_ sample_config 10 sample_world = (w', Ok tt) /\
     fs w' = fs sample_world /\ trace w' = trace sample_world ++ evs /\
     evs = [Print MsgSuggest]) /\
  (process_batch refusing_service sample_parse Module_ zero_hint_config 1
     [u "a.pdf"] sample_world).2 <> Ok tt.
Proof.
  split.
  - destruct (restart_hint_cases refusing_service sample_parse Module_
                sample_config 10 sample_world) as [H _].
    destruct H as (w' & evs & H1 & H2 & H3 & H4 & _); [discriminate|].
    exists w', evs. split; [exact H1|]. split; [exact H2|]. split; [exact H3|].
    apply H4. exists 2. reflexivity.
  - destruct (restart_hint_cases refusing_service sample_parse Module_
                zero_hint_config 1 sample_world) as [_ H].
    apply (H eq_refl [u "a.pdf"] sample_world
             (process_batch refusing_service sample_parse Module_ zero_hint_config 1
                [u "a.pdf"] sample_world).1).
    vm_compute. reflexivity.
Defined.

Lemma retry_loop_bounds_witness :
  exists w' evs,
    retry_loop recovering_service Module_ sample_config sample_world = (w', Ok tt) /\
    trace w' = trace sample_world ++ evs /\
    (1 <= submissions evs <= 3)%nat /\
    backoff_waits evs = Nat.pred (submissions evs).
Proof.
  destruct (retry_loop_bounds recovering_service Module_ sample_config sample_world)
    as (w' & evs & H1 & H2 & _ & _ & _ & _ & H3).
  destruct H3 as (H3 & H4 & _); [vm_compute; discriminate|].
  exists w', evs. split; [exact H1|]. split; [exact H2|]. split; [exact H3|exact H4].
Defined.

Lemma script_second_check_witness :
  batch_body never_alive refusing_service sample_parse Script sample_config
    [u "a.pdf"] (0%nat, 0) sample_world =
    (World (fs sample_world) 2 0
       [Print (MsgBatch 1 1); Probe false; Print MsgRestarting; Sleep 60;
        Probe false; Print MsgDown], Ok true) /\
  (batch_body late_alive refusing_service sample_parse Script sample_config
     [u "a.pdf"] (0%nat, 0) sample_world).2 <> Ok true.
Proof.
  split.
  - destruct (script_second_check never_alive refusing_service sample_parse
                sample_config [u "a.pdf"] (0%nat, 0) sample_world)
      as (H & _ & _); [reflexivity|]. exact H.
  - destruct (script_second_check late_alive refusing_service sample_parse
                sample_config [u "a.pdf"] (0%nat, 0) sample_world)
      as (_ & H & _); [reflexivity|]. apply H. reflexivity.
Defined.

Lemma staging_contents_witness :
  exists w' d',
    (os_makedirs tmp_input >> os_makedirs tmp_output >>
     stage sample_config [u "a.pdf"]) sample_world = (w', Ok tt) /\
    fs w' !! tmp_input = Some d' /\
    (forall name, is_Some (entry d' name) <-> name ∈ [u "a.pdf"]).
Proof.
  destruct (staging_contents sample_config [u "a.pdf"] sample_world
              [(u "a.pdf", pdf_file)])
    as (w' & d' & H1 & _ & _ & H2 & _ & _ & H3).
  - apply apart_in_scratch.
  - apply apart_in_scratch.
  - vm_compute. reflexivity.
  - vm_compute. reflexivity.
  - vm_compute. reflexivity.
  - intros f Hf. apply list_elem_of_singleton in Hf as ->.
    exists (u "%PDF"). vm_compute. reflexivity.
  - intros f Hf. vm_compute. discriminate.
  - exists w', d'. split; [exact H1|]. split; [exact H2|].
    apply H3. vm_compute. reflexivity.
Defined.

Lemma staging_failure_keeps_scratch_witness :
  exists w' d',
    process_batch refusing_service sample_parse Module_ sample_config 1
      ([u "a.pdf"] ++ [u "scans.pdf"]) world_with_folder
      = (w', Raise IsADirectoryError) /\
    calls w' = 0%nat /\
    fs w' !! tmp_input = Some d' /\
    is_Some (fs w' !! tmp_output).
Proof.
  destruct (staging_failure_keeps_scratch refusing_service sample_parse Module_
              sample_config 1 [u "a.pdf"] [] (u "scans.pdf") world_with_folder
              [(u "a.pdf", pdf_file); (u "scans.pdf", Dir)])
    as (w' & d' & H1 & H2 & _ & H3 & _ & H4).
  - apply apart_in_scratch.
  - apply apart_in_scratch.
  - vm_compute. reflexivity.
  - vm_compute. reflexivity.
  - vm_compute. reflexivity.
  - intros g Hg. apply list_elem_of_singleton in Hg as ->.
    exists (u "%PDF"). vm_compute. reflexivity.
  - intros g Hg. vm_compute. discriminate.
  - intros c. vm_compute. discriminate.
  - exists w', d'. split; [exact H1|]. split; [exact H2|]. split; [exact H3|exact H4].
Defined.

Lemma harvest_parsed_witness :
  exists w',
    harvest_file sample_parse Module_ sample_config (u "a.tei.xml") harvest_world
      = (w', Ok tt) /\
    read_file (tei_folder Module_ sample_config, u "a.tei.xml") w'
      = (w', Ok (u "<TEI/>")) /\
    read_file (txt_folder Module_ sample_config, u "a.txt") w'
      = (w', Ok (u "Intro" ++ blank_line ++ u "See")).
Proof.
  destruct (harvest_parsed sample_parse Module_ sample_config (u "a.tei.xml")
              harvest_world [(u "a.tei.xml", File (u "<TEI/>"))] [] []
              (u "<TEI/>") doc_mention)
    as (w' & H1 & _ & H2 & H3 & _).
  - reflexivity.
  - vm_compute. reflexivity.
  - vm_compute. reflexivity.
  - vm_compute. reflexivity.
  - vm_compute. reflexivity.
  - discriminate.
  - vm_compute. reflexivity.
  - discriminate.
  - exists w'. split; [exact H1|]. split; [exact H2|exact H3].
Defined.

Lemma harvest_unparsed_witness :
  harvest_file no_parse Module_ sample_config (u "log.txt") harvest_world
    = (harvest_world, Ok tt) /\
  exists w',
    harvest_file no_parse Module_ sample_config (u "a.tei.xml") harvest_world
      = (w', Ok tt) /\
    trace w' = [Print (MsgExtractError (u "a.tei.xml") ParseError)] /\
    fs w' !! txt_folder Module_ sample_config = Some [].
Proof.
  destruct (harvest_unparsed no_parse Module_ sample_config (u "log.txt")
              harvest_world [] [] []) as [H _].
  destruct (harvest_unparsed no_parse Module_ sample_config (u "a.tei.xml")
              harvest_world [(u "a.tei.xml", File (u "<TEI/>"))] []
              (u "<TEI/>")) as [_ H'].
  split; [apply H; reflexivity|].
  destruct H' as (w' & H1 & H2 & _ & H3).
  - reflexivity.
  - vm_compute. reflexivity.
  - vm_compute. reflexivity.
  - reflexivity.
  - vm_compute. reflexivity.
  - discriminate.
  - exists w'. split; [exact H1|]. split; [exact H2|].
    rewrite H3; [vm_compute; reflexivity|]. vm_compute. discriminate.
Defined.

Lemma text_artifact_name_witness :
  Py.endswith (u ".tei.xml") (u "a" ++ u ".tei.xml") = true /\
  Py.replace (u ".tei.xml") (u ".txt") (u "a" ++ u ".tei.xml") = u "a" ++ u ".txt".
Proof.
  destruct text_artifact_name as (_ & H & _).
  apply H. intros [|i] Hi; [reflexivity|].
  change (length (u "a")) with 1%nat in Hi. lia.
Defined.

Lemma run_leaves_other_directories_witness :
  fs (run always_alive always_reachable recovering_service sample_parse Module_
        sample_config seven_world).1 !! u "/in" = fs seven_world !! u "/in".
Proof.
  apply (run_leaves_other_directories always_alive always_reachable
           recovering_service sample_parse Module_ sample_config seven_world _
           (run always_alive always_reachable recovering_service sample_parse
              Module_ sample_config seven_world).2).
  - by destruct (run _ _ _ _ _ _ _).
  - vm_compute. reflexivity.
  - unfold working_dirs.
    repeat (apply Forall_cons_2; [apart_by_computation|]).
    apply Forall_nil_2.
Defined.

Lemma body_text_marker_free_witness :
  exists w,
    w `prefix_of` (u "Intro" ++ blank_line ++ u "See ") /\
    clean_body body_mention = Py.strip w.
Proof.
  destruct (body_text_marker_free body_mention) as (_ & H & _).
  apply (H (u "references") (u "Intro" ++ blank_line ++ u "See ")
           (u "References here" ++ blank_line ++ u "Later")).
  - by left.
  - reflexivity.
  - vm_compute. reflexivity.
Defined.

Lemma harvest_copies_all_witness :
  exists w' d_tei',
    harvest sample_parse Module_ sample_config harvest_world = (w', Ok tt) /\
    fs w' !! tei_folder Module_ sample_config = Some d_tei' /\
    entry d_tei' (u "a.tei.xml") = Some (File (u "<TEI/>")).
Proof.
  destruct (harvest_copies_all sample_parse Module_ sample_config harvest_world
              [(u "a.tei.xml", File (u "<TEI/>"))] [])
    as (w' & d' & H1 & _ & _ & _ & H2 & H3).
  - vm_compute. reflexivity.
  - vm_compute. reflexivity.
  - intros n Hn _. apply list_elem_of_singleton in Hn as ->.
    split; [exists (u "<TEI/>"); vm_compute; reflexivity|discriminate].
  - exists w', d'. split; [exact H1|]. split; [exact H2|].
    rewrite H3. vm_compute. reflexivity.
Defined.

Lemma discovered_documents_witness :
  exists pdfs,
    discover sample_config world_with_folder = (world_with_folder, Ok pdfs) /\
    (u "scans.pdf" ∈ pdfs <-> u "scans.pdf" ∈ [u "a.pdf"; u "scans.pdf"] /\
       exists base c1 c2 c3,
         u "scans.pdf" = base ++ [46; c1; c2; c3]%N /\
         (c1 = 112 \/ c1 = 80)%N /\ (c2 = 100 \/ c2 = 68)%N /\
         (c3 = 102 \/ c3 = 70)%N).
Proof.
  destruct (discovered_documents sample_config world_with_folder
              [(u "a.pdf", pdf_file); (u "scans.pdf", Dir)])
    as (pdfs & H1 & _ & H2 & _).
  - vm_compute. reflexivity.
  - exists pdfs. split; [exact H1|]. apply H2.
Defined.

Lemma blocks_are_stripped_witness :
  u "Intro" <> [] /\ Py.strip (u "Intro") = u "Intro".
Proof.
  destruct (blocks_are_stripped body_mention) as (_ & H & _).
  apply H. vm_compute. by left.
Defined.

Lemma nested_blocks_repeat_witness :
  block_text figure ∈ body_parts body_figure /\
  block_text figure_head ∈ body_parts body_figure /\
  exists a b, block_text figure = a ++ block_text figure_head ++ b.
Proof.
  apply (nested_blocks_repeat body_figure figure figure_head).
  - vm_compute. right. right. by left.
  - vm_compute. by left.
  - vm_compute. reflexivity.
  - vm_compute. reflexivity.
  - vm_compute. discriminate.
Defined.
